(** * bandar-baat API: spaced-repetition scheduling, progress statistics,
      story-content selection and exercise grading

    A shallow embedding of the Python sources under [apps/api/src] and the
    properties stated about them.

    Modelling conventions.
    - A Python [float] is an IEEE-754 binary64 value: Rocq's primitive
      [float], whose operations round to nearest-even as CPython's do.
    - A Python [int] is a [Z].
    - A Python [str] is a [string] of 8-bit code points (U+0000..U+00FF);
      code points above U+00FF are outside the model.
    - A raised exception is the [Raise] case of [Py.result].
    - A table with a primary key or a unique constraint is a [gmap] keyed by
      that key; the key columns are not repeated in the row record.
    - [datetime.utcnow()] is read as one instant [now] per request.
    - The external collaborators (the generative-text client, [json.loads],
      [func.random()]) are parameters of the functions that call them. *)

From Stdlib Require Import ZArith Floats String Ascii List Permutation Sorted Lia Bool.
From stdpp Require Import base option list sorting gmap strings pretty.

Set Warnings "-inexact-float,-register-all".
Local Open Scope Z_scope.

(** ** Python built-ins *)

Module Py.

(** Exceptions the modelled code can raise. *)
Inductive exn : Type :=
  | ValueError
  | OverflowError
  | IndexError
  | AttributeError
  | JSONDecodeError
  | RecursionError
  | APIError
  | RequestValidationError
  | HTTPException (status_code : Z).

Inductive result (A : Type) : Type :=
  | Ok (a : A)
  | Raise (e : exn).
Arguments Ok {A} a.
Arguments Raise {A} e.

Definition is_Ok {A} (r : result A) : Prop :=
  match r with Ok _ => True | Raise _ => False end.

#[global] Instance result_ret : MRet result := fun A a => Ok a.
#[global] Instance result_bind : MBind result := fun A B f m =>
  match m with
  | Ok a => f a
  | Raise e => Raise e
  end.

(** *** Numbers *)

(** [float(n)] for an [int] [n]: the nearest binary64 value.  (CPython raises
    [OverflowError] above the largest finite float; no [int] converted by the
    modelled code is that large.) *)
Definition float_of_int (n : Z) : float :=
  SF2Prim (binary_normalize prec emax n 0 false).

(** [a / b] on two [int]s (true division), [b] non-zero: CPython returns the
    correctly rounded quotient, which is [float(a) / float(b)] whenever both
    conversions are exact (below 2^53 in magnitude). *)
Definition int_truediv (a b : Z) : float :=
  (float_of_int a / float_of_int b)%float.

(** A number attribute holds an [int] or a [float]: a column read from the
    database is a [float], an attribute assigned [1], [6] or the result of
    [round] is an [int]. *)
Inductive number : Type :=
  | Int (n : Z)
  | Float (f : float).

(** The operand conversion of [x * y] with [y] a [float]; CPython raises
    [OverflowError] for an [int] beyond the finite floats. *)
Definition to_float (x : number) : result float :=
  match x with
  | Int n =>
      let f := float_of_int n in
      if is_infinity f then Raise OverflowError else Ok f
  | Float f => Ok f
  end.

(** [x == k] and [x >= k] against an [int] literal [k] (exact in binary64). *)
Definition number_eq (x : number) (k : Z) : bool :=
  match x with
  | Int n => n =? k
  | Float f => (f =? float_of_int k)%float
  end.

Definition number_ge (x : number) (k : Z) : bool :=
  match x with
  | Int n => k <=? n
  | Float f => (float_of_int k <=? f)%float
  end.

(** The value a [Float] column stores for a number. *)
Definition column_float (x : number) : float :=
  match x with
  | Int n => float_of_int n
  | Float f => f
  end.

(** [max(a, b)] and [min(a, b)] on two arguments: the built-ins keep the first
    argument unless the second compares strictly greater (smaller). *)
Definition max_float (a b : float) : float := if (a <? b)%float then b else a.
Definition min_float (a b : float) : float := if (b <? a)%float then b else a.
Definition max_int (a b : Z) : Z := if a <? b then b else a.

(** [round(x)] with one argument: the nearest integer, ties to even, as an
    [int]; [ValueError] on NaN and [OverflowError] on an infinity. *)
Definition round_half_even (m : positive) (e : Z) : Z :=
  match e with
  | Zneg k =>
      let d := 2 ^ Zpos k in
      let q := Zpos m / d in
      let r := Zpos m mod d in
      if 2 * r <? d then q
      else if d <? 2 * r then q + 1
      else if Z.even q then q else q + 1
  | _ => Zpos m * 2 ^ e
  end.

Definition round (x : float) : result Z :=
  match Prim2SF x with
  | S754_zero _ => Ok 0
  | S754_infinity _ => Raise OverflowError
  | S754_nan => Raise ValueError
  | S754_finite s m e =>
      let n := round_half_even m e in
      Ok (if s then - n else n)
  end.

(** *** Dates and times *)

(** A naive [datetime] is its number of microseconds since
    0001-01-01T00:00:00; a [date] is its number of days since 0001-01-01. *)
Definition datetime := Z.
Definition date := Z.

Definition microseconds_per_day : Z := 86400000000.
(** [datetime.max] is 9999-12-31T23:59:59.999999, whose ordinal is 3652059. *)
Definition datetime_max : datetime := 3652059 * microseconds_per_day - 1.

(** [dt.date()] *)
Definition date_of (dt : datetime) : date := dt / microseconds_per_day.

(** [timedelta(days=n)] for an [int] [n], in microseconds. *)
Definition timedelta_days (n : Z) : result Z :=
  if 999999999 <? Z.abs n then Raise OverflowError
  else Ok (n * microseconds_per_day).

(** [dt + delta] *)
Definition datetime_add (dt : datetime) (delta : Z) : result datetime :=
  let r := dt + delta in
  if (0 <=? r) && (r <=? datetime_max) then Ok r else Raise OverflowError.

(** [dt + timedelta(days=n)] *)
Definition add_days (dt : datetime) (n : Z) : result datetime :=
  delta ← timedelta_days n; datetime_add dt delta.

(** *** Strings *)

Definition code (c : ascii) : N := N_of_ascii c.

(** [str.lower()] on the code points of the model: A-Z, and the upper-case
    letters of the Latin-1 supplement (U+00C0..U+00DE without U+00D7). *)
Definition lower_char (c : ascii) : ascii :=
  let n := code c in
  if ((65 <=? n) && (n <=? 90) || (192 <=? n) && (n <=? 222) && negb (n =? 215))%N
  then ascii_of_N (n + 32)
  else c.

Fixpoint lower (s : string) : string :=
  match s with
  | EmptyString => EmptyString
  | String c s' => String (lower_char c) (lower s')
  end.

(** White space as [str.strip()] sees it, below U+0100. *)
Definition is_space (c : ascii) : bool :=
  let n := code c in
  ((9 <=? n) && (n <=? 13) || (28 <=? n) && (n <=? 32) || (n =? 133) || (n =? 160))%N.

Fixpoint lstrip (s : string) : string :=
  match s with
  | EmptyString => EmptyString
  | String c s' => if is_space c then lstrip s' else s
  end.

Fixpoint rstrip (s : string) : string :=
  match s with
  | EmptyString => EmptyString
  | String c s' =>
      match rstrip s' with
      | EmptyString => if is_space c then EmptyString else String c EmptyString
      | r => String c r
      end
  end.

Definition strip (s : string) : string := rstrip (lstrip s).

(** [sub in s] *)
Fixpoint contains (sub s : string) : bool :=
  String.prefix sub s ||
  match s with
  | EmptyString => false
  | String _ s' => contains sub s'
  end.

(** [s.replace(old, new)] for a non-empty [old]: occurrences are replaced left
    to right without overlap.  [skip] counts the characters of a matched
    occurrence that are still to be dropped. *)
Fixpoint replace_from (old new : string) (skip : nat) (s : string) : string :=
  match s with
  | EmptyString => EmptyString
  | String c s' =>
      match skip with
      | S k => replace_from old new k s'
      | O =>
          if String.prefix old s
          then new +:+ replace_from old new (String.length old - 1) s'
          else String c (replace_from old new 0 s')
      end
  end.

Definition replace (old new s : string) : string := replace_from old new 0 s.

(** [s.split(sep)] for a non-empty [sep]; [cur] is the part being read. *)
Fixpoint split_from (sep : string) (skip : nat) (cur : string) (s : string)
  : list string :=
  match s with
  | EmptyString => [cur]
  | String c s' =>
      match skip with
      | S k => split_from sep k cur s'
      | O =>
          if String.prefix sep s
          then cur :: split_from sep (String.length sep - 1) EmptyString s'
          else split_from sep 0 (cur +:+ String c EmptyString) s'
      end
  end.

Definition split (sep s : string) : list string := split_from sep 0 EmptyString s.

(** [l[i]] for [i >= 0] *)
Definition getitem {A} (l : list A) (i : nat) : result A :=
  match l !! i with
  | Some a => Ok a
  | None => Raise IndexError
  end.

(** *** Decoded JSON *)

(** What [json.loads] returns: [None], [bool], [int], [float], [str], [list]
    or [dict] (string keys, in document order). *)
Inductive json : Type :=
  | JNull
  | JBool (b : bool)
  | JInt (n : Z)
  | JFloat (f : float)
  | JStr (s : string)
  | JList (l : list json)
  | JDict (d : list (string * json)).

(** [d.get(key, default)] on a [dict] *)
Fixpoint dict_get (d : list (string * json)) (key : string) (default : json) : json :=
  match d with
  | [] => default
  | (k, v) :: d' => if String.eqb k key then v else dict_get d' key default
  end.

End Py.

(** ** Data model ([db/models.py]) *)

Module models.

(** The enumerations, each in a module of its name so that members read as
    in the source ([WordStatus.LEARNING], [GrammarStatus.LEARNING]). *)
Module CEFRLevel.
Inductive t : Type := A1 | A2 | B1 | B2.
#[global] Instance eq_dec : EqDecision t.
Proof. solve_decision. Defined.
End CEFRLevel.

Module WordStatus.
Inductive t : Type := NEW | LEARNING | KNOWN | MASTERED.
#[global] Instance eq_dec : EqDecision t.
Proof. solve_decision. Defined.
End WordStatus.

Module GrammarStatus.
Inductive t : Type := LOCKED | AVAILABLE | LEARNING | LEARNED.
#[global] Instance eq_dec : EqDecision t.
Proof. solve_decision. Defined.
End GrammarStatus.

Module WordSource.
Inductive t : Type := SEEDED | STORY | MANUAL | REVIEW.
End WordSource.

Module ExerciseType.
Inductive t : Type :=
  | COMPREHENSION
  | FILL_BLANK
  | TRANSLATE_TO_HINDI
  | TRANSLATE_TO_ENGLISH
  | WORD_ORDER
  | MULTIPLE_CHOICE.
#[global] Instance eq_dec : EqDecision t.
Proof. solve_decision. Defined.
End ExerciseType.

(** Identifiers are UUID strings. *)
Definition uuid := string.

(** [words], keyed by [id]. *)
Record Word : Type := {
  hindi : string;
  romanized : string;
  english : string;
  word_cefr_level : CEFRLevel.t;
}.

(** [grammar_concepts], keyed by [id]. *)
Record GrammarConcept : Type := {
  name : string;
  description : string;
  grammar_cefr_level : CEFRLevel.t;
  sort_order : Z;
}.

(** [user_words], keyed by [(user_id, word_id)] (constraint [uq_user_word]). *)
Record UserWord : Type := {
  status : WordStatus.t;
  familiarity : float;
  times_seen : Z;
  times_reviewed : Z;
  times_correct : Z;
  last_seen_at : option Py.datetime;
  next_review_at : option Py.datetime;
  srs_interval_days : Py.number;
  srs_ease_factor : float;
  source : WordSource.t;
  created_at : Py.datetime;
}.

(** [user_grammars], keyed by [(user_id, grammar_concept_id)]
    (constraint [uq_user_grammar]). *)
Record UserGrammar : Type := {
  grammar_status : GrammarStatus.t;
  comfort_score : float;
}.

(** [stories]: the columns the routes read or write. *)
Record Story : Type := {
  story_user_id : uuid;
  target_new_word_ids : list uuid;
  target_grammar_ids : list uuid;
  difficulty_level : CEFRLevel.t;
  rating : option Z;
  completed_at : option Py.datetime;
}.

(** [exercises] *)
Record Exercise : Type := {
  type : ExerciseType.t;
  question_json : list (string * Py.json);
  correct_answer : string;
}.

(** [learning_sessions] *)
Record LearningSession : Type := {
  session_user_id : uuid;
  started_at : Py.datetime;
  ended_at : option Py.datetime;
}.

(** The persisted state the modelled queries read. *)
Record Database : Type := {
  words : gmap uuid Word;
  grammar_concepts : gmap uuid GrammarConcept;
  user_words : gmap (uuid * uuid) UserWord;
  user_grammars : gmap (uuid * uuid) UserGrammar;
  stories : gmap uuid Story;
  learning_sessions : list LearningSession;
}.

(** The column defaults of a [UserWord] created with only [status],
    [times_seen] and [last_seen_at] given. *)
Definition new_UserWord (st : WordStatus.t) (seen : Z) (now : Py.datetime) : UserWord :=
  {| status := st;
     familiarity := 0%float;
     times_seen := seen;
     times_reviewed := 0;
     times_correct := 0;
     last_seen_at := Some now;
     next_review_at := None;
     srs_interval_days := Py.Float 1;
     srs_ease_factor := 2.5%float;
     source := WordSource.SEEDED;
     created_at := now |}.

(** Attribute assignment [user_word.f = v] on a [UserWord]. *)
Definition set_status (v : WordStatus.t) (user_word : UserWord) : UserWord :=
  {| status := v;
     familiarity := familiarity user_word;
     times_seen := times_seen user_word;
     times_reviewed := times_reviewed user_word;
     times_correct := times_correct user_word;
     last_seen_at := last_seen_at user_word;
     next_review_at := next_review_at user_word;
     srs_interval_days := srs_interval_days user_word;
     srs_ease_factor := srs_ease_factor user_word;
     source := source user_word;
     created_at := created_at user_word |}.

Definition set_familiarity (v : float) (user_word : UserWord) : UserWord :=
  {| status := status user_word;
     familiarity := v;
     times_seen := times_seen user_word;
     times_reviewed := times_reviewed user_word;
     times_correct := times_correct user_word;
     last_seen_at := last_seen_at user_word;
     next_review_at := next_review_at user_word;
     srs_interval_days := srs_interval_days user_word;
     srs_ease_factor := srs_ease_factor user_word;
     source := source user_word;
     created_at := created_at user_word |}.

Definition set_times_seen (v : Z) (user_word : UserWord) : UserWord :=
  {| status := status user_word;
     familiarity := familiarity user_word;
     times_seen := v;
     times_reviewed := times_reviewed user_word;
     times_correct := times_correct user_word;
     last_seen_at := last_seen_at user_word;
     next_review_at := next_review_at user_word;
     srs_interval_days := srs_interval_days user_word;
     srs_ease_factor := srs_ease_factor user_word;
     source := source user_word;
     created_at := created_at user_word |}.

Definition set_times_reviewed (v : Z) (user_word : UserWord) : UserWord :=
  {| status := status user_word;
     familiarity := familiarity user_word;
     times_seen := times_seen user_word;
     times_reviewed := v;
     times_correct := times_correct user_word;
     last_seen_at := last_seen_at user_word;
     next_review_at := next_review_at user_word;
     srs_interval_days := srs_interval_days user_word;
     srs_ease_factor := srs_ease_factor user_word;
     source := source user_word;
     created_at := created_at user_word |}.

Definition set_times_correct (v : Z) (user_word : UserWord) : UserWord :=
  {| status := status user_word;
     familiarity := familiarity user_word;
     times_seen := times_seen user_word;
     times_reviewed := times_reviewed user_word;
     times_correct := v;
     last_seen_at := last_seen_at user_word;
     next_review_at := next_review_at user_word;
     srs_interval_days := srs_interval_days user_word;
     srs_ease_factor := srs_ease_factor user_word;
     source := source user_word;
     created_at := created_at user_word |}.

Definition set_last_seen_at (v : option Py.datetime) (user_word : UserWord) : UserWord :=
  {| status := status user_word;
     familiarity := familiarity user_word;
     times_seen := times_seen user_word;
     times_reviewed := times_reviewed user_word;
     times_correct := times_correct user_word;
     last_seen_at := v;
     next_review_at := next_review_at user_word;
     srs_interval_days := srs_interval_days user_word;
     srs_ease_factor := srs_ease_factor user_word;
     source := source user_word;
     created_at := created_at user_word |}.

Definition set_next_review_at (v : option Py.datetime) (user_word : UserWord) : UserWord :=
  {| status := status user_word;
     familiarity := familiarity user_word;
     times_seen := times_seen user_word;
     times_reviewed := times_reviewed user_word;
     times_correct := times_correct user_word;
     last_seen_at := last_seen_at user_word;
     next_review_at := v;
     srs_interval_days := srs_interval_days user_word;
     srs_ease_factor := srs_ease_factor user_word;
     source := source user_word;
     created_at := created_at user_word |}.

Definition set_srs_interval_days (v : Py.number) (user_word : UserWord) : UserWord :=
  {| status := status user_word;
     familiarity := familiarity user_word;
     times_seen := times_seen user_word;
     times_reviewed := times_reviewed user_word;
     times_correct := times_correct user_word;
     last_seen_at := last_seen_at user_word;
     next_review_at := next_review_at user_word;
     srs_interval_days := v;
     srs_ease_factor := srs_ease_factor user_word;
     source := source user_word;
     created_at := created_at user_word |}.

Definition set_srs_ease_factor (v : float) (user_word : UserWord) : UserWord :=
  {| status := status user_word;
     familiarity := familiarity user_word;
     times_seen := times_seen user_word;
     times_reviewed := times_reviewed user_word;
     times_correct := times_correct user_word;
     last_seen_at := last_seen_at user_word;
     next_review_at := next_review_at user_word;
     srs_interval_days := srs_interval_days user_word;
     srs_ease_factor := v;
     source := source user_word;
     created_at := created_at user_word |}.

(** The [UserWord] rows of one user, as the [WHERE user_id = ...] queries see
    them. *)
Definition user_word_rows (db : Database) (user_id : uuid) : list (uuid * UserWord) :=
  omap (fun kv : (uuid * uuid) * UserWord =>
          if bool_decide (kv.1.1 = user_id) then Some (kv.1.2, kv.2) else None)
       (map_to_list (user_words db)).

(** [SELECT count(id) FROM user_words WHERE user_id = ... AND status IN
    (KNOWN, MASTERED)], the query shared by the level computations. *)
Definition count_words_known (db : Database) (user_id : uuid) : Z :=
  Z.of_nat (length (filter (fun r : uuid * UserWord =>
                              status r.2 = WordStatus.KNOWN \/ status r.2 = WordStatus.MASTERED)
                           (user_word_rows db user_id))).

End models.

(** ** Review scheduling ([routes/reviews.py]) *)

Module reviews.
Import models.

(** [ReviewSubmitRequest]: [quality: int = Field(..., ge=0, le=5)].  A request
    outside the range is rejected before the handler runs. *)
Definition ReviewSubmitRequest (quality : Z) : Py.result Z :=
  if (0 <=? quality) && (quality <=? 5) then Py.Ok quality
  else Py.Raise Py.RequestValidationError.

(** The ease-factor increment of the SM-2 algorithm,
    [0.1 - (5 - quality) * (0.08 + (5 - quality) * 0.02)]. *)
Definition ease_delta (quality : Z) : float :=
  (0.1 - Py.float_of_int (5 - quality)
         * (0.08 + Py.float_of_int (5 - quality) * 0.02))%float.

(** [submit_review], from the row found for [user_word_id] on.  [interval]
    is the [int] the algorithm assigns to [srs_interval_days] ([1], [6] or
    the result of [round]), which [timedelta] and the status test read back.
    An exception leaves the request before [db.commit()], so no row is
    written. *)
Definition submit_review (user_word : UserWord) (quality : Z) (now : Py.datetime)
  : Py.result UserWord :=
  quality ← ReviewSubmitRequest quality;
  (* SM-2 algorithm *)
  '(user_word, interval) ←
    (if quality <? 3 then
       (* Failed review - reset interval *)
       mret (user_word, 1)
     else
       (* Update ease factor *)
       let user_word :=
         set_srs_ease_factor
           (Py.max_float 1.3 (srs_ease_factor user_word + ease_delta quality))
           user_word in
       (* Calculate new interval *)
       if Py.number_eq (srs_interval_days user_word) 0 then mret (user_word, 1)
       else if Py.number_eq (srs_interval_days user_word) 1 then mret (user_word, 6)
       else
         prior ← Py.to_float (srs_interval_days user_word);
         n ← Py.round (prior * srs_ease_factor user_word)%float;
         mret (user_word, n));
  let user_word := set_srs_interval_days (Py.Int interval) user_word in
  (* Update review tracking *)
  let user_word := set_times_reviewed (times_reviewed user_word + 1) user_word in
  let user_word := set_last_seen_at (Some now) user_word in
  next ← Py.add_days now interval;
  let user_word := set_next_review_at (Some next) user_word in
  let user_word :=
    if 3 <=? quality
    then set_times_correct (times_correct user_word + 1) user_word
    else user_word in
  (* Update status based on familiarity *)
  let user_word :=
    set_familiarity
      (Py.min_float 1
         (Py.int_truediv (times_correct user_word)
                         (Py.max_int 1 (times_reviewed user_word))))
      user_word in
  let user_word :=
    if (0.9 <=? familiarity user_word)%float && (21 <=? interval)
    then set_status WordStatus.MASTERED user_word
    else if (0.7 <=? familiarity user_word)%float
    then set_status WordStatus.KNOWN user_word
    else set_status WordStatus.LEARNING user_word in
  mret user_word.

(** [ReviewSubmitResponse] as built from the updated row. *)
Record ReviewSubmitResponse : Type := {
  resp_next_review_at : option Py.datetime;
  new_interval_days : float;
  resp_status : WordStatus.t;
}.

Definition submit_review_response (user_word : UserWord) : ReviewSubmitResponse :=
  {| resp_next_review_at := next_review_at user_word;
     new_interval_days := Py.column_float (srs_interval_days user_word);
     resp_status := status user_word |}.

(** [db.commit()] writes the interval into its [Float] column. *)
Definition committed (user_word : UserWord) : UserWord :=
  set_srs_interval_days (Py.Float (Py.column_float (srs_interval_days user_word)))
                        user_word.

(** The row as persisted after one review request: the updated row when the
    request succeeds, the old one when it raises. *)
Definition reviewed (user_word : UserWord) (request : Z * Py.datetime) : UserWord :=
  match submit_review user_word request.1 request.2 with
  | Py.Ok user_word' => committed user_word'
  | Py.Raise _ => user_word
  end.

(** The rows persisted after each request of a history, oldest first. *)
Fixpoint review_history (user_word : UserWord) (requests : list (Z * Py.datetime))
  : list UserWord :=
  match requests with
  | [] => []
  | request :: requests' =>
      let user_word' := reviewed user_word request in
      user_word' :: review_history user_word' requests'
  end.

End reviews.

(** ** Progress statistics ([routes/users.py]) *)

Module users.
Import models.

(** [ORDER BY started_at DESC] *)
Definition later_first (a b : Py.datetime) : Prop := b <= a.

#[global] Instance later_first_dec : RelDecision later_first.
Proof. intros a b; unfold later_first; apply _. Defined.

(** The query of [_calculate_streak]: the start times of the user's sessions
    that have an end time, latest first. *)
Definition completed_sessions (db : Database) (user_id : uuid) : list Py.datetime :=
  merge_sort later_first
    (map started_at
       (filter (fun s => session_user_id s = user_id /\ ended_at s <> None)
               (learning_sessions db))).

(** The [for session in sessions] loop, with its two variables. *)
Fixpoint streak_loop (sessions : list Py.datetime) (streak : Z) (current_date : Py.date)
  : Z :=
  match sessions with
  | [] => streak
  | session :: sessions' =>
      let session_date := Py.date_of session in
      if session_date =? current_date then
        streak_loop sessions' (Py.max_int streak 1) current_date
      else if session_date =? current_date - 1 then
        streak_loop sessions' (streak + 1) session_date
      else streak
  end.

Definition _calculate_streak (db : Database) (user_id : uuid) (now : Py.datetime) : Z :=
  let sessions := completed_sessions db user_id in
  match sessions with
  | [] => 0
  | _ => streak_loop sessions 0 (Py.date_of now)
  end.

Definition _determine_level (words_known : Z) : CEFRLevel.t :=
  if words_known <? 100 then CEFRLevel.A1
  else if words_known <? 300 then CEFRLevel.A2
  else if words_known <? 600 then CEFRLevel.B1
  else CEFRLevel.B2.

(** [get_stats]: the level and streak of the dashboard. *)
Record UserStats : Type := {
  stats_words_known : Z;
  level : CEFRLevel.t;
  streak_days : Z;
}.

Definition get_stats (db : Database) (user_id : uuid) (now : Py.datetime) : UserStats :=
  let words_known := count_words_known db user_id in
  {| stats_words_known := words_known;
     level := _determine_level words_known;
     streak_days := _calculate_streak db user_id now |}.

End users.

(** ** Story generation inputs and response parsing
       ([services/story_generator.py]) *)

Module story_generator.
Import models.

(** The fence handling of [_parse_response] (and, in the same words, of
    [evaluate_with_llm]):
    the text between the first code fence and the next one. *)
Definition unfence (response : string) : Py.result string :=
  if Py.contains "```json" response then
    rest ← Py.getitem (Py.split "```json" response) 1;
    Py.getitem (Py.split "```" rest) 0
  else if Py.contains "```" response then
    rest ← Py.getitem (Py.split "```" response) 1;
    Py.getitem (Py.split "```" rest) 0
  else mret response.


(** The threshold chain shared by [_determine_user_level] and
    [get_ready_story_info]. *)
Definition level_for (words_known : Z) : CEFRLevel.t :=
  if words_known <? 50 then CEFRLevel.A1
  else if words_known <? 150 then CEFRLevel.A2
  else if words_known <? 400 then CEFRLevel.B1
  else CEFRLevel.B2.

Definition _determine_user_level (db : Database) (user_id : uuid) : CEFRLevel.t :=
  let words_known := count_words_known db user_id in
  level_for words_known.

(** [_get_known_words]: the ids of up to 300 words the user knows or is
    learning. *)
Definition _get_known_words (db : Database) (user_id : uuid) : list uuid :=
  take 300
    (fmap fst
       (filter (fun r : uuid * UserWord =>
                  status r.2 = WordStatus.KNOWN \/ status r.2 = WordStatus.MASTERED
                  \/ status r.2 = WordStatus.LEARNING)
               (user_word_rows db user_id))).

Section Selection.

(** [ORDER BY random()]: some rearrangement of the rows it is given. *)
Variable random_order : list (uuid * Word) -> list (uuid * Word).

(** [_select_new_words]: the selected rows of [words], each with its id. *)
Definition _select_new_words (db : Database) (user_id : uuid)
    (level : CEFRLevel.t) (include_ids : list uuid) : list (uuid * Word) :=
  (* First, get any specifically requested words *)
  let included_words :=
    match include_ids with
    | [] => []
    | _ => filter (fun w : uuid * Word => w.1 ∈ include_ids) (map_to_list (words db))
    end in
  (* Then get additional new words at appropriate level *)
  let needed := Py.max_int 0 (3 - Z.of_nat (length included_words)) in
  let included_words :=
    if 0 <? needed then
      included_words ++
      take (Z.to_nat (needed + 2))
        (random_order
           (filter (fun w : uuid * Word =>
                      word_cefr_level w.2 = level
                      /\ user_words db !! (user_id, w.1) = None
                      /\ w.1 ∉ included_words.*1)
                   (map_to_list (words db))))
    else included_words in
  take 5 included_words.

(** [ORDER BY sort_order] *)
Definition by_sort_order (a b : uuid * GrammarConcept) : Prop :=
  sort_order a.2 <= sort_order b.2.

#[global] Instance by_sort_order_dec : RelDecision by_sort_order.
Proof. intros a b; unfold by_sort_order; apply _. Defined.

(** The join condition of [_get_available_grammar] on the user's progress row
    for a concept, if there is one. *)
Definition in_practice (progress : option UserGrammar) : Prop :=
  match progress with
  | Some ug => grammar_status ug = GrammarStatus.LEARNING
               \/ grammar_status ug = GrammarStatus.AVAILABLE
  | None => False
  end.

#[global] Instance in_practice_dec progress : Decision (in_practice progress).
Proof. destruct progress; simpl; apply _. Defined.

(** [_get_available_grammar]: [focus_id] is [None], or a string that is
    false when empty. *)
Definition _get_available_grammar (db : Database) (user_id : uuid)
    (focus_id : option uuid) : list (uuid * GrammarConcept) :=
  let concept :=
    match focus_id with
    | Some id => if bool_decide (id = EmptyString) then None
                 else (fun c => (id, c)) <$> grammar_concepts db !! id
    | None => None
    end in
  match concept with
  | Some concept => [concept]
  | None =>
      (* Get grammar concepts the user is learning *)
      take 2
        (merge_sort by_sort_order
           (filter (fun g : uuid * GrammarConcept =>
                      in_practice (user_grammars db !! (user_id, g.1)))
                   (map_to_list (grammar_concepts db))))
  end.

(** What [generate_story] hands to [_build_prompt]: the level, the known
    vocabulary, the new words and the grammar concepts. *)
Record GenerationInputs : Type := {
  gen_level : CEFRLevel.t;
  known_words : list uuid;
  new_words : list (uuid * Word);
  gen_grammar_concepts : list (uuid * GrammarConcept);
}.

Definition generate_story_inputs (db : Database) (user_id : uuid)
    (include_word_ids : list uuid) (focus_grammar_id : option uuid)
    (difficulty_override : option CEFRLevel.t) : GenerationInputs :=
  (* Determine difficulty level *)
  let level :=
    match difficulty_override with
    | Some level => level
    | None => _determine_user_level db user_id
    end in
  {| gen_level := level;
     known_words := _get_known_words db user_id;
     new_words := _select_new_words db user_id level include_word_ids;
     gen_grammar_concepts := _get_available_grammar db user_id focus_grammar_id |}.

End Selection.

Section Parsing.

(** [json.loads]: the decoded value, or the exception it raises:
    [JSONDecodeError] for a text that is not JSON, but also [RecursionError]
    for brackets nested too deep and [ValueError] for an integer literal with
    too many digits. *)
Variable json_loads : string -> Py.result Py.json.

(** The structure returned when decoding fails. *)
Definition basic_structure (response : string) : Py.json :=
  Py.JDict
    [("title", Py.JStr "Generated Story");
     ("content_hindi", Py.JStr response);
     ("content_romanized", Py.JStr "");
     ("content_english", Py.JStr "");
     ("word_count", Py.JInt 0);
     ("sentences", Py.JList []);
     ("exercises", Py.JList [])]%string.

(** [_parse_response]: only [JSONDecodeError] is caught, any other exception
    passes to the caller; [response] is the variable reassigned by the fence
    handling. *)
Definition _parse_response (response : string) : Py.result Py.json :=
  response ← unfence response;
  match json_loads (Py.strip response) with
  | Py.Ok data => mret data
  | Py.Raise Py.JSONDecodeError => mret (basic_structure response)
  | Py.Raise e => Py.Raise e
  end.

End Parsing.

End story_generator.

(** ** Exercise grading ([services/exercise_evaluator.py]) *)

Module exercise_evaluator.
Import models.

(** [EvaluationResult]: a dataclass, so the fields hold whatever they are
    given; on the collaborator's path that is decoded JSON. *)
Record EvaluationResult : Type := {
  is_correct : Py.json;
  feedback : Py.json;
}.

Definition _normalize (text : string) : string :=
  Py.replace "  " " " (Py.strip (Py.lower text)).

(** The [replacements] dict, in insertion order. *)
Definition replacements : list (string * string) :=
  [("aa", "a"); ("ee", "i"); ("oo", "u"); ("sh", "s"); ("th", "t"); ("dh", "d");
   ("bh", "b"); ("ph", "f"); ("kh", "k"); ("gh", "g"); ("chh", "ch")]%string.

Definition _simplify_romanization (text : string) : string :=
  foldl (fun result r => Py.replace r.1 r.2 result) text replacements.

(** The inner [for j, c2 in enumerate(s2)] loop of [_levenshtein_distance]. *)
Fixpoint levenshtein_row (previous_row : list Z) (c1 : ascii) (j : nat)
    (s2 : list ascii) (current_row : list Z) : list Z :=
  match s2 with
  | [] => current_row
  | c2 :: s2' =>
      let insertions := previous_row !!! (j + 1)%nat + 1 in
      let deletions := current_row !!! j + 1 in
      let substitutions := previous_row !!! j + (if bool_decide (c1 <> c2) then 1 else 0) in
      levenshtein_row previous_row c1 (S j) s2'
        (current_row ++ [Z.min (Z.min insertions deletions) substitutions])
  end.

(** The outer [for i, c1 in enumerate(s1)] loop. *)
Fixpoint levenshtein_rows (i : nat) (s1 s2 : list ascii) (previous_row : list Z)
  : list Z :=
  match s1 with
  | [] => previous_row
  | c1 :: s1' =>
      let current_row := levenshtein_row previous_row c1 0 s2 [Z.of_nat i + 1] in
      levenshtein_rows (S i) s1' s2 current_row
  end.

(** The body of [_levenshtein_distance] once [len(s1) >= len(s2)]. *)
Definition levenshtein_ordered (s1 s2 : list ascii) : Z :=
  match s2 with
  | [] => Z.of_nat (length s1)
  | _ =>
      let previous_row := map Z.of_nat (seq 0 (length s2 + 1)) in
      List.last (levenshtein_rows 0 s1 s2 previous_row) 0
  end.

Definition _levenshtein_distance (s1 s2 : string) : Z :=
  let s1 := list_ascii_of_string s1 in
  let s2 := list_ascii_of_string s2 in
  if (length s1 <? length s2)%nat then levenshtein_ordered s2 s1
  else levenshtein_ordered s1 s2.

Definition _fuzzy_match (answer expected : string) : bool :=
  let answer_normalized := _normalize answer in
  let expected_normalized := _normalize expected in
  (* Exact match *)
  if String.eqb answer_normalized expected_normalized then true
  else
    (* Check if romanized versions match (handle diacritics) *)
    let answer_simple := _simplify_romanization answer_normalized in
    let expected_simple := _simplify_romanization expected_normalized in
    if String.eqb answer_simple expected_simple then true
    (* Allow for very close matches (1-2 character difference for short words) *)
    else if (String.length expected_normalized <=? 6)%nat then
      _levenshtein_distance answer_normalized expected_normalized <=? 1
    else _levenshtein_distance answer_normalized expected_normalized <=? 2.

(** What one call of the generative-text client does: it raises, or it
    returns a message whose content blocks carry these texts. *)
Inductive llm_reply : Type :=
  | LlmRaises
  | LlmMessage (content : list string).

Section Evaluation.

(** [json.loads]: the decoded value, or the exception it raises. *)
Variable json_loads : string -> Py.result Py.json.

(** The body of the [try] block of [evaluate_with_llm]. *)
Definition llm_verdict (reply : llm_reply) : Py.result EvaluationResult :=
  content ← match reply with
            | LlmMessage content => Py.Ok content
            | LlmRaises => Py.Raise Py.APIError
            end;
  response_text ← Py.getitem content 0;
  (* Parse response *)
  response_text ← story_generator.unfence response_text;
  result ← json_loads (Py.strip response_text);
  match result with
  | Py.JDict d =>
      mret {| is_correct := Py.dict_get d "is_correct" (Py.JBool false);
              feedback := Py.dict_get d "feedback" Py.JNull |}
  | _ => Py.Raise Py.AttributeError
  end.

(** [evaluate_with_llm]; [reply] is what the client does with the grading
    prompt built from the exercise and the answer. *)
Definition evaluate_with_llm (reply : llm_reply) (exercise : Exercise)
    (user_answer : string) : EvaluationResult :=
  match llm_verdict reply with
  | Py.Ok result => result
  | Py.Raise _ =>
      (* Fallback to simple comparison if LLM fails *)
      let is_correct := _fuzzy_match user_answer (correct_answer exercise) in
      {| is_correct := Py.JBool is_correct;
         feedback := if is_correct then Py.JStr "Good attempt!"
                     else Py.JStr ("Expected something like: " +:+ correct_answer exercise) |}
  end.

Definition evaluate (reply : llm_reply) (exercise : Exercise) (user_answer : string)
  : EvaluationResult :=
  (* For multiple choice and simple matching, do exact comparison *)
  if bool_decide (type exercise ∈ [ExerciseType.MULTIPLE_CHOICE; ExerciseType.COMPREHENSION]) then
    let is_correct := String.eqb (_normalize user_answer) (_normalize (correct_answer exercise)) in
    {| is_correct := Py.JBool is_correct;
       feedback := if is_correct then Py.JNull
                   else Py.JStr ("The correct answer was: " +:+ correct_answer exercise) |}
  (* For fill in the blank, be more lenient *)
  else if bool_decide (type exercise = ExerciseType.FILL_BLANK) then
    let is_correct := _fuzzy_match user_answer (correct_answer exercise) in
    {| is_correct := Py.JBool is_correct;
       feedback := if is_correct then Py.JNull
                   else Py.JStr ("Expected: " +:+ correct_answer exercise) |}
  (* For translation exercises, use LLM evaluation *)
  else if bool_decide (type exercise ∈ [ExerciseType.TRANSLATE_TO_HINDI;
                                        ExerciseType.TRANSLATE_TO_ENGLISH]) then
    evaluate_with_llm reply exercise user_answer
  (* Word order - check if all words are present in correct order *)
  else if bool_decide (type exercise = ExerciseType.WORD_ORDER) then
    let is_correct := String.eqb (_normalize user_answer) (_normalize (correct_answer exercise)) in
    {| is_correct := Py.JBool is_correct;
       feedback := if is_correct then Py.JNull
                   else Py.JStr ("Correct order: " +:+ correct_answer exercise) |}
  else {| is_correct := Py.JBool false; feedback := Py.JStr "Unknown exercise type" |}.

End Evaluation.

End exercise_evaluator.

(** ** Story routes ([routes/stories.py]) *)

Module stories.
Import models.

(** [get_ready_story_info] *)
Record ReadyStoryInfo : Type := {
  ready : bool;
  ready_level : CEFRLevel.t;
  new_words_available : nat;
}.

Definition get_ready_story_info (db : Database) (user_id : uuid) : ReadyStoryInfo :=
  (* Count user's known words *)
  let words_known := count_words_known db user_id in
  (* Determine appropriate level *)
  let level := story_generator.level_for words_known in
  (* Get available new words at this level *)
  let available_new_words :=
    take 5
      (filter (fun w : uuid * Word =>
                 word_cefr_level w.2 = level
                 /\ user_words db !! (user_id, w.1) = None)
              (map_to_list (words db))) in
  {| ready := (3 <=? length available_new_words)%nat;
     ready_level := level;
     new_words_available := length available_new_words |}.

(** One turn of the [for word_id in story.target_new_word_ids] loop of
    [complete_story], on the [user_words] table. *)
Definition mark_word_seen (user_id : uuid) (now : Py.datetime)
    (table : gmap (uuid * uuid) UserWord) (word_id : uuid)
  : gmap (uuid * uuid) UserWord :=
  match table !! (user_id, word_id) with
  | Some user_word =>
      let user_word := set_times_seen (times_seen user_word + 1) user_word in
      let user_word := set_last_seen_at (Some now) user_word in
      let user_word :=
        if bool_decide (status user_word = WordStatus.NEW)
        then set_status WordStatus.LEARNING user_word
        else user_word in
      <[(user_id, word_id) := user_word]> table
  | None =>
      <[(user_id, word_id) := new_UserWord WordStatus.LEARNING 1 now]> table
  end.

Definition set_user_words (table : gmap (uuid * uuid) UserWord) (db : Database)
  : Database :=
  {| words := words db;
     grammar_concepts := grammar_concepts db;
     user_words := table;
     user_grammars := user_grammars db;
     stories := stories db;
     learning_sessions := learning_sessions db |}.

Definition set_stories (table : gmap uuid Story) (db : Database) : Database :=
  {| words := words db;
     grammar_concepts := grammar_concepts db;
     user_words := user_words db;
     user_grammars := user_grammars db;
     stories := table;
     learning_sessions := learning_sessions db |}.

(** [StoryCompleteRequest]: [rating: Optional[int] = Field(None, ge=1, le=5)].
    A request with a rating outside the range is rejected before the handler
    runs. *)
Definition StoryCompleteRequest (rating : option Z) : Py.result (option Z) :=
  match rating with
  | Some r =>
      if (1 <=? r) && (r <=? 5) then Py.Ok rating
      else Py.Raise Py.RequestValidationError
  | None => Py.Ok rating
  end.

(** [complete_story]: [rating] is the rating of the request. *)
Definition complete_story (db : Database) (user_id : uuid) (story_id : uuid)
    (rating : option Z) (now : Py.datetime) : Py.result Database :=
  rating ← StoryCompleteRequest rating;
  story ← match stories db !! story_id with
          | Some story =>
              if bool_decide (story_user_id story = user_id) then Py.Ok story
              else Py.Raise (Py.HTTPException 404)
          | None => Py.Raise (Py.HTTPException 404)
          end;
  let story :=
    {| story_user_id := story_user_id story;
       target_new_word_ids := target_new_word_ids story;
       target_grammar_ids := target_grammar_ids story;
       difficulty_level := difficulty_level story;
       rating := match rating with
                 | Some r => if r =? 0 then models.rating story else Some r
                 | None => models.rating story
                 end;
       completed_at := Some now |} in
  (* Mark new words as seen *)
  let table := foldl (mark_word_seen user_id now) (user_words db)
                     (target_new_word_ids story) in
  mret (set_user_words table (set_stories (<[story_id := story]> (stories db)) db)).

End stories.

(** ** Review queue ([routes/reviews.py]) *)

Module review_queue.
Import models.

(** [next_review_at <= now AND status != MASTERED], the condition of the due
    queries.  A row without a due time ([NULL]) does not satisfy the
    comparison. *)
Definition due (now : Py.datetime) (user_word : UserWord) : Prop :=
  match next_review_at user_word with
  | Some t => t <= now
  | None => False
  end
  /\ status user_word <> WordStatus.MASTERED.

#[global] Instance due_dec now user_word : Decision (due now user_word).
Proof. unfold due. destruct (next_review_at user_word); apply _. Defined.

(** [ORDER BY next_review_at]: ascending, rows without a due time last. *)
Definition sooner_first (a b : uuid * UserWord) : Prop :=
  match next_review_at a.2, next_review_at b.2 with
  | Some s, Some t => s <= t
  | Some _, None => True
  | None, Some _ => False
  | None, None => True
  end.

#[global] Instance sooner_first_dec : RelDecision sooner_first.
Proof.
  intros a b. unfold sooner_first.
  destruct (next_review_at a.2), (next_review_at b.2); apply _.
Defined.

(** The rows of the user that are due, as the count of [get_review_summary]
    and the first query of [get_due_reviews] select them. *)
Definition due_rows (db : Database) (user_id : uuid) (now : Py.datetime)
  : list (uuid * UserWord) :=
  filter (fun r : uuid * UserWord => due now r.2) (user_word_rows db user_id).

Section DueReviews.

(** [.limit(n)] as the database applies it to the ordered rows: for
    [n >= 0] it keeps the first [n] of them; a negative [n], which the
    validation lets through, is answered as the database sees fit. *)
Variable limit_rows :
  Z -> list (uuid * UserWord) -> Py.result (list (uuid * UserWord)).

(** [get_due_reviews] ([limit: int = Query(20, le=50)]): the [user_word] of
    each [ReviewWordResponse] returned, in order.  The example sentences,
    looked up in the [sentences_json] of the stories, are not part of the
    model. *)
Definition get_due_reviews (db : Database) (user_id : uuid) (limit : Z)
    (now : Py.datetime) : Py.result (list (uuid * UserWord)) :=
  if 50 <? limit then Py.Raise Py.RequestValidationError
  else limit_rows limit (merge_sort sooner_first (due_rows db user_id now)).

End DueReviews.

(** [submit_review] with its lookup: [found] is the row that the query for
    [user_word_id] and the user returns ([scalar_one_or_none()]).  The body
    of the request is validated before the handler runs, so before the
    lookup; [reviews.submit_review] is the handler from the found row on,
    behind the same validation. *)
Definition submit_review_request (found : option UserWord) (quality : Z)
    (now : Py.datetime) : Py.result UserWord :=
  _ ← reviews.ReviewSubmitRequest quality;
  match found with
  | None => Py.Raise (Py.HTTPException 404)
  | Some user_word => reviews.submit_review user_word quality now
  end.

(** [now.replace(hour=0, minute=0, second=0, microsecond=0)] *)
Definition today_start (now : Py.datetime) : Py.datetime :=
  Py.date_of now * Py.microseconds_per_day.

(** [last_seen_at >= today_start] *)
Definition seen_since (start : Py.datetime) (user_word : UserWord) : Prop :=
  match last_seen_at user_word with
  | Some t => start <= t
  | None => False
  end.

#[global] Instance seen_since_dec start user_word : Decision (seen_since start user_word).
Proof. unfold seen_since. destruct (last_seen_at user_word); apply _. Defined.

(** The due times selected by the third query of [get_review_summary]:
    [next_review_at > now AND status != MASTERED]. *)
Definition upcoming (now : Py.datetime) (user_word : UserWord) : option Py.datetime :=
  match next_review_at user_word with
  | Some t =>
      if bool_decide (now < t /\ status user_word <> WordStatus.MASTERED)
      then Some t else None
  | None => None
  end.

Record ReviewSummary : Type := {
  words_due : Z;
  words_reviewed_today : Z;
  next_review_time : option Py.datetime;
}.

Definition get_review_summary (db : Database) (user_id : uuid) (now : Py.datetime)
  : ReviewSummary :=
  let today_start := today_start now in
  (* Count words due *)
  let words_due := Z.of_nat (length (due_rows db user_id now)) in
  (* Count words reviewed today *)
  let words_reviewed_today :=
    Z.of_nat (length (filter (fun r : uuid * UserWord => seen_since today_start r.2)
                             (user_word_rows db user_id))) in
  (* Get next review time *)
  let next_review_time :=
    head (merge_sort Z.le
            (omap (fun r : uuid * UserWord => upcoming now r.2)
                  (user_word_rows db user_id))) in
  {| words_due := words_due;
     words_reviewed_today := words_reviewed_today;
     next_review_time := next_review_time |}.

End review_queue.

(** ** Word routes ([routes/words.py]) *)

Module words.
Import models.

(** The row [UserWord(status=WordStatus.KNOWN, familiarity=0.8)] as inserted:
    the other columns take their defaults, [created_at] the time of the
    insertion. *)
Definition known_UserWord (now : Py.datetime) : UserWord :=
  {| status := WordStatus.KNOWN;
     familiarity := 0.8%float;
     times_seen := 0;
     times_reviewed := 0;
     times_correct := 0;
     last_seen_at := None;
     next_review_at := None;
     srs_interval_days := Py.Float 1;
     srs_ease_factor := 2.5%float;
     source := WordSource.SEEDED;
     created_at := now |}.

(** [mark_word_known] *)
Definition mark_word_known (db : Database) (user_id : uuid) (word_id : uuid)
    (now : Py.datetime) : Py.result Database :=
  (* Check if word exists *)
  match words db !! word_id with
  | None => Py.Raise (Py.HTTPException 404)
  | Some _ =>
      (* Get or create UserWord *)
      let user_word :=
        match user_words db !! (user_id, word_id) with
        | Some user_word =>
            let user_word := set_status WordStatus.KNOWN user_word in
            set_familiarity 0.8 user_word
        | None => known_UserWord now
        end in
      mret (stories.set_user_words
              (<[(user_id, word_id) := user_word]> (user_words db)) db)
  end.

End words.

(** ** Grammar routes ([routes/grammar.py]) *)

Module grammar.
Import models.

(** The rows selected by the prerequisite query of [unlock_grammar_concept]:
    the user's rows for the prerequisite concepts that are LEARNED. *)
Definition learned_prereqs (db : Database) (user_id : uuid)
    (prerequisite_ids : list uuid) : list ((uuid * uuid) * UserGrammar) :=
  filter (fun r : (uuid * uuid) * UserGrammar =>
            r.1.1 = user_id
            /\ r.1.2 ∈ prerequisite_ids
            /\ grammar_status r.2 = GrammarStatus.LEARNED)
         (map_to_list (user_grammars db)).

Definition set_user_grammars (table : gmap (uuid * uuid) UserGrammar) (db : Database)
  : Database :=
  {| words := words db;
     grammar_concepts := grammar_concepts db;
     user_words := user_words db;
     user_grammars := table;
     stories := stories db;
     learning_sessions := learning_sessions db |}.

(** [unlock_grammar_concept]; [prerequisite_ids] is that column of the
    concept [concept_id], which the record of the data model leaves out. *)
Definition unlock_grammar_concept (db : Database) (user_id : uuid)
    (concept_id : uuid) (prerequisite_ids : list uuid) : Py.result Database :=
  (* Check if concept exists *)
  match grammar_concepts db !! concept_id with
  | None => Py.Raise (Py.HTTPException 404)
  | Some _ =>
      (* Check prerequisites *)
      if bool_decide (prerequisite_ids <> [])
         && (length (learned_prereqs db user_id prerequisite_ids)
             <? length prerequisite_ids)%nat
      then Py.Raise (Py.HTTPException 400)
      else
        (* Get or create UserGrammar *)
        let user_grammar :=
          match user_grammars db !! (user_id, concept_id) with
          | Some user_grammar =>
              if bool_decide (grammar_status user_grammar = GrammarStatus.LOCKED)
              then {| grammar_status := GrammarStatus.AVAILABLE;
                      comfort_score := comfort_score user_grammar |}
              else user_grammar
          | None =>
              {| grammar_status := GrammarStatus.AVAILABLE; comfort_score := 0 |}
          end in
        mret (set_user_grammars
                (<[(user_id, concept_id) := user_grammar]> (user_grammars db)) db)
  end.

End grammar.

(** ** The scheduling rules in the specification's words

    Section 4.1 of the specification, steps 1, 2, 4 and 5, read in the
    arithmetic of the implementation (binary64, [round] to even). *)

Module spec.
Import models.

(** Steps 1 and 2: the ease factor after a review of the given quality. *)
Definition new_ease (ease : float) (quality : Z) : float :=
  if quality <? 3 then ease
  else
    let k := Py.float_of_int (5 - quality) in
    Py.max_float 1.3 (ease + (0.1 - k * (0.08 + k * 0.02)))%float.

(** Steps 1 and 2: the interval in days, from the prior interval and the
    updated ease factor. *)
Definition new_interval (prior : Py.number) (ease' : float) (quality : Z)
  : Py.result Z :=
  if quality <? 3 then Py.Ok 1
  else if Py.number_eq prior 0 then Py.Ok 1
  else if Py.number_eq prior 1 then Py.Ok 6
  else prior ← Py.to_float prior; Py.round (prior * ease')%float.

(** Step 4: [x] clamped into [[0, 1]]. *)
Definition clamp_unit (x : float) : float :=
  Py.max_float 0 (Py.min_float 1 x).

(** Step 5: the status from the familiarity and the interval in days. *)
Definition new_status (familiarity : float) (interval : Z) : WordStatus.t :=
  if (0.9 <=? familiarity)%float && (21 <=? interval) then WordStatus.MASTERED
  else if (0.7 <=? familiarity)%float then WordStatus.KNOWN
  else WordStatus.LEARNING.

(** The Levenshtein distance of two strings, by the textbook recursion on
    their first characters: remove one from [s], add one of [t], or put one
    in the place of the other. *)
Fixpoint levenshtein (s t : list ascii) : nat :=
  match s with
  | [] => length t
  | a :: s' =>
      (fix against (t : list ascii) : nat :=
         match t with
         | [] => length s
         | b :: t' =>
             Nat.min (Nat.min (S (levenshtein s' t)) (S (against t')))
                     (levenshtein s' t' + if bool_decide (a = b) then 0 else 1)
         end) t
  end.

(** [edits s t n]: [s] becomes [t] by a left-to-right pass that costs [n]
    single-character deletions, insertions and substitutions. *)
Inductive edits : list ascii -> list ascii -> nat -> Prop :=
  | edits_nil : edits [] [] 0
  | edits_delete a s t n : edits s t n -> edits (a :: s) t (S n)
  | edits_insert b s t n : edits s t n -> edits s (b :: t) (S n)
  | edits_keep a s t n : edits s t n -> edits (a :: s) (a :: t) n
  | edits_substitute a b s t n : edits s t n -> edits (a :: s) (b :: t) (S n).

End spec.

(** ** Auxiliary definitions for the statements and proofs below *)

Module aux.
Import models.

(** The binary64 values that are zero or above: [+0], the positive finite
    numbers and [+infinity]. *)
Definition nonneg (s : spec_float) : Prop :=
  match s with
  | S754_zero false | S754_finite false _ _ | S754_infinity false => True
  | _ => False
  end.

(** Normalising the attribute assignments and the exception monad. *)
Ltac reduce_row :=
  cbn [set_status set_familiarity set_times_seen set_times_reviewed
       set_times_correct set_last_seen_at set_next_review_at
       set_srs_interval_days set_srs_ease_factor
       status familiarity times_seen times_reviewed times_correct last_seen_at
       next_review_at srs_interval_days srs_ease_factor source created_at
       mbind mret Py.result_bind Py.result_ret negb].

Ltac case_if :=
  match goal with |- context [if ?c then _ else _] => destruct c eqn:? end.

(** A user ["u"] with [n] known words: the words [w0 .. w(n-1)], each KNOWN. *)
Definition known_row : UserWord := new_UserWord WordStatus.KNOWN 1 0.

Definition db_with_known (n : nat) : Database :=
  {| words := ∅;
     grammar_concepts := ∅;
     user_words :=
       list_to_map (map (fun i : nat => (("u", "w" +:+ pretty i)%string, known_row))
                        (seq 0 n));
     user_grammars := ∅;
     stories := ∅;
     learning_sessions := [] |}.

(** The calendar dates on which the user has a session with an end time
    (one entry per session). *)
Definition session_dates (db : Database) (user_id : uuid) : list Py.date :=
  map (fun s => Py.date_of (started_at s))
      (filter (fun s => session_user_id s = user_id /\ ended_at s <> None)
              (learning_sessions db)).

(** The loop of [_calculate_streak] on the dates of the sessions. *)
Fixpoint streak_over (dates : list Py.date) (streak : Z) (current_date : Py.date) : Z :=
  match dates with
  | [] => streak
  | session_date :: dates' =>
      if session_date =? current_date then
        streak_over dates' (Py.max_int streak 1) current_date
      else if session_date =? current_date - 1 then
        streak_over dates' (streak + 1) session_date
      else streak
  end.

(** Latest first, on dates. *)
Definition desc : relation Z := fun a b => b <= a.

(** A list without its adjacent repetitions. *)
Fixpoint squash (dates : list Z) : list Z :=
  match dates with
  | [] => []
  | d :: dates' =>
      match dates' with
      | d' :: _ => if d =? d' then squash dates' else d :: squash dates'
      | [] => [d]
      end
  end.

(** A database that holds only learning sessions, all of user ["u"] and all
    ended, started at the given times. *)
Definition db_with_sessions (starts : list Py.datetime) : Database :=
  {| words := ∅;
     grammar_concepts := ∅;
     user_words := ∅;
     user_grammars := ∅;
     stories := ∅;
     learning_sessions :=
       map (fun t => {| session_user_id := "u"; started_at := t;
                        ended_at := Some (t + 60000000) |}) starts |}.

(** What one turn of the loop of [complete_story] leaves for a word, from
    the row it finds, if any. *)
Definition seen_row (now : Py.datetime) (found : option UserWord) : UserWord :=
  match found with
  | Some user_word =>
      {| status := if bool_decide (status user_word = WordStatus.NEW)
                   then WordStatus.LEARNING else status user_word;
         familiarity := familiarity user_word;
         times_seen := times_seen user_word + 1;
         times_reviewed := times_reviewed user_word;
         times_correct := times_correct user_word;
         last_seen_at := Some now;
         next_review_at := next_review_at user_word;
         srs_interval_days := srs_interval_days user_word;
         srs_ease_factor := srs_ease_factor user_word;
         source := source user_word;
         created_at := created_at user_word |}
  | None => new_UserWord WordStatus.LEARNING 1 now
  end.

(** The catalogue words of a level for which the user has no row: the
    candidates of [_select_new_words] and of [get_ready_story_info]. *)
Definition untouched_words (db : Database) (user_id : uuid) (level : CEFRLevel.t)
  : list (uuid * Word) :=
  filter (fun w : uuid * Word =>
            word_cefr_level w.2 = level /\ user_words db !! (user_id, w.1) = None)
         (map_to_list (words db)).

(** A catalogue of [n] words [w0 .. w(n-1)] of level A1 and nothing else. *)
Definition db_with_words (n : nat) : Database :=
  {| words :=
       list_to_map
         (map (fun i : nat =>
                 ("w" +:+ pretty i,
                  {| hindi := "h" +:+ pretty i; romanized := "r" +:+ pretty i;
                     english := "e" +:+ pretty i;
                     word_cefr_level := CEFRLevel.A1 |})%string)
              (seq 0 n));
     grammar_concepts := ∅;
     user_words := ∅;
     user_grammars := ∅;
     stories := ∅;
     learning_sessions := [] |}.

(** The cost of putting [b] in the place of [a]. *)
Definition mismatch (a b : ascii) : nat := if bool_decide (a = b) then 0 else 1.

(** The first [k + 1] entries of the row of [_levenshtein_distance] for the
    prefix [p] of the first string: the distances from [p] to the prefixes of
    [s2]. *)
Definition distance_row (p s2 : list ascii) (k : nat) : list Z :=
  (fun j => Z.of_nat (spec.levenshtein p (take j s2))) <$> seq 0 (S k).

(** A database with one story ["s"] of user ["u"]: of its two target words
    the user has never met ["w1"] and has mastered ["w2"]. *)
Definition mastered_row : UserWord :=
  set_status WordStatus.MASTERED (new_UserWord WordStatus.NEW 4 0).

Definition story_two_words : Story :=
  {| story_user_id := "u";
     target_new_word_ids := ["w1"; "w2"]%string;
     target_grammar_ids := [];
     difficulty_level := CEFRLevel.A1;
     rating := None;
     completed_at := None |}.

Definition db_one_story : Database :=
  {| words := ∅;
     grammar_concepts := ∅;
     user_words := {[ ("u", "w2")%string := mastered_row ]};
     user_grammars := ∅;
     stories := {[ "s"%string := story_two_words ]};
     learning_sessions := [] |}.



End aux.

(** ** Further auxiliary definitions *)

Module support.
Import models.

(** The levels in their order: A1 < A2 < B1 < B2. *)
Definition rank (level : CEFRLevel.t) : Z :=
  match level with
  | CEFRLevel.A1 => 1
  | CEFRLevel.A2 => 2
  | CEFRLevel.B1 => 3
  | CEFRLevel.B2 => 4
  end.

(** The rows counted as known words. *)
Definition known (user_word : UserWord) : Prop :=
  status user_word = WordStatus.KNOWN \/ status user_word = WordStatus.MASTERED.

#[global] Instance known_dec user_word : Decision (known user_word).
Proof. unfold known. apply _. Defined.

(** The number of rows of a user that satisfy [P]. *)
Definition count_rows (P : UserWord -> Prop) `{forall r, Decision (P r)}
    (table : gmap (uuid * uuid) UserWord) (user_id : uuid) : nat :=
  length (filter (fun kv : (uuid * uuid) * UserWord => kv.1.1 = user_id /\ P kv.2)
                 (map_to_list table)).

(** The user has LEARNED the concept. *)
Definition has_learned (db : Database) (user_id concept_id : uuid) : Prop :=
  exists user_grammar,
    user_grammars db !! (user_id, concept_id) = Some user_grammar
    /\ grammar_status user_grammar = GrammarStatus.LEARNED.

(** A catalogue of one word ["w1"] and two grammar concepts, ["g1"] before
    ["g2"].  User ["u"] has MASTERED the word, due for review at time 500,
    and has LEARNED ["g1"]; user ["v"] has no rows. *)
Definition mastered_due_row : UserWord :=
  set_next_review_at (Some 500) (set_status WordStatus.MASTERED (new_UserWord WordStatus.NEW 4 0)).

Definition db_small : Database :=
  {| words :=
       {[ "w1"%string := {| hindi := "h"; romanized := "ghar"; english := "house";
                            word_cefr_level := CEFRLevel.A1 |} ]};
     grammar_concepts :=
       {[ "g1"%string := {| name := "present"; description := "present tense";
                            grammar_cefr_level := CEFRLevel.A1; sort_order := 1 |};
          "g2"%string := {| name := "past"; description := "past tense";
                            grammar_cefr_level := CEFRLevel.A2; sort_order := 2 |} ]};
     user_words := {[ ("u", "w1")%string := mastered_due_row ]};
     user_grammars :=
       {[ ("u", "g1")%string := {| grammar_status := GrammarStatus.LEARNED;
                                   comfort_score := 1 |} ]};
     stories := ∅;
     learning_sessions := [] |}.

(** [LIMIT n] as SQLite answers it: the first [n] rows, and every row for
    a negative [n]. *)
Definition sqlite_limit (n : Z) (rows : list (uuid * UserWord))
  : Py.result (list (uuid * UserWord)) :=
  if n <? 0 then Py.Ok rows else Py.Ok (take (Z.to_nat n) rows).

(** A review queue for user ["u"]: at time 500 the words ["w2"] (due since
    50) and ["w1"] (due since 100) are due; ["w3"] is MASTERED, ["w4"] is
    scheduled for 900 and ["w5"] has no due time. *)
Definition scheduled (st : WordStatus.t) (due_at : option Py.datetime) : UserWord :=
  set_next_review_at due_at (new_UserWord st 1 0).

Definition db_queue : Database :=
  {| words := ∅;
     grammar_concepts := ∅;
     user_words :=
       {[ ("u", "w1")%string := scheduled WordStatus.LEARNING (Some 100);
          ("u", "w2")%string := scheduled WordStatus.KNOWN (Some 50);
          ("u", "w3")%string := scheduled WordStatus.MASTERED (Some 10);
          ("u", "w4")%string := scheduled WordStatus.LEARNING (Some 900);
          ("u", "w5")%string := scheduled WordStatus.NEW None;
          ("v", "w1")%string := scheduled WordStatus.LEARNING (Some 20) ]};
     user_grammars := ∅;
     stories := ∅;
     learning_sessions := [] |}.

(** The story [aux.story_two_words] of user ["u"], with its two target
    words in the catalogue at level A1 and met by nobody yet. *)
Definition db_story : Database :=
  {| words :=
       {[ "w1"%string := {| hindi := "h1"; romanized := "ghar"; english := "house";
                            word_cefr_level := CEFRLevel.A1 |};
          "w2"%string := {| hindi := "h2"; romanized := "pani"; english := "water";
                            word_cefr_level := CEFRLevel.A1 |} ]};
     grammar_concepts := ∅;
     user_words := ∅;
     user_grammars := ∅;
     stories := {[ "s"%string := aux.story_two_words ]};
     learning_sessions := [] |}.

End support.

(** * Properties *)

(** ** Facts about binary64 arithmetic *)

Section Binary64.
Import aux.

Local Open Scope float_scope.

Lemma ltb_true_leb (x y : float) : (x <? y) = true -> (x <=? y) = true.
Proof.
  rewrite ltb_spec, leb_spec. unfold SFltb, SFleb.
  destruct (SFcompare (Prim2SF x) (Prim2SF y)) as [[]|]; congruence.
Qed.

Lemma max_float_lower (a b : float) :
  (a <=? a) = true -> (a <=? Py.max_float a b) = true.
Proof.
  intros Ha. unfold Py.max_float.
  destruct (a <? b) eqn:Hab; [now apply ltb_true_leb | exact Ha].
Qed.

Lemma min_float_upper (a b : float) :
  (a <=? a) = true -> (Py.min_float a b <=? a) = true.
Proof.
  intros Ha. unfold Py.min_float.
  destruct (b <? a) eqn:Hab; [now apply ltb_true_leb | exact Ha].
Qed.

Lemma nonneg_leb (x : float) : nonneg (Prim2SF x) -> (0 <=? x) = true.
Proof.
  rewrite leb_spec. change (Prim2SF 0) with (S754_zero false).
  destruct (Prim2SF x) as [[]|[]| |[] m e]; simpl; tauto.
Qed.

Lemma iter_pos_invariant {A} (f : A -> A) (P : A -> Prop) :
  (forall x, P x -> P (f x)) -> forall p x, P x -> P (SpecFloat.iter_pos f p x).
Proof.
  intros Hf p. induction p as [p IH|p IH|]; intros x Hx; simpl; auto.
Qed.

Lemma shr_1_nonneg mrs : (0 <= shr_m mrs)%Z -> (0 <= shr_m (shr_1 mrs))%Z.
Proof.
  destruct mrs as [m r s]. simpl.
  destruct m as [|[p|p|]|[p|p|]]; simpl; lia.
Qed.

Lemma shr_fexp_nonneg m e l :
  (0 <= m)%Z -> (0 <= shr_m (shr_fexp prec emax m e l).1)%Z.
Proof.
  intros Hm. unfold shr_fexp, shr.
  assert (H0 : (0 <= shr_m (shr_record_of_loc m l))%Z)
    by (destruct l as [|[]]; exact Hm).
  destruct (fexp prec emax (Zdigits2 m + e) - e)%Z; simpl; try exact H0.
  apply (iter_pos_invariant shr_1 (fun mrs => 0 <= shr_m mrs)%Z);
    auto using shr_1_nonneg.
Qed.

Lemma round_nearest_even_nonneg m l :
  (0 <= m)%Z -> (0 <= round_nearest_even m l)%Z.
Proof.
  intros Hm. destruct l as [|[]]; simpl; try exact Hm; [|lia].
  destruct (Z.even m); lia.
Qed.

(** Rounding a mantissa that is zero or above gives a value that is. *)
Lemma binary_round_aux_nonneg m e l :
  (0 <= m)%Z -> nonneg (binary_round_aux prec emax false m e l).
Proof.
  intros Hm. unfold binary_round_aux.
  pose proof (shr_fexp_nonneg m e l Hm) as H1.
  destruct (shr_fexp prec emax m e l) as [mrs' e']. simpl in H1.
  pose proof (shr_fexp_nonneg _ e' loc_Exact
                (round_nearest_even_nonneg _ (loc_of_shr_record mrs') H1)) as H2.
  destruct (shr_fexp prec emax _ e' loc_Exact) as [mrs'' e'']. simpl in H2.
  destruct (shr_m mrs'') as [|q|q]; simpl; [exact I| |lia].
  destruct (e'' <=? emax - prec)%Z; exact I.
Qed.

(** Division of a value that is zero or positive and finite by one that is
    positive and finite. *)
Lemma SFdiv_nonneg x y :
  match x with S754_zero false | S754_finite false _ _ => True | _ => False end ->
  match y with S754_finite false _ _ => True | _ => False end ->
  nonneg (SFdiv prec emax x y).
Proof.
  destruct x as [[]|[]| |[] mx ex]; try tauto;
    destruct y as [[]|[]| |[] my ey]; try tauto; intros _ _; try exact I.
  unfold SFdiv, SFdiv_core_binary.
  set (m' := match _ with Z0 => _ | Zpos _ => _ | Zneg _ => _ end).
  assert (Hm' : (0 <= m')%Z).
  { subst m'. destruct (_ - _ - _)%Z; try lia. apply Z.shiftl_nonneg. lia. }
  pose proof (Z_div_mod m' (Zpos my) eq_refl) as Hdiv.
  destruct (Z.div_eucl m' (Zpos my)) as [q r].
  apply binary_round_aux_nonneg. nia.
Qed.

Lemma digits2_pos_size p : digits2_pos p = Pos.size p.
Proof. induction p; simpl; congruence. Qed.

Lemma digits2_pos_le p (k : Z) :
  (0 <= k)%Z -> (Zpos p < 2 ^ k)%Z -> (Zpos (digits2_pos p) <= k)%Z.
Proof.
  intros Hk Hp. rewrite digits2_pos_size.
  pose proof (Pos.size_le p) as Hs.
  assert (H2 : (2 ^ Zpos (Pos.size p) <= 2 * Zpos p)%Z).
  { rewrite <- Pos2Z.inj_pow. change (2 * Zpos p)%Z with (Zpos p~0). exact Hs. }
  destruct (Z.le_gt_cases (Zpos (Pos.size p)) k) as [|Hgt]; [assumption|].
  assert (2 ^ (k + 1) <= 2 ^ Zpos (Pos.size p))%Z
    by (apply Z.pow_le_mono_r; lia).
  rewrite Z.pow_add_r in * by lia. lia.
Qed.

Lemma digits2_pos_iter_xO p k :
  digits2_pos (Pos.iter xO p k) = (digits2_pos p + k)%positive.
Proof.
  induction k as [|k IH] using Pos.peano_ind.
  - simpl. lia.
  - rewrite Pos.iter_succ. simpl. rewrite IH. lia.
Qed.

(** A mantissa of 53 bits with an exponent in range is its own rounding. *)
Lemma binary_round_aux_canonical m e :
  Zpos (digits2_pos m) = 53%Z -> (-1074 <= e <= 971)%Z ->
  binary_round_aux prec emax false (Zpos m) e loc_Exact = S754_finite false m e.
Proof.
  intros Hd He.
  assert (Hshr : forall m', m' = Zpos m ->
            shr_fexp prec emax m' e loc_Exact
            = ({| shr_m := Zpos m; shr_r := false; shr_s := false |}, e)).
  { intros m' ->. unfold shr_fexp, Zdigits2. rewrite Hd.
    unfold fexp, emin, prec, emax.
    replace (Z.max (53 + e - 53) (3 - 1024 - 53) - e)%Z with 0%Z by lia.
    reflexivity. }
  unfold binary_round_aux. rewrite (Hshr _ eq_refl). simpl.
  rewrite (Hshr _ eq_refl). simpl.
  unfold emax, prec. destruct (Z.leb_spec e (1024 - 53)); [reflexivity | lia].
Qed.

(** [float(n)] for [0 < n < 2^53] is a positive finite number. *)
Lemma float_of_int_pos (p : positive) :
  (Zpos p < 2 ^ 53)%Z ->
  exists m e, Prim2SF (Py.float_of_int (Zpos p)) = S754_finite false m e.
Proof.
  intros Hp.
  pose proof (digits2_pos_le p 53 ltac:(lia) Hp) as Hd.
  assert (Hpos : (0 < Zpos (digits2_pos p))%Z) by lia.
  set (m := (shl_align p 0 (fexp prec emax (Zpos (digits2_pos p) + 0))).1).
  set (e := (shl_align p 0 (fexp prec emax (Zpos (digits2_pos p) + 0))).2).
  assert (Hme : Zpos (digits2_pos m) = 53%Z /\ (-1074 <= e <= 971)%Z).
  { subst m e. unfold shl_align, fexp, emin, prec, emax.
    rewrite Z.add_0_r, Z.sub_0_r.
    rewrite Z.max_l by lia.
    destruct (Zpos (digits2_pos p) - 53)%Z as [|k|k] eqn:Hk; simpl; try lia.
    rewrite digits2_pos_iter_xO. lia. }
  destruct Hme as [Hm He].
  exists m, e. unfold Py.float_of_int.
  assert (Hs : binary_normalize prec emax (Zpos p) 0 false = S754_finite false m e).
  { unfold binary_normalize, binary_round.
    fold m e.
    destruct (shl_align p 0 (fexp prec emax (Zpos (digits2_pos p) + 0))) as [mz ez] eqn:Hsh.
    subst m e. simpl in *. now apply binary_round_aux_canonical. }
  rewrite Hs. apply Prim2SF_SF2Prim.
  unfold valid_binary, bounded, canonical_mantissa. rewrite Hm.
  unfold fexp, emin, prec, emax.
  apply andb_true_intro; split; [apply Z.eqb_eq | apply Z.leb_le]; lia.
Qed.

Lemma float_of_int_nonneg_shape (n : Z) :
  (0 <= n < 2 ^ 53)%Z ->
  match Prim2SF (Py.float_of_int n) with
  | S754_zero false | S754_finite false _ _ => True
  | _ => False
  end.
Proof.
  intros [Hn Hlt]. destruct n as [|p|p]; [exact I| |lia].
  destruct (float_of_int_pos p Hlt) as (m & e & ->). exact I.
Qed.

(** The quotient of two counters, the divisor positive, is zero or above. *)
Lemma int_truediv_nonneg (a b : Z) :
  (0 <= a < 2 ^ 53)%Z -> (0 < b < 2 ^ 53)%Z ->
  nonneg (Prim2SF (Py.int_truediv a b)).
Proof.
  intros Ha Hb. unfold Py.int_truediv. rewrite div_spec.
  apply SFdiv_nonneg.
  - now apply float_of_int_nonneg_shape.
  - destruct b as [|p|p]; try lia.
    destruct (float_of_int_pos p) as (m & e & ->); [lia | exact I].
Qed.

(** On a value that is zero or above, clamping into [[0, 1]] is taking the
    minimum with 1, and the result lies in [[0, 1]]. *)
Lemma clamp_unit_nonneg (x : float) :
  nonneg (Prim2SF x) ->
  spec.clamp_unit x = Py.min_float 1 x
  /\ (0 <=? Py.min_float 1 x) = true /\ (Py.min_float 1 x <=? 1) = true.
Proof.
  intros Hx. unfold spec.clamp_unit.
  split; [|split; [|now apply min_float_upper]].
  - unfold Py.min_float, Py.max_float.
    destruct (x <? 1) eqn:Hx1; [|reflexivity].
    rewrite ltb_spec. change (Prim2SF 0) with (S754_zero false).
    destruct (Prim2SF x) as [[]|[]| |[] m e] eqn:Hsf; simpl in *; try tauto.
    rewrite <- (SF2Prim_Prim2SF x), Hsf. reflexivity.
  - unfold Py.min_float. destruct (x <? 1); [now apply nonneg_leb | reflexivity].
Qed.

End Binary64.

(** ** Review scheduling *)

Section ReviewScheduler.
Import models.
Import aux.

Local Open Scope float_scope.

(** [submit_review] as three steps: validation, the new interval, the due
    time; then the row is determined. *)
Lemma submit_review_unfold user_word quality now :
  reviews.submit_review user_word quality now =
  (_ ← reviews.ReviewSubmitRequest quality;
   n ← spec.new_interval (srs_interval_days user_word)
         (spec.new_ease (srs_ease_factor user_word) quality) quality;
   next ← Py.add_days now n;
   let reviewed := (times_reviewed user_word + 1)%Z in
   let correct := (if (3 <=? quality)%Z then times_correct user_word + 1
                   else times_correct user_word)%Z in
   let fam := Py.min_float 1 (Py.int_truediv correct (Py.max_int 1 reviewed)) in
   Py.Ok {| status := spec.new_status fam n;
            familiarity := fam;
            times_seen := times_seen user_word;
            times_reviewed := reviewed;
            times_correct := correct;
            last_seen_at := Some now;
            next_review_at := Some next;
            srs_interval_days := Py.Int n;
            srs_ease_factor := spec.new_ease (srs_ease_factor user_word) quality;
            source := source user_word;
            created_at := created_at user_word |}).
Proof.
  unfold reviews.submit_review, spec.new_interval, spec.new_ease, spec.new_status.
  unfold reviews.ReviewSubmitRequest, reviews.ease_delta.
  destruct ((0 <=? quality)%Z && (quality <=? 5)%Z); [|reflexivity].
  reduce_row.
  rewrite (Z.leb_antisym quality 3).
  destruct (quality <? 3)%Z; reduce_row;
    repeat (case_if; reduce_row);
    repeat (match goal with
            | |- context [Py.to_float ?x] => destruct (Py.to_float x); reduce_row
            | |- context [Py.round ?x] => destruct (Py.round x); reduce_row
            end);
    try reflexivity;
    (match goal with
     | |- context [Py.add_days ?x ?y] => destruct (Py.add_days x y); reduce_row
     end; [|reflexivity]);
    repeat (case_if; reduce_row); try reflexivity; congruence.
Qed.

Lemma submit_review_Ok user_word quality now user_word' :
  reviews.submit_review user_word quality now = Py.Ok user_word' ->
  (0 <= quality <= 5)%Z /\
  exists n next,
    spec.new_interval (srs_interval_days user_word)
      (spec.new_ease (srs_ease_factor user_word) quality) quality = Py.Ok n
    /\ Py.add_days now n = Py.Ok next
    /\ srs_interval_days user_word' = Py.Int n
    /\ srs_ease_factor user_word' = spec.new_ease (srs_ease_factor user_word) quality
    /\ times_reviewed user_word' = (times_reviewed user_word + 1)%Z
    /\ times_correct user_word'
       = (if (3 <=? quality)%Z then times_correct user_word + 1
          else times_correct user_word)%Z
    /\ familiarity user_word'
       = Py.min_float 1 (Py.int_truediv (times_correct user_word')
                                        (Py.max_int 1 (times_reviewed user_word')))
    /\ status user_word' = spec.new_status (familiarity user_word') n.
Proof.
  rewrite submit_review_unfold. unfold reviews.ReviewSubmitRequest.
  destruct (Z.leb_spec 0 quality), (Z.leb_spec quality 5);
    cbn [andb mbind Py.result_bind]; try discriminate.
  destruct (spec.new_interval _ _ _) as [n|]; cbn [mbind Py.result_bind];
    [|discriminate].
  destruct (Py.add_days now n) as [next|] eqn:Hnext; cbn [mbind Py.result_bind];
    [|discriminate].
  intros [= <-]. split; [lia|]. exists n, next. cbn. auto 10.
Qed.



Lemma max_int_max (a b : Z) : Py.max_int a b = Z.max a b.
Proof. unfold Py.max_int. destruct (Z.ltb_spec a b); lia. Qed.

(** C2.  After a review that goes through, with counters as the [Integer]
    columns hold them, the familiarity is [times_correct / max(1,
    times_reviewed)] on the incremented counters clamped into [[0, 1]], and the
    status is MASTERED when the familiarity is at least 0.9 and the new
    interval at least 21 days, otherwise KNOWN when the familiarity is at
    least 0.7, otherwise LEARNING; it is never NEW. *)
Theorem submit_review_familiarity_and_status
    (user_word : UserWord) (quality : Z) (now : Py.datetime) (user_word' : UserWord) :
  (0 <= times_correct user_word < 2 ^ 31)%Z ->
  (0 <= times_reviewed user_word < 2 ^ 31)%Z ->
  reviews.submit_review user_word quality now = Py.Ok user_word' ->
  let correct := (times_correct user_word + if (3 <=? quality)%Z then 1 else 0)%Z in
  let reviewed := (times_reviewed user_word + 1)%Z in
  times_correct user_word' = correct
  /\ times_reviewed user_word' = reviewed
  /\ familiarity user_word'
     = spec.clamp_unit (Py.int_truediv correct (Z.max 1 reviewed))
  /\ (0 <=? familiarity user_word') = true
  /\ (familiarity user_word' <=? 1) = true
  /\ status user_word'
     = (if (0.9 <=? familiarity user_word')
           && Py.number_ge (srs_interval_days user_word') 21
        then WordStatus.MASTERED
        else if 0.7 <=? familiarity user_word' then WordStatus.KNOWN
        else WordStatus.LEARNING)
  /\ status user_word' <> WordStatus.NEW.
Proof.
  intros Hc Hr Hok correct reviewed.
  apply submit_review_Ok in Hok
    as (_ & n & next & _ & _ & Hi & _ & Hrev & Hcor & Hfam & Hst).
  assert (Hcor' : times_correct user_word' = correct).
  { rewrite Hcor. subst correct. destruct (3 <=? quality)%Z; lia. }
  assert (Hrev' : times_reviewed user_word' = reviewed) by exact Hrev.
  rewrite Hcor', Hrev', max_int_max in Hfam.
  assert (Hshape : nonneg (Prim2SF (Py.int_truediv correct (Z.max 1 reviewed)))).
  { apply int_truediv_nonneg; subst correct reviewed;
      destruct (3 <=? quality)%Z; lia. }
  destruct (clamp_unit_nonneg _ Hshape) as (Hclamp & Hlo & Hhi).
  rewrite <- Hfam in Hlo, Hhi.
  repeat split; auto.
  - rewrite Hfam. symmetry. exact Hclamp.
  - rewrite Hst, Hi. reflexivity.
  - rewrite Hst. unfold spec.new_status.
    destruct (_ && _); [discriminate|].
    destruct (0.7 <=? _); discriminate.
Qed.

(** One request keeps the ease factor at or above 1.3. *)
Lemma reviewed_ease_floor (user_word : UserWord) (request : Z * Py.datetime) :
  (1.3 <=? srs_ease_factor user_word) = true ->
  (1.3 <=? srs_ease_factor (reviews.reviewed user_word request)) = true.
Proof.
  intros Hfloor. unfold reviews.reviewed.
  destruct (reviews.submit_review user_word request.1 request.2)
    as [user_word'|] eqn:Hok; [|exact Hfloor].
  apply submit_review_Ok in Hok as (_ & n & next & _ & _ & _ & He & _).
  unfold reviews.committed. cbn [srs_ease_factor set_srs_interval_days].
  rewrite He. unfold spec.new_ease.
  destruct (request.1 <? 3)%Z; [exact Hfloor|].
  now apply max_float_lower.
Qed.

(** C3.  From an ease factor of at least 1.3, the ease factor of the row is
    at least 1.3 after every request of any history of review requests,
    whatever their qualities (a request with a quality outside [[0, 5]] is
    rejected and leaves the row as it was). *)
Theorem ease_factor_never_below_floor
    (user_word : UserWord) (requests : list (Z * Py.datetime)) :
  (1.3 <=? srs_ease_factor user_word) = true ->
  Forall (fun row => (1.3 <=? srs_ease_factor row) = true)
         (reviews.review_history user_word requests).
Proof.
  revert user_word.
  induction requests as [|request requests IH]; intros user_word Hfloor; simpl.
  - constructor.
  - pose proof (reviewed_ease_floor user_word request Hfloor) as Hstep.
    constructor; [exact Hstep | now apply IH].
Qed.

End ReviewScheduler.


Lemma submit_review_familiarity_and_status_witness :
  exists user_word',
    reviews.submit_review (models.new_UserWord models.WordStatus.LEARNING 1 0) 5 0
    = Py.Ok user_word'
    /\ models.times_reviewed user_word' = 1%Z
    /\ (models.familiarity user_word' <=? 1)%float = true.
Proof.
  assert (Hok : { user_word' |
            reviews.submit_review
              (models.new_UserWord models.WordStatus.LEARNING 1 0) 5 0
            = Py.Ok user_word' })
    by (eexists; vm_compute; reflexivity).
  destruct Hok as [user_word' Hok]. exists user_word'.
  split; [exact Hok|].
  destruct (submit_review_familiarity_and_status
              (models.new_UserWord models.WordStatus.LEARNING 1 0) 5 0 user_word'
              ltac:(simpl; lia) ltac:(simpl; lia) Hok)
    as (_ & Hreviewed & _ & _ & Hupper & _).
  split; [exact Hreviewed | exact Hupper].
Defined.

Lemma ease_factor_never_below_floor_witness :
  Forall (fun row => (1.3 <=? models.srs_ease_factor row)%float = true)
         (reviews.review_history
            (models.new_UserWord models.WordStatus.LEARNING 1 0)
            [(3, 0); (5, 86400000000); (0, 172800000000)]%Z).
Proof.
  apply ease_factor_never_below_floor. reflexivity.
Defined.

(** ** Level tables *)

Section Levels.
Import models.

(** The story table: cut-offs 50, 150 and 400. *)
Lemma level_for_ranges (words_known : Z) :
  (words_known < 50 -> story_generator.level_for words_known = CEFRLevel.A1)
  /\ (50 <= words_known < 150 -> story_generator.level_for words_known = CEFRLevel.A2)
  /\ (150 <= words_known < 400 -> story_generator.level_for words_known = CEFRLevel.B1)
  /\ (400 <= words_known -> story_generator.level_for words_known = CEFRLevel.B2).
Proof.
  unfold story_generator.level_for.
  destruct (Z.ltb_spec words_known 50), (Z.ltb_spec words_known 150),
    (Z.ltb_spec words_known 400); repeat split; intros; try reflexivity; lia.
Qed.

(** The dashboard table: cut-offs 100, 300 and 600. *)
Lemma _determine_level_ranges (words_known : Z) :
  (words_known < 100 -> users._determine_level words_known = CEFRLevel.A1)
  /\ (100 <= words_known < 300 -> users._determine_level words_known = CEFRLevel.A2)
  /\ (300 <= words_known < 600 -> users._determine_level words_known = CEFRLevel.B1)
  /\ (600 <= words_known -> users._determine_level words_known = CEFRLevel.B2).
Proof.
  unfold users._determine_level.
  destruct (Z.ltb_spec words_known 100), (Z.ltb_spec words_known 300),
    (Z.ltb_spec words_known 600); repeat split; intros; try reflexivity; lia.
Qed.

(** C4, as the code has it.  The level of a user for story generation
    ([_determine_user_level]) and for story readiness
    ([get_ready_story_info]) is read off one table with cut-offs 50, 150 and
    400: 49 known words give A1, 50 give A2, 399 give B1 and 400 give B2.
    The dashboard table ([_determine_level]) has cut-offs 100, 300 and 600. *)
Theorem level_tables :
  (forall db user_id words_known,
     count_words_known db user_id = words_known ->
     (story_generator._determine_user_level db user_id
      = story_generator.level_for words_known
      /\ stories.ready_level (stories.get_ready_story_info db user_id)
         = story_generator.level_for words_known
      /\ users.level (users.get_stats db user_id 0)
         = users._determine_level words_known))
  /\ story_generator.level_for 49 = CEFRLevel.A1
  /\ story_generator.level_for 50 = CEFRLevel.A2
  /\ story_generator.level_for 399 = CEFRLevel.B1
  /\ story_generator.level_for 400 = CEFRLevel.B2
  /\ (forall words_known,
       (words_known < 50 -> story_generator.level_for words_known = CEFRLevel.A1)
       /\ (50 <= words_known < 150 -> story_generator.level_for words_known = CEFRLevel.A2)
       /\ (150 <= words_known < 400 -> story_generator.level_for words_known = CEFRLevel.B1)
       /\ (400 <= words_known -> story_generator.level_for words_known = CEFRLevel.B2))
  /\ (forall words_known,
       (words_known < 100 -> users._determine_level words_known = CEFRLevel.A1)
       /\ (100 <= words_known < 300 -> users._determine_level words_known = CEFRLevel.A2)
       /\ (300 <= words_known < 600 -> users._determine_level words_known = CEFRLevel.B1)
       /\ (600 <= words_known -> users._determine_level words_known = CEFRLevel.B2)).
Proof.
  split; [|repeat split; try reflexivity;
           first [apply level_for_ranges | apply _determine_level_ranges]].
  intros db user_id words_known <-. repeat split.
Qed.

End Levels.

(** The claim's story table sends 399 and 400 known words to A2 and B1; the
    code sends them to B1 and B2. *)
Lemma level_tables_counterexample :
  models.count_words_known (aux.db_with_known 399) "u" = 399
  /\ story_generator._determine_user_level (aux.db_with_known 399) "u" = models.CEFRLevel.B1
  /\ models.CEFRLevel.B1 <> models.CEFRLevel.A2
  /\ models.count_words_known (aux.db_with_known 400) "u" = 400
  /\ story_generator._determine_user_level (aux.db_with_known 400) "u" = models.CEFRLevel.B2
  /\ models.CEFRLevel.B2 <> models.CEFRLevel.B1.
Proof.
  assert (H399 : models.count_words_known (aux.db_with_known 399) "u" = 399)
    by (vm_compute; reflexivity).
  assert (H400 : models.count_words_known (aux.db_with_known 400) "u" = 400)
    by (vm_compute; reflexivity).
  unfold story_generator._determine_user_level. rewrite H399, H400.
  repeat split; discriminate.
Qed.

(** ** Streak *)

Section Streak.
Import models.
Import aux.

Instance desc_trans : Transitive desc.
Proof. unfold desc; intros a b c; lia. Qed.
Instance desc_antisymm : AntiSymm (=) desc.
Proof. unfold desc; intros a b; lia. Qed.
Instance later_first_trans : Transitive users.later_first.
Proof. unfold users.later_first; intros a b c; lia. Qed.
Instance later_first_total : Total users.later_first.
Proof. unfold users.later_first; intros a b; lia. Qed.

Lemma streak_loop_dates sessions streak current_date :
  users.streak_loop sessions streak current_date
  = streak_over (map Py.date_of sessions) streak current_date.
Proof.
  revert streak current_date.
  induction sessions as [|s sessions IH]; intros; simpl; [reflexivity|].
  rewrite !IH. reflexivity.
Qed.

(** The streak is the loop over the sorted session dates. *)
Lemma _calculate_streak_dates db user_id now :
  exists dates,
    users._calculate_streak db user_id now = streak_over dates 0 (Py.date_of now)
    /\ StronglySorted desc dates
    /\ dates ≡ₚ session_dates db user_id.
Proof.
  exists (map Py.date_of (users.completed_sessions db user_id)).
  split; [|split].
  - unfold users._calculate_streak. rewrite <- streak_loop_dates.
    destruct (users.completed_sessions db user_id); reflexivity.
  - apply (StronglySorted_fmap Py.date_of users.later_first desc).
    + unfold users.later_first, desc, Py.date_of. intros x y Hxy.
      apply Z.div_le_mono; [reflexivity | exact Hxy].
    + apply StronglySorted_merge_sort; apply _.
  - unfold users.completed_sessions, session_dates.
    rewrite merge_sort_Permutation.
    rewrite <- (map_map started_at Py.date_of). reflexivity.
Qed.

(** Below a streak of at least one, a run of consecutive days [lo .. cur]
    that the sorted dates cover adds one day for each day below [cur]. *)
Lemma streak_over_run dates streak cur lo :
  StronglySorted desc dates ->
  (forall d, d ∈ dates -> lo <= d <= cur) ->
  (forall z, lo <= z < cur -> z ∈ dates) ->
  lo <= cur -> 1 <= streak ->
  streak_over dates streak cur = streak + (cur - lo).
Proof.
  intros Hsorted. revert streak cur.
  induction Hsorted as [|d dates Hsorted IH Hd]; intros streak cur Hin Hcover Hlo Hs.
  - simpl. destruct (Z.eq_dec lo cur) as [|Hne]; [lia|].
    specialize (Hcover lo ltac:(lia)). inversion Hcover.
  - rewrite Forall_forall in Hd. unfold desc in Hd. simpl.
    pose proof (Hin d ltac:(left)) as Hdr.
    destruct (Z.eqb_spec d cur) as [->|Hne].
    + unfold Py.max_int. destruct (Z.ltb_spec streak 1); [lia|].
      apply IH; auto.
      * intros z Hz. apply Hin. now right.
      * intros z Hz. specialize (Hcover z Hz).
        apply elem_of_cons in Hcover as [->|]; [lia | assumption].
    + assert (d = cur - 1) as ->.
      { specialize (Hcover (cur - 1) ltac:(lia)).
        apply elem_of_cons in Hcover as [Heq|Hmem]; [lia|].
        specialize (Hd _ Hmem). lia. }
      rewrite Z.eqb_refl. rewrite IH; try lia.
      * intros z Hz. specialize (Hd _ Hz). specialize (Hin z ltac:(now right)). lia.
      * intros z Hz. specialize (Hcover z ltac:(lia)).
        apply elem_of_cons in Hcover as [->|]; [lia | assumption].
Qed.

(** Below a streak of at least one, the loop stops where the day before
    [cur] has no session. *)
Lemma streak_over_gap dates streak cur :
  StronglySorted desc dates ->
  (forall d, d ∈ dates -> d <= cur) ->
  cur - 1 ∉ dates ->
  1 <= streak ->
  streak_over dates streak cur = streak.
Proof.
  intros Hsorted. revert streak.
  induction Hsorted as [|d dates Hsorted IH Hd]; intros streak Hin Hgap Hs;
    simpl; [reflexivity|].
  destruct (Z.eqb_spec d cur) as [->|Hne].
  - unfold Py.max_int. destruct (Z.ltb_spec streak 1); [lia|].
    apply IH; auto.
    + intros z Hz. apply Hin. now right.
    + intros Hmem. apply Hgap. now right.
  - destruct (Z.eqb_spec d (cur - 1)) as [->|]; [|reflexivity].
    exfalso. apply Hgap. now left.
Qed.

(** With a session today, the loop starts at one on the remaining dates. *)
Lemma streak_over_today dates today :
  StronglySorted desc dates ->
  today ∈ dates -> (forall d, d ∈ dates -> d <= today) ->
  exists dates',
    dates = today :: dates'
    /\ streak_over dates 0 today = streak_over dates' 1 today.
Proof.
  intros Hsorted Hmem Hmax.
  destruct Hsorted as [|d dates Hsorted Hd]; [inversion Hmem|].
  rewrite Forall_forall in Hd. unfold desc in Hd.
  assert (d = today) as ->.
  { pose proof (Hmax d ltac:(left)).
    apply elem_of_cons in Hmem as [->|Hmem]; [reflexivity|].
    specialize (Hd _ Hmem). lia. }
  exists dates. split; [reflexivity|]. simpl. rewrite Z.eqb_refl. reflexivity.
Qed.

Lemma squash_cons a b dates :
  squash (a :: b :: dates)
  = if a =? b then squash (b :: dates) else a :: squash (b :: dates).
Proof. reflexivity. Qed.

Lemma squash_subseteq dates d : d ∈ squash dates -> d ∈ dates.
Proof.
  induction dates as [|a [|b dates] IH]; simpl; intros H; [assumption..|].
  destruct (a =? b).
  - right. apply IH, H.
  - apply elem_of_cons in H as [->|H]; [left | right; apply IH, H].
Qed.

Lemma squash_supseteq dates d : d ∈ dates -> d ∈ squash dates.
Proof.
  induction dates as [|a [|b dates] IH]; simpl; intros H; [assumption..|].
  destruct (Z.eqb_spec a b) as [->|Hne].
  - apply IH. apply elem_of_cons in H as [->|H]; [left | exact H].
  - apply elem_of_cons in H as [->|H]; [left | right; apply IH, H].
Qed.

Lemma squash_sorted dates :
  StronglySorted desc dates ->
  StronglySorted desc (squash dates) /\ NoDup (squash dates).
Proof.
  induction 1 as [|a dates Hsorted [IHs IHn] Ha]; [split; constructor|].
  rewrite Forall_forall in Ha. unfold desc in Ha.
  destruct dates as [|b dates]; [split; repeat constructor; inversion 1|].
  rewrite squash_cons.
  destruct (Z.eqb_spec a b) as [->|Hne]; [split; assumption|].
  assert (Hlt : forall z, z ∈ squash (b :: dates) -> z < a).
  { intros z Hz. apply squash_subseteq in Hz.
    pose proof (Ha z Hz). pose proof (Ha b ltac:(left)).
    inversion Hsorted as [|? ? ? Hb]; subst.
    rewrite Forall_forall in Hb. unfold desc in Hb.
    apply elem_of_cons in Hz as [->|Hz]; [lia|]. specialize (Hb _ Hz). lia. }
  split.
  - constructor; [exact IHs|]. apply Forall_forall. intros z Hz.
    unfold desc. specialize (Hlt z Hz). lia.
  - constructor; [|exact IHn]. intros Hmem. specialize (Hlt a Hmem). lia.
Qed.

Lemma streak_over_cons d dates streak cur :
  streak_over (d :: dates) streak cur
  = if d =? cur then streak_over dates (Py.max_int streak 1) cur
    else if d =? cur - 1 then streak_over dates (streak + 1) d
    else streak.
Proof. reflexivity. Qed.

(** Repeated dates do not change the outcome of the loop. *)
Lemma streak_over_squash dates streak cur :
  0 <= streak ->
  streak_over (squash dates) streak cur = streak_over dates streak cur.
Proof.
  revert streak cur.
  induction dates as [|a [|b dates] IH]; intros streak cur Hs; [reflexivity..|].
  rewrite squash_cons.
  destruct (Z.eqb_spec a b) as [->|Hne].
  - rewrite IH by assumption. rewrite !streak_over_cons.
    destruct (Z.eqb_spec b cur) as [->|Hbc].
    + unfold Py.max_int.
      destruct (Z.ltb_spec streak 1);
        [destruct (Z.ltb_spec 1 1) | destruct (Z.ltb_spec streak 1)];
        try lia; reflexivity.
    + destruct (Z.eqb_spec b (cur - 1)) as [->|]; [|reflexivity].
      rewrite Z.eqb_refl. unfold Py.max_int.
      destruct (Z.ltb_spec (streak + 1) 1); [lia | reflexivity].
  - generalize dependent (squash (b :: dates)). intros squashed IH.
    rewrite (streak_over_cons a squashed), (streak_over_cons a (b :: dates)).
    rewrite !IH; [reflexivity | lia |].
    unfold Py.max_int. destruct (Z.ltb_spec streak 1); lia.
Qed.

(** The outcome of the loop on sorted dates depends only on which dates
    occur. *)
Lemma streak_over_same_dates dates1 dates2 cur :
  StronglySorted desc dates1 -> StronglySorted desc dates2 ->
  (forall d, d ∈ dates1 <-> d ∈ dates2) ->
  streak_over dates1 0 cur = streak_over dates2 0 cur.
Proof.
  intros H1 H2 Hsame.
  rewrite <- (streak_over_squash dates1), <- (streak_over_squash dates2) by lia.
  destruct (squash_sorted _ H1) as [Hs1 Hn1], (squash_sorted _ H2) as [Hs2 Hn2].
  f_equal. apply (StronglySorted_unique desc); try assumption.
  apply NoDup_Permutation; try assumption.
  intros d. split; intros Hd.
  - apply squash_supseteq, Hsame, squash_subseteq, Hd.
  - apply squash_supseteq, Hsame, squash_subseteq, Hd.
Qed.

(** C5.  The streak of a user whose ended sessions fall on today, yesterday
    and the day before is 3; with sessions on today and two days ago only it
    is 1; without ended sessions it is 0; and the streak depends only on
    which calendar dates have an ended session, not on how many sessions a
    date has.  (The date of a session is the date of its start time, as the
    query selects it.) *)
Theorem streak_scenarios :
  (forall db user_id now,
     (forall d, d ∈ session_dates db user_id
                <-> d = Py.date_of now \/ d = Py.date_of now - 1
                    \/ d = Py.date_of now - 2) ->
     users._calculate_streak db user_id now = 3)
  /\ (forall db user_id now,
       (forall d, d ∈ session_dates db user_id
                  <-> d = Py.date_of now \/ d = Py.date_of now - 2) ->
       users._calculate_streak db user_id now = 1)
  /\ (forall db user_id now,
       session_dates db user_id = [] ->
       users._calculate_streak db user_id now = 0)
  /\ (forall db1 user_id1 db2 user_id2 now,
       (forall d, d ∈ session_dates db1 user_id1 <-> d ∈ session_dates db2 user_id2) ->
       users._calculate_streak db1 user_id1 now
       = users._calculate_streak db2 user_id2 now).
Proof.
  split; [|split; [|split]].
  - intros db user_id now Hdates.
    destruct (_calculate_streak_dates db user_id now) as (dates & -> & Hsorted & Hperm).
    set (today := Py.date_of now) in *.
    assert (Hmem : forall d, d ∈ dates <-> d = today \/ d = today - 1 \/ d = today - 2)
      by (intros d; rewrite Hperm; apply Hdates).
    destruct (streak_over_today dates today Hsorted) as (dates' & -> & ->).
    { apply Hmem. auto. }
    { intros d Hd. apply Hmem in Hd. lia. }
    inversion Hsorted as [|? ? Hsorted' Hle]; subst.
    rewrite (streak_over_run dates' 1 today (today - 2)); try lia; try assumption.
    + intros d Hd. assert (d ∈ today :: dates') as Hd' by now right.
      apply Hmem in Hd'. lia.
    + intros z Hz. assert (z ∈ today :: dates') as Hz'
        by (apply Hmem; lia).
      apply elem_of_cons in Hz' as [->|]; [lia | assumption].
  - intros db user_id now Hdates.
    destruct (_calculate_streak_dates db user_id now) as (dates & -> & Hsorted & Hperm).
    set (today := Py.date_of now) in *.
    assert (Hmem : forall d, d ∈ dates <-> d = today \/ d = today - 2)
      by (intros d; rewrite Hperm; apply Hdates).
    destruct (streak_over_today dates today Hsorted) as (dates' & -> & ->).
    { apply Hmem. auto. }
    { intros d Hd. apply Hmem in Hd. lia. }
    inversion Hsorted as [|? ? Hsorted' Hle]; subst.
    apply streak_over_gap; try lia; try assumption.
    + intros d Hd. assert (d ∈ today :: dates') as Hd' by now right.
      apply Hmem in Hd'. lia.
    + intros Hd. assert (today - 1 ∈ today :: dates') as Hd' by now right.
      apply Hmem in Hd'. lia.
  - intros db user_id now Hnone.
    destruct (_calculate_streak_dates db user_id now) as (dates & -> & _ & Hperm).
    rewrite Hnone in Hperm. apply Permutation_nil_r in Hperm as ->. reflexivity.
  - intros db1 user_id1 db2 user_id2 now Hsame.
    destruct (_calculate_streak_dates db1 user_id1 now) as (dates1 & -> & Hs1 & Hp1).
    destruct (_calculate_streak_dates db2 user_id2 now) as (dates2 & -> & Hs2 & Hp2).
    apply streak_over_same_dates; try assumption.
    intros d. rewrite Hp1, Hp2. apply Hsame.
Qed.

End Streak.

(** The scenarios on concrete sessions; [now] is day 100 at noon, and the
    first of them has three sessions today. *)
Example streak_three_days :
  users._calculate_streak
    (aux.db_with_sessions
       [100 * Py.microseconds_per_day + 5; 98 * Py.microseconds_per_day;
        100 * Py.microseconds_per_day + 7; 99 * Py.microseconds_per_day + 1;
        100 * Py.microseconds_per_day])
    "u" (100 * Py.microseconds_per_day + 43200000000) = 3.
Proof. vm_compute. reflexivity. Qed.

Example streak_with_gap :
  users._calculate_streak
    (aux.db_with_sessions
       [98 * Py.microseconds_per_day; 100 * Py.microseconds_per_day + 7])
    "u" (100 * Py.microseconds_per_day + 43200000000) = 1.
Proof. vm_compute. reflexivity. Qed.

Example streak_of_another_user :
  users._calculate_streak
    (aux.db_with_sessions
       [98 * Py.microseconds_per_day; 100 * Py.microseconds_per_day + 7])
    "v" (100 * Py.microseconds_per_day + 43200000000) = 0.
Proof. vm_compute. reflexivity. Qed.

(** ** Levenshtein distance *)

Section Levenshtein.
Import exercise_evaluator.
Import spec.
Import aux.

Local Open Scope nat_scope.

Lemma levenshtein_nil_r s : levenshtein s [] = length s.
Proof. destruct s; reflexivity. Qed.

Lemma levenshtein_cons a s b t :
  levenshtein (a :: s) (b :: t)
  = Nat.min (Nat.min (S (levenshtein s (b :: t))) (S (levenshtein (a :: s) t)))
            (levenshtein s t + mismatch a b).
Proof. reflexivity. Qed.

Lemma edits_nil_l t : edits [] t (length t).
Proof. induction t; simpl; constructor; assumption. Qed.

Lemma edits_nil_r s : edits s [] (length s).
Proof. induction s; simpl; constructor; assumption. Qed.

(** The recursion is the cost of some pass ... *)
Lemma levenshtein_edits s t : edits s t (levenshtein s t).
Proof.
  revert t. induction s as [|a s IHs]; intros t; [apply edits_nil_l|].
  induction t as [|b t IHt]; [rewrite levenshtein_nil_r; apply edits_nil_r|].
  rewrite levenshtein_cons.
  destruct (Nat.min_spec (Nat.min (S (levenshtein s (b :: t))) (S (levenshtein (a :: s) t)))
              (levenshtein s t + mismatch a b)) as [[_ ->]|[_ ->]].
  - destruct (Nat.min_spec (S (levenshtein s (b :: t))) (S (levenshtein (a :: s) t)))
      as [[_ ->]|[_ ->]]; [apply edits_delete, IHs | apply edits_insert, IHt].
  - unfold mismatch. destruct (bool_decide_reflect (a = b)) as [->|].
    + rewrite Nat.add_0_r. apply edits_keep, IHs.
    + rewrite Nat.add_1_r. apply edits_substitute, IHs.
Qed.

(** ... and no pass is cheaper. *)
Lemma levenshtein_least s t n : edits s t n -> levenshtein s t <= n.
Proof.
  induction 1 as [|a s t n _ IH|b s t n _ IH|a s t n _ IH|a b s t n _ IH].
  - reflexivity.
  - destruct t as [|b t]; [rewrite !levenshtein_nil_r in *; simpl; lia|].
    rewrite levenshtein_cons. lia.
  - destruct s as [|a s]; [simpl in *; lia|].
    rewrite levenshtein_cons. lia.
  - rewrite levenshtein_cons. unfold mismatch.
    rewrite bool_decide_eq_true_2 by reflexivity. lia.
  - rewrite levenshtein_cons. unfold mismatch. destruct (bool_decide (a = b)); lia.
Qed.

Ltac same_edit :=
  induction 1; simpl;
  [ | apply edits_delete | apply edits_insert | apply edits_keep
    | apply edits_substitute ]; try assumption.

Lemma edits_snoc_delete s t n a : edits s t n -> edits (s ++ [a]) t (S n).
Proof. same_edit. apply edits_delete, edits_nil. Qed.

Lemma edits_snoc_insert s t n b : edits s t n -> edits s (t ++ [b]) (S n).
Proof. same_edit. apply edits_insert, edits_nil. Qed.

Lemma edits_snoc_keep s t n a : edits s t n -> edits (s ++ [a]) (t ++ [a]) n.
Proof. same_edit. apply edits_keep, edits_nil. Qed.

Lemma edits_snoc_substitute s t n a b :
  edits s t n -> edits (s ++ [a]) (t ++ [b]) (S n).
Proof. same_edit. apply edits_substitute, edits_nil. Qed.

Lemma edits_reverse s t n : edits s t n -> edits (reverse s) (reverse t) n.
Proof.
  induction 1 as [|a s t n _ IH|b s t n _ IH|a s t n _ IH|a b s t n _ IH];
    rewrite ?reverse_nil, ?reverse_cons;
    auto using edits_nil, edits_snoc_delete, edits_snoc_insert, edits_snoc_keep,
      edits_snoc_substitute.
Qed.

Lemma edits_symmetric s t n : edits s t n -> edits t s n.
Proof. induction 1; constructor; assumption. Qed.

Lemma levenshtein_reverse s t :
  levenshtein (reverse s) (reverse t) = levenshtein s t.
Proof.
  apply Nat.le_antisymm.
  - apply levenshtein_least, edits_reverse, levenshtein_edits.
  - rewrite <- (reverse_involutive s), <- (reverse_involutive t) at 1.
    apply levenshtein_least, edits_reverse, levenshtein_edits.
Qed.

Lemma levenshtein_symmetric s t : levenshtein s t = levenshtein t s.
Proof.
  apply Nat.le_antisymm; apply levenshtein_least, edits_symmetric, levenshtein_edits.
Qed.

(** The recursion read from the last characters: what the rows of
    [_levenshtein_distance] follow. *)
Lemma levenshtein_snoc s a t b :
  levenshtein (s ++ [a]) (t ++ [b])
  = Nat.min (Nat.min (S (levenshtein s (t ++ [b]))) (S (levenshtein (s ++ [a]) t)))
            (levenshtein s t + mismatch a b).
Proof.
  rewrite <- (levenshtein_reverse (s ++ [a]) (t ++ [b])).
  rewrite <- (levenshtein_reverse s (t ++ [b])).
  rewrite <- (levenshtein_reverse (s ++ [a]) t).
  rewrite <- (levenshtein_reverse s t).
  rewrite !reverse_snoc. apply levenshtein_cons.
Qed.

Lemma distance_row_S p s2 k :
  distance_row p s2 (S k)
  = distance_row p s2 k ++ [Z.of_nat (levenshtein p (take (S k) s2))].
Proof. unfold distance_row. rewrite (seq_S (S k)), fmap_app. reflexivity. Qed.

Lemma distance_row_lookup p s2 k j :
  j <= k -> distance_row p s2 k !!! j = Z.of_nat (levenshtein p (take j s2)).
Proof.
  intros Hj. unfold distance_row. apply list_lookup_total_correct.
  rewrite list_lookup_fmap, lookup_seq_lt by lia. reflexivity.
Qed.

(** The inner loop completes the row of [p ++ [c1]] from column [length q]
    on, given the row of [p]. *)
Lemma levenshtein_row_spec p c1 s2 rest :
  forall q, s2 = q ++ rest ->
    levenshtein_row (distance_row p s2 (length s2)) c1 (length q) rest
                    (distance_row (p ++ [c1]) s2 (length q))
    = distance_row (p ++ [c1]) s2 (length s2).
Proof.
  induction rest as [|c2 rest IH]; intros q Hs2.
  - rewrite app_nil_r in Hs2. subst q. reflexivity.
  - cbn [levenshtein_row].
    assert (Hlen : length s2 = length q + S (length rest))
      by (rewrite Hs2, length_app; reflexivity).
    assert (Htake : take (length q) s2 = q)
      by (rewrite Hs2; apply take_app_length).
    assert (Htake' : take (S (length q)) s2 = q ++ [c2]).
    { rewrite Hs2, (cons_middle c2 q rest), app_assoc.
      apply take_app_length'. rewrite length_app. simpl. lia. }
    rewrite !distance_row_lookup by lia. rewrite Nat.add_1_r, Htake, Htake'.
    specialize (IH (q ++ [c2])).
    rewrite length_app, Nat.add_1_r in IH. cbn [length] in IH.
    rewrite distance_row_S, Htake' in IH.
    rewrite <- IH by (rewrite Hs2, <- app_assoc; reflexivity).
    do 3 f_equal. rewrite levenshtein_snoc. unfold mismatch.
    rewrite !Nat2Z.inj_min, Nat2Z.inj_add, !Nat2Z.inj_succ.
    destruct (bool_decide_reflect (c1 = c2)) as [Heq|Hne].
    + rewrite (bool_decide_eq_false_2 (c1 <> c2)) by tauto. simpl. lia.
    + rewrite (bool_decide_eq_true_2 (c1 <> c2)) by assumption. simpl. lia.
Qed.

(** The outer loop turns the row of [p] into the row of [p ++ rest]. *)
Lemma levenshtein_rows_spec s2 rest :
  forall p,
    levenshtein_rows (length p) rest s2 (distance_row p s2 (length s2))
    = distance_row (p ++ rest) s2 (length s2).
Proof.
  induction rest as [|c1 rest IH]; intros p; cbn [levenshtein_rows].
  - rewrite app_nil_r. reflexivity.
  - assert (Hfirst : [(Z.of_nat (length p) + 1)%Z] = distance_row (p ++ [c1]) s2 0).
    { unfold distance_row. cbn. rewrite levenshtein_nil_r, length_app. cbn.
      f_equal. lia. }
    rewrite Hfirst.
    pose proof (levenshtein_row_spec p c1 s2 s2 [] eq_refl) as Hrow.
    cbn [length] in Hrow. rewrite Hrow.
    specialize (IH (p ++ [c1])).
    rewrite length_app, Nat.add_1_r, <- app_assoc in IH. exact IH.
Qed.

Lemma distance_row_start s2 :
  map Z.of_nat (seq 0 (length s2 + 1)) = distance_row [] s2 (length s2).
Proof.
  unfold distance_row. rewrite Nat.add_1_r.
  change (map Z.of_nat (seq 0 (S (length s2))))
    with (Z.of_nat <$> seq 0 (S (length s2))).
  apply list_eq. intros j. rewrite !list_lookup_fmap.
  destruct (seq 0 (S (length s2)) !! j) as [k|] eqn:Hk; [|reflexivity].
  apply lookup_seq in Hk as [-> Hj]. cbn.
  rewrite length_take. do 2 f_equal. lia.
Qed.

Lemma distance_row_last p s2 :
  List.last (distance_row p s2 (length s2)) 0%Z = Z.of_nat (levenshtein p s2).
Proof.
  unfold distance_row. rewrite seq_S, fmap_app. cbn [fmap list_fmap].
  rewrite last_last. cbn. rewrite firstn_all. reflexivity.
Qed.

Lemma levenshtein_ordered_spec s1 s2 :
  levenshtein_ordered s1 s2 = Z.of_nat (levenshtein s1 s2).
Proof.
  unfold levenshtein_ordered.
  destruct s2 as [|c2 rest] eqn:Hs2; [now rewrite levenshtein_nil_r|].
  rewrite <- Hs2. rewrite distance_row_start.
  pose proof (levenshtein_rows_spec s2 s1 []) as Hrows.
  cbn [length app] in Hrows. rewrite Hrows. apply distance_row_last.
Qed.

(** [_levenshtein_distance] is the Levenshtein distance: the least cost of
    turning one string into the other. *)
Lemma _levenshtein_distance_spec (s1 s2 : string) :
  _levenshtein_distance s1 s2
  = Z.of_nat (levenshtein (list_ascii_of_string s1) (list_ascii_of_string s2)).
Proof.
  unfold _levenshtein_distance.
  destruct (length (list_ascii_of_string s1) <? length (list_ascii_of_string s2));
    rewrite levenshtein_ordered_spec; [|reflexivity].
  now rewrite levenshtein_symmetric.
Qed.

End Levenshtein.

(** ** Fuzzy match *)

Section FuzzyMatch.
Import exercise_evaluator.

(** C6, as the code has it.  [_levenshtein_distance] is the least number of
    single-character deletions, insertions and substitutions that turn one
    string into the other.  The romanization replacements are aa->a, ee->i,
    oo->u, sh->s, th->t, dh->d, bh->b, ph->f, kh->k, gh->g and chh->ch,
    applied to the whole text in that order, and each of the eleven variants
    collapses as listed.  An answer is accepted exactly when the normalized
    strings are equal, or equal after the romanization replacements, or at
    Levenshtein distance at most 1 for a normalized expected answer of at
    most 6 characters and at most 2 for a longer one.
    [_fuzzy_match "chhota" "chota"] holds, the two being different after
    normalization and equal after the replacements; an answer at distance 1
    from an expected answer of 5 characters is accepted; an answer at
    distance 3 from an expected answer of 10 characters is rejected unless
    the two agree after the romanization replacements. *)
Theorem _fuzzy_match_accepts :
  (forall s1 s2,
     exists n,
       _levenshtein_distance s1 s2 = Z.of_nat n
       /\ spec.edits (list_ascii_of_string s1) (list_ascii_of_string s2) n
       /\ forall m, spec.edits (list_ascii_of_string s1) (list_ascii_of_string s2) m ->
                    (n <= m)%nat)
  /\ (forall text,
        _simplify_romanization text
        = Py.replace "chh" "ch"
            (Py.replace "gh" "g"
               (Py.replace "kh" "k"
                  (Py.replace "ph" "f"
                     (Py.replace "bh" "b"
                        (Py.replace "dh" "d"
                           (Py.replace "th" "t"
                              (Py.replace "sh" "s"
                                 (Py.replace "oo" "u"
                                    (Py.replace "ee" "i"
                                       (Py.replace "aa" "a" text)))))))))))
  /\ (_simplify_romanization "aa" = "a"
      /\ _simplify_romanization "ee" = "i"
      /\ _simplify_romanization "oo" = "u"
      /\ _simplify_romanization "sh" = "s"
      /\ _simplify_romanization "th" = "t"
      /\ _simplify_romanization "dh" = "d"
      /\ _simplify_romanization "bh" = "b"
      /\ _simplify_romanization "ph" = "f"
      /\ _simplify_romanization "kh" = "k"
      /\ _simplify_romanization "gh" = "g"
      /\ _simplify_romanization "chh" = "ch")%string
  /\ (_normalize "chhota" <> _normalize "chota"
      /\ _simplify_romanization (_normalize "chhota")
         = _simplify_romanization (_normalize "chota"))
  /\ (forall answer expected,
        let a := _normalize answer in
        let e := _normalize expected in
        _fuzzy_match answer expected = true
        <-> a = e
            \/ _simplify_romanization a = _simplify_romanization e
            \/ ((String.length e <= 6)%nat /\ _levenshtein_distance a e <= 1)
            \/ ((6 < String.length e)%nat /\ _levenshtein_distance a e <= 2))
  /\ _fuzzy_match "chhota" "chota" = true
  /\ (forall answer expected,
        String.length (_normalize expected) = 5%nat ->
        _levenshtein_distance (_normalize answer) (_normalize expected) = 1 ->
        _fuzzy_match answer expected = true)
  /\ (forall answer expected,
        String.length (_normalize expected) = 10%nat ->
        _levenshtein_distance (_normalize answer) (_normalize expected) = 3 ->
        _simplify_romanization (_normalize answer)
        <> _simplify_romanization (_normalize expected) ->
        _fuzzy_match answer expected = false).
Proof.
  assert (Hiff : forall answer expected,
     let a := _normalize answer in
     let e := _normalize expected in
     _fuzzy_match answer expected = true
     <-> a = e
         \/ _simplify_romanization a = _simplify_romanization e
         \/ ((String.length e <= 6)%nat /\ _levenshtein_distance a e <= 1)
         \/ ((6 < String.length e)%nat /\ _levenshtein_distance a e <= 2)).
  { intros answer expected a e. unfold _fuzzy_match. fold a e.
    destruct (String.eqb_spec a e) as [|Hne]; [tauto|].
    destruct (String.eqb_spec (_simplify_romanization a) (_simplify_romanization e))
      as [|Hns]; [tauto|].
    destruct (Nat.leb_spec (String.length e) 6);
      rewrite Z.leb_le; split; try tauto; intros [?|[?|[[? ?]|[? ?]]]];
      try tauto; lia. }
  split.
  { intros s1 s2. eexists. split; [apply _levenshtein_distance_spec|].
    split; [apply levenshtein_edits | apply levenshtein_least]. }
  split; [intros text; reflexivity|].
  split; [vm_compute; repeat split|].
  split; [split; [vm_compute; discriminate | vm_compute; reflexivity]|].
  split; [exact Hiff|]. split; [vm_compute; reflexivity|]. split.
  - intros answer expected Hlen Hlev. apply Hiff. right; right; left.
    rewrite Hlen, Hlev. lia.
  - intros answer expected Hlen Hlev Hsimple.
    apply not_true_is_false. intros Hacc. apply Hiff in Hacc.
    rewrite Hlen, Hlev in Hacc.
    destruct Hacc as [Heq|[?|[[? ?]|[? ?]]]]; try lia; try contradiction.
    apply Hsimple. now rewrite Heq.
Qed.

End FuzzyMatch.

(** The claim has every answer at distance 3 from an expected answer of 10
    characters rejected; this one is accepted, because the romanization
    replacements make the two equal. *)
Lemma _fuzzy_match_counterexample :
  String.length (exercise_evaluator._normalize "baabaabaab") = 10%nat
  /\ exercise_evaluator._levenshtein_distance
       (exercise_evaluator._normalize "bababab")
       (exercise_evaluator._normalize "baabaabaab") = 3
  /\ exercise_evaluator._fuzzy_match "bababab" "baabaabaab" = true.
Proof. vm_compute. repeat split. Qed.

(** ** Code fences and decoding *)

Section Fences.

Lemma split_from_length sep skip cur s :
  (1 <= length (Py.split_from sep skip cur s))%nat.
Proof.
  revert skip cur.
  induction s as [|c s IH]; intros skip cur; cbn [Py.split_from length]; [lia|].
  destruct skip as [|k]; [|apply IH].
  destruct (String.prefix sep (String c s)); [cbn [length]; lia | apply IH].
Qed.

(** A separator that occurs splits the string into at least two parts. *)
Lemma split_contains sep s :
  sep <> EmptyString -> Py.contains sep s = true ->
  (2 <= length (Py.split sep s))%nat.
Proof.
  intros Hsep. unfold Py.split. generalize EmptyString as cur.
  induction s as [|c s IH]; intros cur Hin.
  - simpl in Hin. destruct sep; [contradiction | discriminate].
  - cbn [Py.contains] in Hin. cbn [Py.split_from].
    destruct (String.prefix sep (String c s)).
    + pose proof (split_from_length sep (String.length sep - 1) EmptyString s).
      cbn [length]. lia.
    + apply IH. exact Hin.
Qed.

Lemma prefix_app (s1 s2 s : string) :
  String.prefix (s1 +:+ s2) s = true -> String.prefix s1 s = true.
Proof.
  revert s. induction s1 as [|a s1 IH]; intros s; [now destruct s|].
  destruct s as [|c s]; simpl; [discriminate|].
  destruct (ascii_dec a c); [apply IH | discriminate].
Qed.

(** Where [s1 + s2] occurs, [s1] occurs. *)
Lemma contains_app (s1 s2 s : string) :
  Py.contains (s1 +:+ s2) s = true -> Py.contains s1 s = true.
Proof.
  induction s as [|c s IH]; cbn [Py.contains]; intros H;
    apply orb_true_iff in H as [H|H]; apply orb_true_iff;
    try discriminate; eauto using prefix_app.
Qed.

Lemma getitem_Ok {A} (l : list A) (i : nat) :
  (i < length l)%nat -> exists a, Py.getitem l i = Py.Ok a /\ l !! i = Some a.
Proof.
  intros Hi. unfold Py.getitem.
  destruct (lookup_lt_is_Some_2 l i Hi) as [a Ha]. rewrite Ha. eauto.
Qed.

(** The text between the fences, by cases: without a fence the response
    itself; with one, the first part (up to the next fence) of what follows
    the first opening fence. *)
Lemma unfence_Ok response :
  exists text,
    story_generator.unfence response = Py.Ok text
    /\ (Py.contains "```" response = false -> text = response)
    /\ (Py.contains "```" response = true ->
        exists opening after,
          opening = (if Py.contains "```json" response then "```json" else "```")%string
          /\ Py.split opening response !! 1%nat = Some after
          /\ Py.split "```" after !! 0%nat = Some text).
Proof.
  unfold story_generator.unfence.
  assert (Hsub : Py.contains "```json" response = true ->
                 Py.contains "```" response = true).
  { apply (contains_app "```" "json"). }
  destruct (Py.contains "```json" response) eqn:Hjson.
  - destruct (getitem_Ok (Py.split "```json" response) 1) as (after & -> & Hafter).
    { apply split_contains; [discriminate | exact Hjson]. }
    cbn [mbind Py.result_bind].
    destruct (getitem_Ok (Py.split "```" after) 0) as (text & -> & Htext).
    { apply split_from_length. }
    exists text. split; [reflexivity|]. split.
    + rewrite (Hsub eq_refl). discriminate.
    + intros _. exists "```json"%string, after. auto.
  - destruct (Py.contains "```" response) eqn:Hfence.
    + destruct (getitem_Ok (Py.split "```" response) 1) as (after & -> & Hafter).
      { apply split_contains; [discriminate | exact Hfence]. }
      cbn [mbind Py.result_bind].
      destruct (getitem_Ok (Py.split "```" after) 0) as (text & -> & Htext).
      { apply split_from_length. }
      exists text. split; [reflexivity|]. split; [discriminate|].
      intros _. exists "```"%string, after. auto.
    + exists response. split; [reflexivity|]. split; [reflexivity | discriminate].
Qed.

End Fences.

Section Decoding.
Import models.
Import exercise_evaluator.
Import aux.

Variable json_loads : string -> Py.result Py.json.

(** C9, as the code has it.  The fence handling of [_parse_response] never
    fails: the fences, if any, are removed.  What [json.loads] decodes from
    the stripped text is returned; when it raises [JSONDecodeError] the
    result is the basic structure, with empty sentence and exercise lists and
    with the text between the fences (the response itself when it has no
    fence) as its content; any other exception of [json.loads] passes to the
    caller, so that the parser returns exactly when [json.loads] returns or
    raises [JSONDecodeError]. *)
Theorem _parse_response_outcomes (response : string) :
  exists text,
    story_generator.unfence response = Py.Ok text
    /\ (Py.contains "```" response = false -> text = response)
    /\ (Py.contains "```" response = true ->
        exists opening after,
          opening = (if Py.contains "```json" response then "```json" else "```")%string
          /\ Py.split opening response !! 1%nat = Some after
          /\ Py.split "```" after !! 0%nat = Some text)
    /\ (forall data,
          json_loads (Py.strip text) = Py.Ok data ->
          story_generator._parse_response json_loads response = Py.Ok data)
    /\ (json_loads (Py.strip text) = Py.Raise Py.JSONDecodeError ->
        exists d,
          story_generator._parse_response json_loads response = Py.Ok (Py.JDict d)
          /\ Py.dict_get d "sentences" Py.JNull = Py.JList []
          /\ Py.dict_get d "exercises" Py.JNull = Py.JList []
          /\ Py.dict_get d "content_hindi" Py.JNull = Py.JStr text)
    /\ (forall e,
          json_loads (Py.strip text) = Py.Raise e -> e <> Py.JSONDecodeError ->
          story_generator._parse_response json_loads response = Py.Raise e)
    /\ (Py.is_Ok (story_generator._parse_response json_loads response)
        <-> Py.is_Ok (json_loads (Py.strip text))
            \/ json_loads (Py.strip text) = Py.Raise Py.JSONDecodeError).
Proof.
  destruct (unfence_Ok response) as (text & Hun & Hplain & Hfenced).
  exists text.
  split; [exact Hun|]. split; [exact Hplain|]. split; [exact Hfenced|].
  unfold story_generator._parse_response.
  rewrite Hun. cbn [mbind Py.result_bind mret Py.result_ret].
  split; [|split; [|split]].
  - intros data ->. reflexivity.
  - intros ->. eexists. split; [reflexivity|].
    unfold story_generator.basic_structure. repeat split.
  - intros e -> He. destruct e; try reflexivity. contradiction.
  - destruct (json_loads (Py.strip text)) as [data|e].
    + split; intros _; [left|]; exact I.
    + destruct e; split;
        first [ intros _; right; reflexivity
              | intros _; exact I
              | intros [[]|Heq]; discriminate Heq
              | intros [] ].
Qed.



End Decoding.

(** A fenced response that does not decode: the content of the basic
    structure is the text between the fences, not the response. *)
Lemma _parse_response_counterexample :
  exists d,
    story_generator._parse_response (fun _ => Py.Raise Py.JSONDecodeError)
      "```json{oops```"
    = Py.Ok (Py.JDict d)
    /\ Py.dict_get d "content_hindi" Py.JNull = Py.JStr "{oops"
    /\ Py.JStr "{oops" <> Py.JStr "```json{oops```".
Proof.
  eexists. split; [vm_compute; reflexivity|]. split; [reflexivity | discriminate].
Qed.


(** ** Story completion *)

Section CompleteStory.
Import models.
Import aux.

Variables (user_id : uuid) (now : Py.datetime).

Lemma mark_word_seen_same table word_id :
  stories.mark_word_seen user_id now table word_id !! (user_id, word_id)
  = Some (seen_row now (table !! (user_id, word_id))).
Proof.
  unfold stories.mark_word_seen, seen_row.
  destruct (table !! (user_id, word_id)) as [user_word|];
    rewrite lookup_insert_eq; [|reflexivity].
  reduce_row. destruct (bool_decide (status user_word = WordStatus.NEW));
    reflexivity.
Qed.

Lemma mark_word_seen_other table word_id key :
  key <> (user_id, word_id) ->
  stories.mark_word_seen user_id now table word_id !! key = table !! key.
Proof.
  intros Hne. unfold stories.mark_word_seen.
  destruct (table !! (user_id, word_id)); now apply lookup_insert_ne.
Qed.

(** Rows that are not of a target word of this user are untouched. *)
Lemma mark_words_seen_other word_ids table key :
  (forall word_id, word_id ∈ word_ids -> key <> (user_id, word_id)) ->
  foldl (stories.mark_word_seen user_id now) table word_ids !! key = table !! key.
Proof.
  revert table. induction word_ids as [|w word_ids IH]; intros table Hkey;
    [reflexivity|].
  cbn [foldl]. rewrite IH.
  - apply mark_word_seen_other. apply Hkey. left.
  - intros word_id Hin. apply Hkey. now right.
Qed.

(** Each target word, listed once, is marked once. *)
Lemma mark_words_seen_target word_ids table word_id :
  NoDup word_ids -> word_id ∈ word_ids ->
  foldl (stories.mark_word_seen user_id now) table word_ids !! (user_id, word_id)
  = Some (seen_row now (table !! (user_id, word_id))).
Proof.
  intros Hnodup. revert table.
  induction Hnodup as [|w word_ids Hnotin Hnodup IH]; intros table Hin;
    [inversion Hin|].
  cbn [foldl]. apply elem_of_cons in Hin as [->|Hin].
  - rewrite mark_words_seen_other; [apply mark_word_seen_same|].
    intros w' Hw' [= ->]. contradiction.
  - rewrite IH by assumption. rewrite mark_word_seen_other; [reflexivity|].
    intros [= ->]. contradiction.
Qed.

(** A rating that is absent or between 1 and 5 passes the validation of the
    request. *)
Lemma StoryCompleteRequest_valid (rating : option Z) :
  (forall r, rating = Some r -> 1 <= r <= 5) ->
  stories.StoryCompleteRequest rating = Py.Ok rating.
Proof.
  intros Hvalid. unfold stories.StoryCompleteRequest.
  destruct rating as [r|]; [|reflexivity].
  specialize (Hvalid r eq_refl).
  replace (1 <=? r) with true by lia. replace (r <=? 5) with true by lia.
  reflexivity.
Qed.

(** Any other rating is refused, whatever the story. *)
Lemma StoryCompleteRequest_invalid (r : Z) :
  r < 1 \/ 5 < r ->
  stories.StoryCompleteRequest (Some r) = Py.Raise Py.RequestValidationError.
Proof.
  intros Hout. unfold stories.StoryCompleteRequest.
  destruct (1 <=? r) eqn:Hlo; [|reflexivity].
  destruct (r <=? 5) eqn:Hhi; [lia | reflexivity].
Qed.

(** C10.  Completing a story the user owns, whose target new words are
    listed once each, with a request that passes validation (no rating, or
    one between 1 and 5), goes through and leaves for every target word: a new
    row with status LEARNING and [times_seen = 1] where the user had none;
    otherwise the old row with [times_seen] incremented, its status changed
    only from NEW (to LEARNING), and its interval, ease factor, next review
    time, review counters and familiarity as they were.  Rows of other words
    and other users are untouched. *)
Theorem complete_story_exposure
    (db : Database) (story_id : uuid) (rating : option Z) (story : Story) :
  (forall r, rating = Some r -> 1 <= r <= 5) ->
  stories db !! story_id = Some story ->
  story_user_id story = user_id ->
  NoDup (target_new_word_ids story) ->
  exists db',
    stories.complete_story db user_id story_id rating now = Py.Ok db'
    /\ (forall word_id,
          word_id ∈ target_new_word_ids story ->
          match user_words db !! (user_id, word_id) with
          | None =>
              exists created,
                user_words db' !! (user_id, word_id) = Some created
                /\ status created = WordStatus.LEARNING
                /\ times_seen created = 1
          | Some before =>
              exists after,
                user_words db' !! (user_id, word_id) = Some after
                /\ times_seen after = times_seen before + 1
                /\ (status before = WordStatus.NEW ->
                    status after = WordStatus.LEARNING)
                /\ (status before <> WordStatus.NEW ->
                    status after = status before)
                /\ srs_interval_days after = srs_interval_days before
                /\ srs_ease_factor after = srs_ease_factor before
                /\ next_review_at after = next_review_at before
                /\ times_reviewed after = times_reviewed before
                /\ times_correct after = times_correct before
                /\ familiarity after = familiarity before
          end)
    /\ (forall key,
          (forall word_id, word_id ∈ target_new_word_ids story ->
                           key <> (user_id, word_id)) ->
          user_words db' !! key = user_words db !! key).
Proof.
  intros Hvalid Hstory Howner Hnodup.
  unfold stories.complete_story.
  rewrite (StoryCompleteRequest_valid _ Hvalid). cbn [mbind Py.result_bind].
  rewrite Hstory.
  rewrite (bool_decide_eq_true_2 _ Howner). cbn [mbind Py.result_bind mret Py.result_ret].
  eexists. split; [reflexivity|].
  cbn [user_words stories.set_user_words target_new_word_ids]. split.
  - intros word_id Hin.
    rewrite (mark_words_seen_target _ _ _ Hnodup Hin).
    destruct (user_words db !! (user_id, word_id)) as [before|]; cbn [seen_row].
    + eexists. split; [reflexivity|]. cbn.
      repeat split; try reflexivity.
      * intros ->. reflexivity.
      * intros Hne. now rewrite (bool_decide_eq_false_2 _ Hne).
    + eexists. split; [reflexivity|]. split; reflexivity.
  - intros key Hkey. now apply mark_words_seen_other.
Qed.

End CompleteStory.

(** The story of [aux.db_one_story], completed by its owner. *)
Lemma complete_story_exposure_witness :
  exists db',
    stories.complete_story aux.db_one_story "u" "s" (Some 5) 1000 = Py.Ok db'
    /\ (exists created,
          models.user_words db' !! ("u", "w1")%string = Some created
          /\ models.status created = models.WordStatus.LEARNING)
    /\ (exists after,
          models.user_words db' !! ("u", "w2")%string = Some after
          /\ models.status after = models.WordStatus.MASTERED
          /\ models.times_seen after = 5).
Proof.
  assert (Hnodup : NoDup (models.target_new_word_ids aux.story_two_words)).
  { repeat constructor; rewrite ?elem_of_cons, ?elem_of_nil; intros H;
      repeat destruct H as [H|H]; discriminate || exact H. }
  assert (Hvalid : forall r : Z, Some 5 = Some r -> 1 <= r <= 5).
  { intros r [= <-]. lia. }
  destruct (complete_story_exposure "u" 1000 aux.db_one_story "s" (Some 5)
              aux.story_two_words Hvalid ltac:(vm_compute; reflexivity) eq_refl
              Hnodup)
    as (db' & Hok & Htargets & _).
  exists db'. split; [exact Hok|]. split.
  - pose proof (Htargets "w1"%string ltac:(left)) as H1.
    match type of H1 with
    | match ?found with _ => _ end =>
        assert (Hnone : found = None) by (vm_compute; reflexivity);
        rewrite Hnone in H1
    end.
    destruct H1 as (created & ? & ? & ?). eauto.
  - pose proof (Htargets "w2"%string ltac:(right; left)) as H2.
    match type of H2 with
    | match ?found with _ => _ end =>
        assert (Hsome : found = Some aux.mastered_row) by (vm_compute; reflexivity);
        rewrite Hsome in H2
    end.
    destruct H2 as (after & ? & Hseen & _ & Hkeep & _).
    exists after. split; [assumption|]. split.
    + rewrite Hkeep; [reflexivity | discriminate].
    + rewrite Hseen. reflexivity.
Defined.

(** ** Content selection *)

Section Selection.
Import models.
Import aux.

Variable random_order : list (uuid * Word) -> list (uuid * Word).
Hypothesis random_order_permutation : forall rows, random_order rows ≡ₚ rows.

Lemma NoDup_catalogue_rows {A} (table : gmap uuid A) (rows : list (uuid * A)) :
  rows `sublist_of` map_to_list table -> NoDup (rows.*1).
Proof.
  intros Hsub. eapply sublist_NoDup; [apply (NoDup_fst_map_to_list table)|].
  apply fmap_sublist, Hsub.
Qed.

(** The rows of [_select_new_words] before the final cut: the requested
    words, then the drawn ones. *)
Lemma _select_new_words_rows db user_id level include_ids :
  exists included drawn,
    story_generator._select_new_words random_order db user_id level include_ids
    = take 5 (included ++ drawn)
    /\ included `sublist_of` map_to_list (words db)
    /\ (include_ids = [] -> included = [])
    /\ (forall w, w ∈ drawn ->
          w ∈ map_to_list (words db)
          /\ word_cefr_level w.2 = level
          /\ user_words db !! (user_id, w.1) = None
          /\ w.1 ∉ included.*1)
    /\ NoDup (drawn.*1)
    /\ (include_ids = [] ->
        length drawn = min 5 (length (untouched_words db user_id level))).
Proof.
  unfold story_generator._select_new_words.
  set (included := match include_ids with [] => [] | _ => _ end).
  assert (Hincluded : included `sublist_of` map_to_list (words db)).
  { subst included. destruct include_ids; [apply sublist_nil_l | apply sublist_filter]. }
  set (needed := Py.max_int 0 (3 - Z.of_nat (length included))).
  set (candidates := filter _ (map_to_list (words db))).
  destruct (Z.ltb_spec 0 needed) as [Hneeded|Hneeded].
  - exists included, (take (Z.to_nat (needed + 2)) (random_order candidates)).
    split; [reflexivity|]. split; [exact Hincluded|].
    split; [intros ->; reflexivity|]. split; [|split].
    + intros w Hw. apply subseteq_take in Hw.
      rewrite random_order_permutation in Hw.
      apply list_elem_of_filter in Hw as [(? & ? & ?) ?]. auto.
    + eapply sublist_NoDup; [|apply fmap_sublist, sublist_take].
      rewrite random_order_permutation.
      apply (NoDup_catalogue_rows (words db)), sublist_filter.
    + intros ->. subst needed included candidates. cbn [length].
      change (Z.to_nat (Py.max_int 0 (3 - Z.of_nat 0) + 2)) with 5%nat.
      rewrite length_take, random_order_permutation. f_equal. f_equal.
      unfold untouched_words. apply list_filter_iff.
      intros w. cbn. rewrite elem_of_nil. tauto.
  - exists included, []. rewrite app_nil_r.
    split; [reflexivity|]. split; [exact Hincluded|].
    split; [intros ->; reflexivity|]. split; [|split].
    + intros w Hw. inversion Hw.
    + constructor.
    + intros ->. subst needed included. unfold Py.max_int in Hneeded.
      simpl in Hneeded. lia.
Qed.

Lemma _select_new_words_bounded db user_id level include_ids :
  let selected :=
    story_generator._select_new_words random_order db user_id level include_ids in
  (length selected <= 5)%nat
  /\ NoDup (selected.*1)
  /\ (forall w, w ∈ selected -> words db !! w.1 = Some w.2).
Proof.
  destruct (_select_new_words_rows db user_id level include_ids)
    as (included & drawn & -> & Hincluded & _ & Hdrawn & Hnodup & _).
  cbn zeta. split; [rewrite length_take; lia|]. split.
  - eapply sublist_NoDup; [|apply fmap_sublist, sublist_take].
    rewrite fmap_app. apply NoDup_app. split; [|split].
    + now apply (NoDup_catalogue_rows (words db)).
    + intros id Hid Hid'. apply list_elem_of_fmap in Hid' as (w & -> & Hw).
      apply Hdrawn in Hw as (_ & _ & _ & Hfresh). contradiction.
    + exact Hnodup.
  - intros [id w] Hw. apply subseteq_take in Hw. apply elem_of_app in Hw as [Hw|Hw].
    + apply elem_of_map_to_list. eapply sublist_subseteq; eassumption.
    + apply elem_of_map_to_list. now apply Hdrawn in Hw as (? & _).
Qed.

Lemma _get_available_grammar_bounded db user_id focus_id :
  let grammar := story_generator._get_available_grammar db user_id focus_id in
  (length grammar <= 2)%nat /\ NoDup (grammar.*1).
Proof.
  unfold story_generator._get_available_grammar.
  destruct (match focus_id with Some _ => _ | None => _ end) as [concept|]; cbn zeta.
  - split; [simpl; lia|]. repeat constructor. inversion 1.
  - split; [rewrite length_take; lia|].
    eapply sublist_NoDup; [|apply fmap_sublist, sublist_take].
    rewrite merge_sort_Permutation.
    apply (NoDup_catalogue_rows (grammar_concepts db)), sublist_filter.
Qed.

(** C7, as the code has it.  Whatever the user's state and the request,
    [_select_new_words] returns at most 5 words of the catalogue, no id
    twice, and [_get_available_grammar] at most 2 concepts, no id twice.
    Without requested ids the words are drawn from the catalogue words of the
    level that the user has no row for: as many as there are, up to 5, and
    none the user owns.  So a user with no known word and no override is
    served at A1 and gets between 3 and 5 new words when at least 3 A1
    words are untouched; with fewer, the selection is that much shorter. *)
Theorem selection_deduplicated_and_bounded
    (db : Database) (user_id : uuid) (level : CEFRLevel.t)
    (include_ids : list uuid) (focus_id : option uuid) :
  (let selected :=
     story_generator._select_new_words random_order db user_id level include_ids in
   (length selected <= 5)%nat
   /\ NoDup (selected.*1)
   /\ (forall w, w ∈ selected -> words db !! w.1 = Some w.2))
  /\ (let grammar := story_generator._get_available_grammar db user_id focus_id in
      (length grammar <= 2)%nat /\ NoDup (grammar.*1))
  /\ (let selected :=
        story_generator._select_new_words random_order db user_id level [] in
      length selected = min 5 (length (untouched_words db user_id level))
      /\ (forall w, w ∈ selected ->
            user_words db !! (user_id, w.1) = None
            /\ word_cefr_level w.2 = level))
  /\ (count_words_known db user_id = 0 ->
      let inputs :=
        story_generator.generate_story_inputs random_order db user_id [] focus_id None in
      story_generator.gen_level inputs = CEFRLevel.A1
      /\ length (story_generator.new_words inputs)
         = min 5 (length (untouched_words db user_id CEFRLevel.A1))
      /\ ((3 <= length (untouched_words db user_id CEFRLevel.A1))%nat ->
          (3 <= length (story_generator.new_words inputs) <= 5)%nat)
      /\ NoDup ((story_generator.new_words inputs).*1)
      /\ (forall w, w ∈ story_generator.new_words inputs ->
            user_words db !! (user_id, w.1) = None)).
Proof.
  assert (Hplain : forall level',
    let selected :=
      story_generator._select_new_words random_order db user_id level' [] in
    length selected = min 5 (length (untouched_words db user_id level'))
    /\ (forall w, w ∈ selected ->
          user_words db !! (user_id, w.1) = None
          /\ word_cefr_level w.2 = level')).
  { intros level'.
    destruct (_select_new_words_rows db user_id level' [])
      as (included & drawn & -> & _ & Hnone & Hdrawn & _ & Hlen).
    rewrite (Hnone eq_refl). cbn [app]. split.
    - rewrite length_take, (Hlen eq_refl). lia.
    - intros w Hw. apply subseteq_take in Hw.
      apply Hdrawn in Hw as (_ & ? & ? & _). auto. }
  split; [apply _select_new_words_bounded|].
  split; [apply _get_available_grammar_bounded|].
  split; [apply Hplain|].
  intros Hknown.
  unfold story_generator.generate_story_inputs, story_generator._determine_user_level.
  rewrite Hknown. cbn [story_generator.gen_level story_generator.new_words].
  change (story_generator.level_for 0) with CEFRLevel.A1.
  destruct (Hplain CEFRLevel.A1) as [Hlen Hfresh].
  split; [reflexivity|]. split; [exact Hlen|]. split; [rewrite Hlen; lia|].
  split; [apply _select_new_words_bounded|].
  intros w Hw. now apply Hfresh in Hw as (? & _).
Qed.

End Selection.

(** With an empty catalogue a user without known words gets no new word:
    fewer than the claim's 3. *)
Lemma selection_counterexample :
  models.count_words_known (aux.db_with_words 0) "u" = 0
  /\ story_generator.gen_level
       (story_generator.generate_story_inputs
          (fun rows => rows) (aux.db_with_words 0) "u" [] None None)
     = models.CEFRLevel.A1
  /\ story_generator.new_words
       (story_generator.generate_story_inputs
          (fun rows => rows) (aux.db_with_words 0) "u" [] None None)
     = [].
Proof. vm_compute. repeat split. Qed.

(** With four untouched A1 words, the rows drawn in catalogue order. *)
Lemma selection_deduplicated_and_bounded_witness :
  (forall rows : list (models.uuid * models.Word), rows ≡ₚ rows)
  /\ length (story_generator.new_words
               (story_generator.generate_story_inputs
                  (fun rows => rows) (aux.db_with_words 4) "u" [] None None))
     = 4%nat.
Proof.
  split; [reflexivity|].
  destruct (selection_deduplicated_and_bounded
              (fun rows => rows) (fun rows => reflexivity rows)
              (aux.db_with_words 4) "u" models.CEFRLevel.A1 [] None)
    as (_ & _ & _ & Hnew).
  destruct (Hnew ltac:(vm_compute; reflexivity)) as (_ & -> & _).
  vm_compute. reflexivity.
Defined.

(** ** The built-ins on concrete values *)

Example round_ties_to_even :
  Py.round 2.5 = Py.Ok 2 /\ Py.round 3.5 = Py.Ok 4 /\ Py.round 6.5 = Py.Ok 6
  /\ Py.round (-0.5) = Py.Ok 0 /\ Py.round 16.2 = Py.Ok 16
  /\ Py.round (-7.51) = Py.Ok (-8) /\ Py.round 1e20 = Py.Ok (10 ^ 20).
Proof. vm_compute. repeat split. Qed.

Example round_raises :
  Py.round infinity = Py.Raise Py.OverflowError
  /\ Py.round neg_infinity = Py.Raise Py.OverflowError
  /\ Py.round nan = Py.Raise Py.ValueError.
Proof. vm_compute. repeat split. Qed.

Example ease_delta_values :
  reviews.ease_delta 5 = 0.1%float
  /\ reviews.ease_delta 4 = 0%float
  /\ reviews.ease_delta 3 = (-0.13999999999999999)%float.
Proof. vm_compute. repeat split. Qed.

Example add_days_overflows :
  Py.add_days 63900000000000000 21 = Py.Ok 63901814400000000
  /\ Py.add_days 63900000000000000 3000000 = Py.Raise Py.OverflowError
  /\ Py.add_days 63900000000000000 1000000000 = Py.Raise Py.OverflowError.
Proof. vm_compute. repeat split. Qed.

Example replace_leftmost_first :
  Py.replace "aa" "a" "aaaaa" = "aaa"%string
  /\ Py.replace "  " " " "a    b" = "a  b"%string
  /\ Py.replace "chh" "ch" "achchha" = "achcha"%string.
Proof. vm_compute. repeat split. Qed.

Example split_keeps_empty_parts :
  Py.split "```" "a```b```" = ["a"; "b"; ""]%string
  /\ Py.split "```json" "x```json{}```y" = ["x"; "{}```y"]%string
  /\ Py.split "```" "plain" = ["plain"]%string.
Proof. vm_compute. repeat split. Qed.

Example _normalize_example :
  exercise_evaluator._normalize "  Namaste    Duniya  " = "namaste  duniya"%string.
Proof. vm_compute. reflexivity. Qed.

Example _simplify_romanization_example :
  exercise_evaluator._simplify_romanization "achchha bhaasha" = "achcha basa"%string.
Proof. vm_compute. reflexivity. Qed.

Example _fuzzy_match_examples :
  exercise_evaluator._fuzzy_match "Paani " "pani" = true
  /\ exercise_evaluator._fuzzy_match "ghr" "ghar" = true
  /\ exercise_evaluator._fuzzy_match "gr" "ghar" = false
  /\ exercise_evaluator._fuzzy_match "namaste" "namastekal" = false
  /\ exercise_evaluator._fuzzy_match "namasteka" "namastekal" = true.
Proof. vm_compute. repeat split. Qed.

Example _levenshtein_distance_examples :
  exercise_evaluator._levenshtein_distance "kitten" "sitting" = 3
  /\ exercise_evaluator._levenshtein_distance "" "ghar" = 4
  /\ exercise_evaluator._levenshtein_distance "namaste" "namaste" = 0.
Proof. vm_compute. repeat split. Qed.

(** A review history: two perfect reviews, a good one, then a lapse, which
    takes the status from MASTERED back to KNOWN. *)
Example review_history_example :
  map (fun row => (models.status row, models.srs_interval_days row,
                   models.srs_ease_factor row))
      (reviews.review_history (models.new_UserWord models.WordStatus.LEARNING 1 0)
         [(5, 0); (5, 0); (4, 0); (2, 0)])
  = [(models.WordStatus.KNOWN, Py.Float 6, 2.6%float);
     (models.WordStatus.KNOWN, Py.Float 16, 2.7%float);
     (models.WordStatus.MASTERED, Py.Float 43, 2.7%float);
     (models.WordStatus.KNOWN, Py.Float 1, 2.7%float)].
Proof. vm_compute. reflexivity. Qed.

(** A due date beyond [datetime.max]: the request raises and no row is
    written.  Here [now] is a day of the year 2025. *)
Example submit_review_due_date_out_of_range :
  reviews.submit_review
    (models.set_srs_interval_days (Py.Float 2000000)
       (models.new_UserWord models.WordStatus.KNOWN 1 0))
    5 63900000000000000
  = Py.Raise Py.OverflowError.
Proof. vm_compute. reflexivity. Qed.

(** ** The distance of [_levenshtein_distance] *)

Section Metric.
Import exercise_evaluator.
Import spec.

Local Open Scope nat_scope.

Lemma edits_refl s : edits s s 0.
Proof. induction s; constructor; assumption. Qed.

Lemma edits_zero s t : edits s t 0 -> s = t.
Proof.
  intros H. remember 0 as n eqn:Hn.
  induction H; try discriminate; [reflexivity|]. f_equal. auto.
Qed.

(** A pass changes the length by at most its cost. *)
Lemma edits_lengths s t n :
  edits s t n -> length s <= length t + n /\ length t <= length s + n.
Proof. induction 1; simpl; lia. Qed.

(** Putting the characters of one string in the place of the other's, one
    for one, costs the longer length. *)
Lemma edits_longest s t : edits s t (Nat.max (length s) (length t)).
Proof.
  revert t. induction s as [|a s IH]; intros t; [apply edits_nil_l|].
  destruct t as [|b t]; [apply (edits_nil_r (a :: s))|].
  simpl. apply edits_substitute, IH.
Qed.

(** Two passes in a row are one pass of at most the added cost. *)
Lemma edits_compose s t n :
  edits s t n -> forall u m, edits t u m -> exists k, k <= n + m /\ edits s u k.
Proof.
  induction 1 as [|a s t n _ IH|b s t n _ IH|a s t n _ IH|a b s t n _ IH];
    intros u m H2.
  - exists m. split; [lia | exact H2].
  - destruct (IH u m H2) as (k & Hk & He).
    exists (S k). split; [lia | now apply edits_delete].
  - remember (b :: t) as bt eqn:Hbt. revert Hbt.
    induction H2 as [|a' s' t' m' H2 _|b' s' t' m' H2 IH2|a' s' t' m' H2 _
                    |a' b' s' t' m' H2 _]; intros Hbt; try discriminate.
    + injection Hbt as -> ->. destruct (IH _ _ H2) as (k & Hk & He).
      exists k. split; [lia | exact He].
    + destruct (IH2 Hbt) as (k & Hk & He).
      exists (S k). split; [lia | now apply edits_insert].
    + injection Hbt as -> ->. destruct (IH _ _ H2) as (k & Hk & He).
      exists (S k). split; [lia | now apply edits_insert].
    + injection Hbt as -> ->. destruct (IH _ _ H2) as (k & Hk & He).
      exists (S k). split; [lia | now apply edits_insert].
  - remember (a :: t) as at' eqn:Hat. revert Hat.
    induction H2 as [|a' s' t' m' H2 _|b' s' t' m' H2 IH2|a' s' t' m' H2 _
                    |a' b' s' t' m' H2 _]; intros Hat; try discriminate.
    + injection Hat as -> ->. destruct (IH _ _ H2) as (k & Hk & He).
      exists (S k). split; [lia | now apply edits_delete].
    + destruct (IH2 Hat) as (k & Hk & He).
      exists (S k). split; [lia | now apply edits_insert].
    + injection Hat as -> ->. destruct (IH _ _ H2) as (k & Hk & He).
      exists k. split; [lia | now apply edits_keep].
    + injection Hat as -> ->. destruct (IH _ _ H2) as (k & Hk & He).
      exists (S k). split; [lia | now apply edits_substitute].
  - remember (b :: t) as bt eqn:Hbt. revert Hbt.
    induction H2 as [|a' s' t' m' H2 _|b' s' t' m' H2 IH2|a' s' t' m' H2 _
                    |a' b' s' t' m' H2 _]; intros Hbt; try discriminate.
    + injection Hbt as -> ->. destruct (IH _ _ H2) as (k & Hk & He).
      exists (S k). split; [lia | now apply edits_delete].
    + destruct (IH2 Hbt) as (k & Hk & He).
      exists (S k). split; [lia | now apply edits_insert].
    + injection Hbt as -> ->. destruct (IH _ _ H2) as (k & Hk & He).
      exists (S k). split; [lia | now apply edits_substitute].
    + injection Hbt as -> ->. destruct (IH _ _ H2) as (k & Hk & He).
      exists (S k). split; [lia | now apply edits_substitute].
Qed.

Lemma levenshtein_triangle s t u :
  levenshtein s u <= levenshtein s t + levenshtein t u.
Proof.
  destruct (edits_compose _ _ _ (levenshtein_edits s t) _ _ (levenshtein_edits t u))
    as (k & Hk & He).
  apply levenshtein_least in He. lia.
Qed.

Lemma levenshtein_zero s t : levenshtein s t = 0 <-> s = t.
Proof.
  split.
  - intros H. apply edits_zero. rewrite <- H. apply levenshtein_edits.
  - intros ->. pose proof (levenshtein_least _ _ _ (edits_refl t)). lia.
Qed.

Lemma length_list_ascii_of_string (s : string) :
  length (list_ascii_of_string s) = String.length s.
Proof. induction s; simpl; congruence. Qed.

Lemma list_ascii_of_string_inj (s t : string) :
  list_ascii_of_string s = list_ascii_of_string t -> s = t.
Proof.
  intros H. rewrite <- (string_of_list_ascii_of_string s),
    <- (string_of_list_ascii_of_string t). now rewrite H.
Qed.

Local Open Scope Z_scope.

Lemma _levenshtein_distance_empty_l (s : string) :
  _levenshtein_distance "" s = Z.of_nat (String.length s).
Proof.
  rewrite _levenshtein_distance_spec. cbn.
  now rewrite length_list_ascii_of_string.
Qed.

Lemma _levenshtein_distance_lower (s1 s2 : string) :
  Z.abs (Z.of_nat (String.length s1) - Z.of_nat (String.length s2))
  <= _levenshtein_distance s1 s2.
Proof.
  rewrite _levenshtein_distance_spec.
  pose proof (edits_lengths _ _ _ (levenshtein_edits (list_ascii_of_string s1)
                                     (list_ascii_of_string s2))) as Hlow.
  rewrite !length_list_ascii_of_string in Hlow. lia.
Qed.

(** X1.  [_levenshtein_distance] is a metric on strings: it is never negative,
    symmetric, zero exactly on equal strings, and satisfies the triangle
    inequality. *)
Theorem _levenshtein_distance_metric (s1 s2 s3 : string) :
  0 <= _levenshtein_distance s1 s2
  /\ _levenshtein_distance s1 s2 = _levenshtein_distance s2 s1
  /\ (_levenshtein_distance s1 s2 = 0 <-> s1 = s2)
  /\ _levenshtein_distance s1 s3
     <= _levenshtein_distance s1 s2 + _levenshtein_distance s2 s3.
Proof.
  rewrite !_levenshtein_distance_spec. split; [lia|]. split; [|split].
  - now rewrite levenshtein_symmetric.
  - split.
    + intros H. apply list_ascii_of_string_inj, levenshtein_zero. lia.
    + intros ->. rewrite (proj2 (levenshtein_zero _ _) eq_refl). reflexivity.
  - pose proof (levenshtein_triangle (list_ascii_of_string s1)
                  (list_ascii_of_string s2) (list_ascii_of_string s3)). lia.
Qed.

(** X2.  The distance of two strings is at least the difference of their lengths
    and at most the longer length; from the empty string it is the length. *)
Theorem _levenshtein_distance_bounds (s1 s2 : string) :
  Z.abs (Z.of_nat (String.length s1) - Z.of_nat (String.length s2))
  <= _levenshtein_distance s1 s2
  <= Z.max (Z.of_nat (String.length s1)) (Z.of_nat (String.length s2))
  /\ _levenshtein_distance "" s2 = Z.of_nat (String.length s2)
  /\ _levenshtein_distance s1 "" = Z.of_nat (String.length s1).
Proof.
  split; [split; [apply _levenshtein_distance_lower|]|].
  - rewrite _levenshtein_distance_spec.
    pose proof (levenshtein_least _ _ _ (edits_longest (list_ascii_of_string s1)
                                           (list_ascii_of_string s2))) as Hhigh.
    rewrite !length_list_ascii_of_string in Hhigh. lia.
  - split; [apply _levenshtein_distance_empty_l|].
    rewrite _levenshtein_distance_spec. cbn [list_ascii_of_string].
    rewrite levenshtein_nil_r. now rewrite length_list_ascii_of_string.
Qed.

End Metric.

(** ** Grading without the collaborator *)

Section Grading.
Import models.
Import exercise_evaluator.

Lemma replace_empty (old new s : string) :
  new <> EmptyString -> Py.replace old new s = EmptyString -> s = EmptyString.
Proof.
  intros Hnew. destruct s as [|c s]; [reflexivity|].
  unfold Py.replace. cbn [Py.replace_from].
  destruct (String.prefix old (String c s)); [|discriminate].
  destruct new; [contradiction | discriminate].
Qed.

(** The romanization replacements leave no text empty. *)
Lemma _simplify_romanization_empty (s : string) :
  _simplify_romanization s = EmptyString -> s = EmptyString.
Proof.
  unfold _simplify_romanization, replacements. cbn [foldl fst snd]. intros H.
  repeat (apply replace_empty in H; [|discriminate]). exact H.
Qed.

Lemma length_zero_empty (s : string) : String.length s = 0%nat -> s = EmptyString.
Proof. destruct s; [reflexivity | discriminate]. Qed.

(** X3.  A blank answer (empty, or white space only) is accepted by the fuzzy
    match exactly when the normalized expected answer has at most one
    character. *)
Theorem _fuzzy_match_blank_answer (answer expected : string) :
  _normalize answer = EmptyString ->
  _fuzzy_match answer expected = true
  <-> (String.length (_normalize expected) <= 1)%nat.
Proof.
  intros Hblank. unfold _fuzzy_match. rewrite Hblank.
  set (e := _normalize expected).
  destruct (String.eqb_spec EmptyString e) as [<-|Hne]; [simpl; split; auto|].
  change (_simplify_romanization EmptyString) with EmptyString.
  destruct (String.eqb_spec EmptyString (_simplify_romanization e)) as [Heq|_].
  { symmetry in Heq. apply _simplify_romanization_empty in Heq. congruence. }
  rewrite _levenshtein_distance_empty_l.
  destruct (Nat.leb_spec (String.length e) 6); rewrite Z.leb_le; lia.
Qed.

(** X4.  An answer whose normalized length differs from that of the expected
    answer by more than the allowed distance (1 for an expected answer of at
    most 6 characters, 2 for a longer one) is accepted only through the
    romanization replacements. *)
Theorem _fuzzy_match_length_gap (answer expected : string) :
  let a := _normalize answer in
  let e := _normalize expected in
  (if (String.length e <=? 6)%nat then 1 else 2)
  < Z.abs (Z.of_nat (String.length a) - Z.of_nat (String.length e)) ->
  _fuzzy_match answer expected
  = String.eqb (_simplify_romanization a) (_simplify_romanization e).
Proof.
  intros a e Hgap. unfold _fuzzy_match. fold a e.
  pose proof (_levenshtein_distance_lower a e) as Hlow.
  destruct (String.eqb_spec a e) as [Heq|_].
  { rewrite Heq in Hgap. destruct (String.length e <=? 6)%nat; lia. }
  destruct (String.eqb (_simplify_romanization a) (_simplify_romanization e));
    [reflexivity|].
  destruct (String.length e <=? 6)%nat; apply Z.leb_gt; lia.
Qed.

(** [evaluate], by the type of the exercise. *)
Lemma evaluate_by_type (json_loads : string -> Py.result Py.json) (reply : llm_reply)
    (exercise : Exercise) (user_answer : string) :
  evaluate json_loads reply exercise user_answer
  = let same := String.eqb (_normalize user_answer)
                           (_normalize (correct_answer exercise)) in
    let close := _fuzzy_match user_answer (correct_answer exercise) in
    let verdict (accepted : bool) (label : string) :=
      {| is_correct := Py.JBool accepted;
         feedback := if accepted then Py.JNull
                     else Py.JStr (label +:+ correct_answer exercise) |} in
    match type exercise with
    | ExerciseType.MULTIPLE_CHOICE | ExerciseType.COMPREHENSION =>
        verdict same "The correct answer was: "%string
    | ExerciseType.FILL_BLANK => verdict close "Expected: "%string
    | ExerciseType.TRANSLATE_TO_HINDI | ExerciseType.TRANSLATE_TO_ENGLISH =>
        evaluate_with_llm json_loads reply exercise user_answer
    | ExerciseType.WORD_ORDER => verdict same "Correct order: "%string
    end.
Proof. unfold evaluate. destruct (type exercise); reflexivity. Qed.

(** X5.  For every exercise type but the two translation types, [evaluate] does
    not consult the collaborator: the verdict is the fuzzy match for
    FILL_BLANK and equality of the normalized texts for the other types; an
    accepted answer gets no feedback, a rejected one gets the expected answer
    after a fixed label; the feedback is never ["Unknown exercise type"]. *)
Theorem evaluate_without_collaborator
    (json_loads json_loads' : string -> Py.result Py.json)
    (reply reply' : llm_reply) (exercise : Exercise) (user_answer : string) :
  type exercise <> ExerciseType.TRANSLATE_TO_HINDI ->
  type exercise <> ExerciseType.TRANSLATE_TO_ENGLISH ->
  let result := evaluate json_loads reply exercise user_answer in
  result = evaluate json_loads' reply' exercise user_answer
  /\ exists accepted : bool,
       is_correct result = Py.JBool accepted
       /\ accepted
          = (if bool_decide (type exercise = ExerciseType.FILL_BLANK)
             then _fuzzy_match user_answer (correct_answer exercise)
             else String.eqb (_normalize user_answer)
                             (_normalize (correct_answer exercise)))
       /\ (accepted = true -> feedback result = Py.JNull)
       /\ (accepted = false ->
           exists label,
             label ∈ ["The correct answer was: "; "Expected: "; "Correct order: "]%string
             /\ feedback result = Py.JStr (label +:+ correct_answer exercise))
       /\ feedback result <> Py.JStr "Unknown exercise type".
Proof.
  intros Hhindi Henglish result. subst result. rewrite !evaluate_by_type.
  destruct (type exercise) eqn:Htype; try contradiction; cbn;
    (split; [reflexivity|]);
    match goal with
    | |- context [Py.JBool ?b] => exists b; destruct b eqn:Hb
    end;
    (split; [reflexivity|]); (split; [reflexivity|]);
    (split; [intros; try reflexivity; discriminate|]);
    (split; [|discriminate]);
    intros; try discriminate;
    eexists; (split; [|reflexivity]); set_solver.
Qed.

End Grading.

(** A blank answer against a one-letter expected answer, and against a
    longer one. *)
Lemma _fuzzy_match_blank_answer_witness :
  exercise_evaluator._normalize "   " = EmptyString
  /\ exercise_evaluator._fuzzy_match "   " "A" = true
  /\ exercise_evaluator._fuzzy_match "   " "ab" = false.
Proof.
  split; [reflexivity|].
  pose proof (_fuzzy_match_blank_answer "   " "A" eq_refl) as H1.
  pose proof (_fuzzy_match_blank_answer "   " "ab" eq_refl) as H2.
  split.
  - apply H1. vm_compute. lia.
  - apply not_true_is_false. intros Hacc. apply H2 in Hacc.
    vm_compute in Hacc. lia.
Defined.

(** "ghar" against "gharwala": too short by four characters. *)
Lemma _fuzzy_match_length_gap_witness :
  exercise_evaluator._fuzzy_match "ghar" "gharwala" = false.
Proof.
  rewrite (_fuzzy_match_length_gap "ghar" "gharwala");
    [vm_compute; reflexivity | vm_compute; reflexivity].
Defined.

(** A multiple-choice exercise, answered in another case. *)
Lemma evaluate_without_collaborator_witness :
  exercise_evaluator.is_correct
    (exercise_evaluator.evaluate (fun _ => Py.Raise Py.JSONDecodeError)
       exercise_evaluator.LlmRaises
       {| models.type := models.ExerciseType.MULTIPLE_CHOICE;
          models.question_json := [];
          models.correct_answer := "Ghar" |} " ghar")
  = Py.JBool true.
Proof.
  destruct (evaluate_without_collaborator (fun _ => Py.Raise Py.JSONDecodeError)
              (fun _ => Py.Raise Py.JSONDecodeError)
              exercise_evaluator.LlmRaises exercise_evaluator.LlmRaises
              {| models.type := models.ExerciseType.MULTIPLE_CHOICE;
                 models.question_json := [];
                 models.correct_answer := "Ghar" |} " ghar"
              ltac:(discriminate) ltac:(discriminate))
    as (_ & accepted & -> & -> & _).
  vm_compute. reflexivity.
Defined.

(** ** Streaks in general *)

Section StreakRuns.
Import models.
Import aux.

(** Below a streak of at least one, the loop counts the days of the run
    [lo .. cur] that the sorted dates cover and stops at the first day
    without a session. *)
Lemma streak_over_run_gap dates streak cur lo :
  StronglySorted desc dates ->
  (forall d, d ∈ dates -> d <= cur) ->
  (forall z, lo <= z < cur -> z ∈ dates) ->
  lo - 1 ∉ dates ->
  lo <= cur -> 1 <= streak ->
  streak_over dates streak cur = streak + (cur - lo).
Proof.
  intros Hsorted. revert streak cur.
  induction Hsorted as [|d dates Hsorted IH Hd];
    intros streak cur Hmax Hcover Hgap Hlo Hs.
  - simpl. destruct (Z.eq_dec lo cur) as [|Hne]; [lia|].
    specialize (Hcover lo ltac:(lia)). inversion Hcover.
  - rewrite Forall_forall in Hd. unfold desc in Hd. rewrite streak_over_cons.
    pose proof (Hmax d ltac:(left)) as Hdcur.
    assert (Hgap' : lo - 1 ∉ dates) by (intros Hin; apply Hgap; now right).
    destruct (Z.eqb_spec d cur) as [->|Hne].
    + unfold Py.max_int. destruct (Z.ltb_spec streak 1); [lia|].
      apply IH; [| |assumption..].
      * intros z Hz. apply Hmax. now right.
      * intros z Hz. specialize (Hcover z Hz).
        apply elem_of_cons in Hcover as [->|]; [lia | assumption].
    + destruct (Z.eqb_spec d (cur - 1)) as [->|Hne'].
      * assert (lo < cur).
        { destruct (Z.eq_dec lo cur) as [->|]; [|lia].
          exfalso. apply Hgap. left. }
        rewrite IH; [lia | | | assumption | lia | lia].
        -- intros z Hz. specialize (Hd _ Hz). lia.
        -- intros z Hz. specialize (Hcover z ltac:(lia)).
           apply elem_of_cons in Hcover as [->|]; [lia | assumption].
      * destruct (Z.eq_dec lo cur) as [->|]; [lia|].
        specialize (Hcover (cur - 1) ltac:(lia)).
        apply elem_of_cons in Hcover as [Heq|Hin]; [lia|].
        specialize (Hd _ Hin). lia.
Qed.

(** The sorted dates start with the latest one. *)
Lemma sorted_dates_latest dates latest :
  StronglySorted desc dates ->
  latest ∈ dates -> (forall d, d ∈ dates -> d <= latest) ->
  exists dates', dates = latest :: dates'.
Proof.
  intros Hsorted Hin Hmax.
  destruct Hsorted as [|d dates Hsorted Hd]; [inversion Hin|].
  rewrite Forall_forall in Hd. unfold desc in Hd.
  exists dates. f_equal.
  pose proof (Hmax d ltac:(left)).
  apply elem_of_cons in Hin as [->|Hin]; [reflexivity|].
  specialize (Hd _ Hin). lia.
Qed.

(** X6.  The streak is the length of the run of consecutive days with an ended
    session that ends today or, when today has none yet, yesterday: with no
    session dated after [anchor] (today or yesterday), one on each of the
    [k] days up to [anchor] and none on the day before them, the streak is
    [k]. *)
Theorem streak_is_run_length
    (db : Database) (user_id : uuid) (now : Py.datetime) (anchor : Py.date) (k : Z) :
  anchor = Py.date_of now \/ anchor = Py.date_of now - 1 ->
  1 <= k ->
  (forall d, d ∈ session_dates db user_id -> d <= anchor) ->
  (forall z, anchor - k < z <= anchor -> z ∈ session_dates db user_id) ->
  anchor - k ∉ session_dates db user_id ->
  users._calculate_streak db user_id now = k.
Proof.
  intros Hanchor Hk Hmax Hcover Hgap.
  destruct (_calculate_streak_dates db user_id now) as (dates & -> & Hsorted & Hperm).
  assert (Hmem : forall d, d ∈ dates <-> d ∈ session_dates db user_id)
    by (intros d; now rewrite Hperm).
  destruct (sorted_dates_latest dates anchor Hsorted) as (dates' & ->).
  { apply Hmem, Hcover. lia. }
  { intros d Hd. apply Hmax, Hmem, Hd. }
  inversion Hsorted as [|? ? Hsorted' Hle]; subst.
  assert (Hstart : streak_over (anchor :: dates') 0 (Py.date_of now)
                   = streak_over dates' 1 anchor).
  { rewrite streak_over_cons. destruct Hanchor as [-> | ->].
    - rewrite Z.eqb_refl. reflexivity.
    - destruct (Z.eqb_spec (Py.date_of now - 1) (Py.date_of now)); [lia|].
      rewrite Z.eqb_refl. reflexivity. }
  transitivity (streak_over dates' 1 anchor); [exact Hstart|].
  rewrite (streak_over_run_gap dates' 1 anchor (anchor - k + 1));
    try lia; try assumption.
  - intros d Hd. apply Hmax, Hmem. now right.
  - intros z Hz. assert (z ∈ anchor :: dates') as Hz' by (apply Hmem, Hcover; lia).
    apply elem_of_cons in Hz' as [->|]; [lia | assumption].
  - intros Hin. apply Hgap, Hmem. right.
    replace (anchor - k) with (anchor - k + 1 - 1) by lia. exact Hin.
Qed.

(** X7.  The streak is 0 when the latest ended session is dated neither today nor
    yesterday: before yesterday, or after today, whatever the other
    sessions. *)
Theorem streak_needs_recent_session
    (db : Database) (user_id : uuid) (now : Py.datetime) (latest : Py.date) :
  latest ∈ session_dates db user_id ->
  (forall d, d ∈ session_dates db user_id -> d <= latest) ->
  latest <> Py.date_of now -> latest <> Py.date_of now - 1 ->
  users._calculate_streak db user_id now = 0.
Proof.
  intros Hin Hmax Htoday Hyesterday.
  destruct (_calculate_streak_dates db user_id now) as (dates & -> & Hsorted & Hperm).
  destruct (sorted_dates_latest dates latest Hsorted) as (dates' & ->).
  { now rewrite Hperm. }
  { intros d Hd. apply Hmax. now rewrite <- Hperm. }
  rewrite streak_over_cons.
  destruct (Z.eqb_spec latest (Py.date_of now)); [contradiction|].
  destruct (Z.eqb_spec latest (Py.date_of now - 1)); [contradiction | reflexivity].
Qed.

End StreakRuns.

(** Four sessions on the three days up to yesterday (day 99), none today
    (day 100) and none on day 96: a streak of 3. *)
Lemma streak_is_run_length_witness :
  users._calculate_streak
    (aux.db_with_sessions
       [99 * Py.microseconds_per_day + 5; 97 * Py.microseconds_per_day;
        98 * Py.microseconds_per_day + 9; 99 * Py.microseconds_per_day;
        90 * Py.microseconds_per_day])
    "u" (100 * Py.microseconds_per_day + 43200000000) = 3.
Proof.
  apply (streak_is_run_length _ _ _ 99 3).
  - right. reflexivity.
  - lia.
  - intros d Hd. vm_compute in Hd.
    repeat (apply elem_of_cons in Hd as [->|Hd]; [lia|]). inversion Hd.
  - intros z Hz. assert (Hday : z = 97 \/ z = 98 \/ z = 99) by lia. clear Hz.
    destruct Hday as [Hday | [Hday | Hday]]; rewrite Hday; vm_compute; set_solver.
  - intros Hd. vm_compute in Hd.
    repeat (apply elem_of_cons in Hd as [Hd|Hd]; [discriminate|]). inversion Hd.
Defined.

(** A session dated tomorrow hides the sessions of today and yesterday. *)
Lemma streak_needs_recent_session_witness :
  users._calculate_streak
    (aux.db_with_sessions
       [100 * Py.microseconds_per_day; 99 * Py.microseconds_per_day;
        101 * Py.microseconds_per_day + 1])
    "u" (100 * Py.microseconds_per_day + 43200000000) = 0.
Proof.
  apply (streak_needs_recent_session _ _ _ 101).
  - vm_compute. set_solver.
  - intros d Hd. vm_compute in Hd.
    repeat (apply elem_of_cons in Hd as [->|Hd]; [lia|]). inversion Hd.
  - vm_compute. discriminate.
  - vm_compute. discriminate.
Defined.

(** ** Order of the levels *)

Section LevelOrder.
Import models.
Import support.

Lemma level_for_monotone (m n : Z) :
  m <= n -> rank (story_generator.level_for m) <= rank (story_generator.level_for n).
Proof.
  intros Hmn. unfold story_generator.level_for. repeat case_match; simpl; lia.
Qed.

Lemma _determine_level_monotone (m n : Z) :
  m <= n -> rank (users._determine_level m) <= rank (users._determine_level n).
Proof.
  intros Hmn. unfold users._determine_level. repeat case_match; simpl; lia.
Qed.

(** X8.  Both level tables are monotone in the number of known words, and the
    dashboard level is never above the level used for stories. *)
Theorem levels_monotone :
  (forall m n : Z,
     m <= n ->
     rank (story_generator.level_for m) <= rank (story_generator.level_for n)
     /\ rank (users._determine_level m) <= rank (users._determine_level n))
  /\ (forall n : Z,
        rank (users._determine_level n) <= rank (story_generator.level_for n))
  /\ (forall db user_id now,
        rank (users.level (users.get_stats db user_id now))
        <= rank (story_generator._determine_user_level db user_id)
        /\ stories.ready_level (stories.get_ready_story_info db user_id)
           = story_generator._determine_user_level db user_id).
Proof.
  assert (Hboth : forall n : Z,
            rank (users._determine_level n) <= rank (story_generator.level_for n)).
  { intros n. unfold users._determine_level, story_generator.level_for.
    repeat case_match; simpl; lia. }
  split; [|split; [exact Hboth|]].
  - intros m n Hmn.
    split; [now apply level_for_monotone | now apply _determine_level_monotone].
  - intros db user_id now. split; [apply Hboth | reflexivity].
Qed.

End LevelOrder.

(** ** Readiness and selection *)

Section Readiness.
Import models.
Import aux.

Variable random_order : list (uuid * Word) -> list (uuid * Word).
Hypothesis random_order_permutation : forall rows, random_order rows ≡ₚ rows.

(** X9.  What [get_ready_story_info] announces is what the generation selects
    when no word is requested and no level is forced: the same level, as many
    new words as announced, and at least 3 of them exactly when it says
    [ready]. *)
Theorem ready_iff_enough_new_words
    (db : Database) (user_id : uuid) (focus_id : option uuid) :
  let info := stories.get_ready_story_info db user_id in
  let inputs :=
    story_generator.generate_story_inputs random_order db user_id [] focus_id None in
  stories.ready_level info = story_generator.gen_level inputs
  /\ stories.new_words_available info = length (story_generator.new_words inputs)
  /\ (stories.ready info = true
      <-> (3 <= length (story_generator.new_words inputs))%nat).
Proof.
  cbn zeta.
  unfold stories.get_ready_story_info, story_generator.generate_story_inputs,
    story_generator._determine_user_level.
  cbn [stories.ready_level stories.new_words_available stories.ready
       story_generator.gen_level story_generator.new_words].
  set (level := story_generator.level_for (count_words_known db user_id)).
  change (filter _ (map_to_list (words db)))
    with (untouched_words db user_id level).
  destruct (_select_new_words_rows random_order random_order_permutation
              db user_id level [])
    as (included & drawn & -> & _ & Hnone & _ & _ & Hlen).
  rewrite (Hnone eq_refl). cbn [app].
  rewrite !length_take, (Hlen eq_refl).
  split; [reflexivity|]. split; [lia|].
  rewrite Nat.leb_le. lia.
Qed.

End Readiness.

(** With four untouched A1 words the user is ready and gets four. *)
Lemma ready_iff_enough_new_words_witness :
  (forall rows : list (models.uuid * models.Word), rows ≡ₚ rows)
  /\ stories.ready (stories.get_ready_story_info (aux.db_with_words 4) "u") = true
  /\ stories.new_words_available (stories.get_ready_story_info (aux.db_with_words 4) "u")
     = 4%nat.
Proof.
  split; [reflexivity|].
  destruct (ready_iff_enough_new_words (fun rows => rows) (fun rows => reflexivity rows)
              (aux.db_with_words 4) "u" None) as (_ & Havailable & Hready).
  split.
  - apply Hready. vm_compute. lia.
  - rewrite Havailable. vm_compute. reflexivity.
Defined.

(** ** Counting the rows of a user *)

Section Counting.
Import models.
Import support.

Context (P : UserWord -> Prop) `{forall r, Decision (P r)}.

Lemma user_word_rows_count (db : Database) (user_id : uuid) :
  length (filter (fun r : uuid * UserWord => P r.2) (user_word_rows db user_id))
  = count_rows P (user_words db) user_id.
Proof.
  unfold user_word_rows, count_rows.
  induction (map_to_list (user_words db)) as [|kv rows IH]; [reflexivity|].
  cbn [omap list_omap]. rewrite (filter_cons _ kv).
  destruct (bool_decide_reflect (kv.1.1 = user_id)) as [Hu|Hu].
  - rewrite filter_cons. cbn [snd].
    destruct (decide (P kv.2)) as [Hp|Hp].
    + rewrite decide_True by auto. cbn [length]. now f_equal.
    + rewrite decide_False by tauto. exact IH.
  - rewrite decide_False by tauto. exact IH.
Qed.

Lemma count_rows_permutation (rows rows' : list ((uuid * uuid) * UserWord)) user_id :
  rows ≡ₚ rows' ->
  length (filter (fun kv : (uuid * uuid) * UserWord => kv.1.1 = user_id /\ P kv.2) rows)
  = length (filter (fun kv : (uuid * uuid) * UserWord => kv.1.1 = user_id /\ P kv.2) rows').
Proof. intros Hperm. now rewrite Hperm. Qed.

(** The count after a row is written, from the count without that row. *)
Lemma count_rows_insert (table : gmap (uuid * uuid) UserWord) key row user_id :
  count_rows P (<[key := row]> table) user_id
  = ((if decide (key.1 = user_id /\ P row) then 1 else 0)
     + count_rows P (delete key table) user_id)%nat.
Proof.
  unfold count_rows. rewrite <- insert_delete_eq.
  rewrite (count_rows_permutation _ ((key, row) :: map_to_list (delete key table)))
    by (apply map_to_list_insert, lookup_delete_eq).
  rewrite filter_cons. cbn [fst snd].
  destruct (decide (key.1 = user_id /\ P row)); reflexivity.
Qed.

Lemma count_rows_lookup (table : gmap (uuid * uuid) UserWord) key user_id :
  count_rows P table user_id
  = ((match table !! key with
      | Some row => if decide (key.1 = user_id /\ P row) then 1 else 0
      | None => 0
      end)
     + count_rows P (delete key table) user_id)%nat.
Proof.
  destruct (table !! key) as [row|] eqn:Hrow.
  - rewrite <- (insert_id table key row Hrow) at 1. apply count_rows_insert.
  - now rewrite delete_id.
Qed.

(** Writing a row that satisfies [P] exactly when the row it replaces does
    (and does not when it replaces none) keeps every user's count. *)
Lemma count_rows_update (table : gmap (uuid * uuid) UserWord) key row user_id :
  match table !! key with
  | Some old => P row <-> P old
  | None => ~ P row
  end ->
  count_rows P (<[key := row]> table) user_id = count_rows P table user_id.
Proof.
  intros Hsame. rewrite count_rows_insert, (count_rows_lookup table key).
  destruct (table !! key) as [old|].
  - destruct (decide (key.1 = user_id /\ P row)), (decide (key.1 = user_id /\ P old));
      tauto || reflexivity.
  - rewrite decide_False by tauto. reflexivity.
Qed.

End Counting.

Lemma count_words_known_rows (db : models.Database) (user_id : models.uuid) :
  models.count_words_known db user_id
  = Z.of_nat (support.count_rows support.known (models.user_words db) user_id).
Proof.
  unfold models.count_words_known. f_equal.
  exact (user_word_rows_count support.known db user_id).
Qed.

(** ** What completing a story leaves alone *)

Section CompleteStoryFrame.
Import models.
Import aux.
Import support.

Lemma mark_word_seen_insert user_id now table word_id :
  stories.mark_word_seen user_id now table word_id
  = <[(user_id, word_id) := seen_row now (table !! (user_id, word_id))]> table.
Proof.
  unfold stories.mark_word_seen, seen_row.
  destruct (table !! (user_id, word_id)) as [user_word|]; [|reflexivity].
  f_equal. reduce_row.
  destruct (bool_decide (status user_word = WordStatus.NEW)); reflexivity.
Qed.

(** A property of rows that marking a word as seen neither gives nor takes
    away is had by as many rows of each user after the loop as before. *)
Lemma mark_words_seen_count (P : UserWord -> Prop) `{forall r, Decision (P r)}
    user_id now word_ids table reader :
  (forall old, P (seen_row now (Some old)) <-> P old) ->
  ~ P (seen_row now None) ->
  count_rows P (foldl (stories.mark_word_seen user_id now) table word_ids) reader
  = count_rows P table reader.
Proof.
  intros Hold Hnew. revert table.
  induction word_ids as [|w word_ids IH]; intros table; [reflexivity|].
  cbn [foldl]. rewrite IH, mark_word_seen_insert.
  apply count_rows_update.
  destruct (table !! (user_id, w)); [apply Hold | exact Hnew].
Qed.

Lemma complete_story_user_words db user_id story_id rating now db' :
  stories.complete_story db user_id story_id rating now = Py.Ok db' ->
  exists story,
    stories db !! story_id = Some story
    /\ story_user_id story = user_id
    /\ user_words db'
       = foldl (stories.mark_word_seen user_id now) (user_words db)
               (target_new_word_ids story).
Proof.
  unfold stories.complete_story.
  destruct (stories.StoryCompleteRequest rating) as [checked|]; [|discriminate].
  cbn [mbind Py.result_bind].
  destruct (stories db !! story_id) as [story|]; [|discriminate].
  destruct (bool_decide_reflect (story_user_id story = user_id)); [|discriminate].
  cbn [mbind Py.result_bind mret Py.result_ret]. intros [= <-].
  exists story. auto.
Qed.

Lemma known_seen_row now old : known (seen_row now (Some old)) <-> known old.
Proof.
  unfold known. cbn [seen_row status].
  destruct (bool_decide_reflect (status old = WordStatus.NEW)) as [Hnew|];
    [rewrite Hnew|]; intuition discriminate.
Qed.

(** X10.  Completing a story changes no user's number of known words, and so no
    user's level, neither the one for stories nor the one of the
    dashboard. *)
Theorem complete_story_keeps_level
    (db : Database) (user_id story_id : uuid) (rating : option Z)
    (now : Py.datetime) (db' : Database) :
  stories.complete_story db user_id story_id rating now = Py.Ok db' ->
  forall reader t,
    count_words_known db' reader = count_words_known db reader
    /\ story_generator._determine_user_level db' reader
       = story_generator._determine_user_level db reader
    /\ users.level (users.get_stats db' reader t)
       = users.level (users.get_stats db reader t).
Proof.
  intros Hok reader t.
  apply complete_story_user_words in Hok as (story & _ & _ & Htable).
  assert (Hcount : count_words_known db' reader = count_words_known db reader).
  { rewrite !count_words_known_rows, Htable. f_equal.
    apply mark_words_seen_count; [apply known_seen_row|].
    unfold known. cbn. intuition discriminate. }
  unfold story_generator._determine_user_level, users.get_stats.
  cbn [users.level]. rewrite Hcount. auto.
Qed.

Lemma due_seen_row t now old :
  review_queue.due t (seen_row now (Some old)) <-> review_queue.due t old.
Proof.
  unfold review_queue.due. cbn [seen_row status next_review_at].
  destruct (bool_decide_reflect (status old = WordStatus.NEW)) as [Hnew|];
    [rewrite Hnew|]; intuition discriminate.
Qed.

(** X11.  Completing a story changes no user's number of due words, at any
    time: the rows it creates have no due time. *)
Theorem complete_story_keeps_words_due
    (db : Database) (user_id story_id : uuid) (rating : option Z)
    (now : Py.datetime) (db' : Database) :
  stories.complete_story db user_id story_id rating now = Py.Ok db' ->
  forall reader t,
    review_queue.words_due (review_queue.get_review_summary db' reader t)
    = review_queue.words_due (review_queue.get_review_summary db reader t).
Proof.
  intros Hok reader t.
  apply complete_story_user_words in Hok as (story & _ & _ & Htable).
  unfold review_queue.get_review_summary, review_queue.due_rows.
  cbn [review_queue.words_due]. f_equal.
  rewrite !(user_word_rows_count (review_queue.due t)), Htable.
  apply mark_words_seen_count; [apply due_seen_row|].
  unfold review_queue.due. cbn. tauto.
Qed.

(** X12.  The outcomes of a completion request.  It is refused with a
    validation error exactly when its rating is below 1 or above 5, whatever
    the story; a request that passes fails with 404 exactly when the user has
    no story of that id; every other request succeeds.  A success stamps the
    story with the completion time, replaces its rating only by a rating that
    is given, and leaves its owner, its target words and the other stories as
    they were; so completing the story again later without a rating keeps the
    rating and moves the completion time. *)
Theorem complete_story_outcomes
    (db : Database) (user_id story_id : uuid) (rating : option Z) (now : Py.datetime) :
  let outcome := stories.complete_story db user_id story_id rating now in
  let refused := exists r, rating = Some r /\ (r < 1 \/ 5 < r) in
  let owned :=
    exists story,
      stories db !! story_id = Some story /\ story_user_id story = user_id in
  (outcome = Py.Raise Py.RequestValidationError <-> refused)
  /\ (outcome = Py.Raise (Py.HTTPException 404) <-> ~ refused /\ ~ owned)
  /\ (Py.is_Ok outcome <-> ~ refused /\ owned)
  /\ (forall db',
        outcome = Py.Ok db' ->
        exists story story',
          stories db !! story_id = Some story
          /\ stories db' !! story_id = Some story'
          /\ completed_at story' = Some now
          /\ models.rating story'
             = match rating with
               | Some r => Some r
               | None => models.rating story
               end
          /\ story_user_id story' = user_id
          /\ target_new_word_ids story' = target_new_word_ids story
          /\ (forall other, other <> story_id ->
                stories db' !! other = stories db !! other)
          /\ (forall later,
                exists db'' story'',
                  stories.complete_story db' user_id story_id None later
                  = Py.Ok db''
                  /\ stories db'' !! story_id = Some story''
                  /\ models.rating story'' = models.rating story'
                  /\ completed_at story'' = Some later)).
Proof.
  intros outcome refused owned.
  assert (Hcases : refused \/ (forall r, rating = Some r -> 1 <= r <= 5)).
  { destruct rating as [r|]; [|right; intros ? [=]].
    destruct (decide (1 <= r <= 5)) as [Hin|Hout].
    - right. intros ? [= <-]. exact Hin.
    - left. exists r. split; [reflexivity | lia]. }
  destruct Hcases as [Hrefused|Hvalid].
  - assert (Hout : outcome = Py.Raise Py.RequestValidationError).
    { destruct Hrefused as (r & -> & Hr). subst outcome.
      unfold stories.complete_story.
      rewrite (StoryCompleteRequest_invalid r Hr). reflexivity. }
    rewrite Hout. split; [tauto|].
    split; [split; [discriminate | tauto]|].
    split; [split; [intros [] | tauto]|].
    discriminate.
  - assert (Hpassed : ~ refused).
    { intros (r & Hr & Hout). specialize (Hvalid r Hr). lia. }
    subst outcome. unfold stories.complete_story.
    rewrite (StoryCompleteRequest_valid _ Hvalid). cbn [mbind Py.result_bind].
    destruct (stories db !! story_id) as [story|] eqn:Hstory.
    + destruct (bool_decide_reflect (story_user_id story = user_id))
        as [Howner|Hforeign]; cbn [mbind Py.result_bind mret Py.result_ret].
      * assert (Howned : owned) by (exists story; auto).
        split; [split; [discriminate | tauto]|].
        split; [split; [discriminate | tauto]|].
        split; [split; [auto | intros _; exact I]|].
        intros db' [= <-]. eexists story, _.
        cbn [stories.set_user_words stories.set_stories stories].
        split; [reflexivity|]. split; [apply lookup_insert_eq|].
        split; [reflexivity|]. split.
        { cbn [models.rating]. destruct rating as [r|]; [|reflexivity].
          specialize (Hvalid r eq_refl).
          replace (r =? 0) with false by lia. reflexivity. }
        split; [exact Howner|]. split; [reflexivity|]. split.
        { intros other Hother. now apply lookup_insert_ne. }
        intros later. unfold stories.complete_story.
        cbn [stories.StoryCompleteRequest mbind Py.result_bind
             stories.set_user_words stories.set_stories stories].
        rewrite lookup_insert_eq. cbn [story_user_id].
        rewrite (bool_decide_eq_true_2 _ Howner).
        cbn [mbind Py.result_bind mret Py.result_ret].
        eexists _, _. split; [reflexivity|].
        cbn [stories.set_user_words stories.set_stories stories].
        split; [apply lookup_insert_eq|]. split; reflexivity.
      * assert (Hnot : ~ owned).
        { intros (story0 & Hstory0 & Howner). congruence. }
        split; [split; [discriminate | tauto]|].
        split; [split; [auto | reflexivity]|].
        split; [split; [intros [] | tauto]|].
        discriminate.
    + cbn [mbind Py.result_bind].
      assert (Hnot : ~ owned).
      { intros (story0 & Hstory0 & _). congruence. }
      split; [split; [discriminate | tauto]|].
      split; [split; [auto | reflexivity]|].
      split; [split; [intros [] | tauto]|].
      discriminate.
Qed.

(** X13.  The words of a completed story count as reviewed today: each target
    word, listed once, has then been seen at the completion time, and the
    summary counts the rows seen since midnight. *)
Theorem complete_story_counts_as_reviewed
    (db : Database) (user_id story_id : uuid) (rating : option Z)
    (now : Py.datetime) (db' : Database) (story : Story) :
  stories db !! story_id = Some story ->
  NoDup (target_new_word_ids story) ->
  stories.complete_story db user_id story_id rating now = Py.Ok db' ->
  Z.of_nat (length (target_new_word_ids story))
  <= review_queue.words_reviewed_today (review_queue.get_review_summary db' user_id now).
Proof.
  intros Hstory Hnodup Hok.
  apply complete_story_user_words in Hok as (story0 & Hstory0 & _ & Htable).
  assert (story0 = story) as -> by congruence.
  unfold review_queue.get_review_summary. cbn [review_queue.words_reviewed_today].
  apply inj_le.
  rewrite (user_word_rows_count (review_queue.seen_since (review_queue.today_start now))).
  unfold count_rows.
  set (seen := filter _ (map_to_list (user_words db'))).
  rewrite <- (length_fmap (fun w => (user_id, w)) (target_new_word_ids story)).
  rewrite <- (length_fmap fst seen).
  apply submseteq_length, NoDup_submseteq.
  - apply (NoDup_fmap_2 _), Hnodup.
  - intros key Hkey. apply list_elem_of_fmap in Hkey as (w & -> & Hw).
    apply list_elem_of_fmap.
    exists (user_id, w, seen_row now (user_words db !! (user_id, w))).
    split; [reflexivity|]. subst seen. apply list_elem_of_filter. split.
    + split; [reflexivity|]. cbn [snd].
      assert (Hseen : last_seen_at (seen_row now (user_words db !! (user_id, w)))
                      = Some now)
        by (destruct (user_words db !! (user_id, w)); reflexivity).
      unfold review_queue.seen_since, review_queue.today_start, Py.date_of.
      rewrite Hseen. rewrite Z.mul_comm. apply Z.mul_div_le. reflexivity.
    + apply elem_of_map_to_list. rewrite Htable.
      now apply mark_words_seen_target.
Qed.

End CompleteStoryFrame.

(** Witnesses on the story of [aux.db_one_story], completed by its owner. *)
Lemma complete_story_keeps_level_witness :
  exists db',
    stories.complete_story aux.db_one_story "u" "s" None 1000 = Py.Ok db'
    /\ models.count_words_known db' "u" = 1.
Proof.
  assert (Hok : { db' | stories.complete_story aux.db_one_story "u" "s" None 1000
                        = Py.Ok db' }) by (eexists; reflexivity).
  destruct Hok as [db' Hok]. exists db'. split; [exact Hok|].
  destruct (complete_story_keeps_level _ _ _ _ _ _ Hok "u"%string 0) as (-> & _).
  vm_compute. reflexivity.
Defined.

Lemma complete_story_keeps_words_due_witness :
  exists db',
    stories.complete_story aux.db_one_story "u" "s" None 1000 = Py.Ok db'
    /\ review_queue.words_due (review_queue.get_review_summary db' "u" 5000) = 0.
Proof.
  assert (Hok : { db' | stories.complete_story aux.db_one_story "u" "s" None 1000
                        = Py.Ok db' }) by (eexists; reflexivity).
  destruct Hok as [db' Hok]. exists db'. split; [exact Hok|].
  rewrite (complete_story_keeps_words_due _ _ _ _ _ _ Hok "u"%string 5000).
  vm_compute. reflexivity.
Defined.

Lemma complete_story_counts_as_reviewed_witness :
  exists db',
    stories.complete_story aux.db_one_story "u" "s" None 1000 = Py.Ok db'
    /\ 2 <= review_queue.words_reviewed_today
              (review_queue.get_review_summary db' "u" 1000).
Proof.
  assert (Hok : { db' | stories.complete_story aux.db_one_story "u" "s" None 1000
                        = Py.Ok db' }) by (eexists; reflexivity).
  destruct Hok as [db' Hok]. exists db'. split; [exact Hok|].
  assert (Hnodup : NoDup (models.target_new_word_ids aux.story_two_words)).
  { repeat constructor; rewrite ?elem_of_cons, ?elem_of_nil; intros H;
      repeat destruct H as [H|H]; discriminate || exact H. }
  apply (complete_story_counts_as_reviewed aux.db_one_story "u" "s" None 1000 db'
           aux.story_two_words ltac:(vm_compute; reflexivity) Hnodup Hok).
Defined.

(** ** After a story *)

Section AfterStory.
Import models.

Variable random_order : list (uuid * Word) -> list (uuid * Word).
Hypothesis random_order_permutation : forall rows, random_order rows ≡ₚ rows.

(** The loop of [complete_story] leaves a row for each target word. *)
Lemma mark_words_seen_row user_id now word_ids table word_id :
  word_id ∈ word_ids ->
  is_Some (foldl (stories.mark_word_seen user_id now) table word_ids
             !! (user_id, word_id)).
Proof.
  revert table. induction word_ids as [|w word_ids IH]; intros table Hin;
    [inversion Hin|].
  cbn [foldl].
  destruct (decide (word_id ∈ word_ids)) as [Hlater|Hlast]; [now apply IH|].
  apply elem_of_cons in Hin as [->|]; [|contradiction].
  rewrite mark_words_seen_other.
  - rewrite mark_word_seen_same. eauto.
  - intros w' Hw' [= ->]. contradiction.
Qed.

(** X25.  Once a story is completed, none of its target words is selected as a
    new word for its owner again, at any level, unless it is asked for by
    id. *)
Theorem completed_words_not_selected_again
    (db : Database) (user_id story_id : uuid) (rating : option Z)
    (now : Py.datetime) (db' : Database) (story : Story) :
  stories db !! story_id = Some story ->
  stories.complete_story db user_id story_id rating now = Py.Ok db' ->
  forall level word_id,
    word_id ∈ target_new_word_ids story ->
    word_id ∉ (story_generator._select_new_words random_order db' user_id level []).*1.
Proof.
  intros Hstory Hok level word_id Htarget Hselected.
  apply complete_story_user_words in Hok as (story0 & Hstory0 & _ & Htable).
  assert (story0 = story) as -> by congruence.
  destruct (_select_new_words_rows random_order random_order_permutation
              db' user_id level [])
    as (included & drawn & Hsel & _ & Hnone & Hdrawn & _).
  rewrite Hsel, (Hnone eq_refl) in Hselected. cbn [app] in Hselected.
  apply list_elem_of_fmap in Hselected as ([w row] & -> & Hin).
  apply (subseteq_take 5) in Hin.
  apply Hdrawn in Hin as (_ & _ & Hfresh & _). cbn [fst] in Hfresh.
  rewrite Htable in Hfresh.
  destruct (mark_words_seen_row user_id now _ (user_words db) w Htarget)
    as [found Hfound].
  congruence.
Qed.

End AfterStory.

(** Both words of the story can be selected before it is completed, none
    after. *)
Lemma completed_words_not_selected_again_witness :
  (forall rows : list (models.uuid * models.Word), rows ≡ₚ rows)
  /\ exists db',
      stories.complete_story support.db_story "u" "s" None 1000 = Py.Ok db'
      /\ length (story_generator._select_new_words (fun rows => rows)
                   support.db_story "u" models.CEFRLevel.A1 []) = 2%nat
      /\ "w1"%string
         ∉ (story_generator._select_new_words (fun rows => rows)
              db' "u" models.CEFRLevel.A1 []).*1.
Proof.
  split; [reflexivity|].
  assert (Hok : { db' | stories.complete_story support.db_story "u" "s" None 1000
                        = Py.Ok db' }) by (eexists; reflexivity).
  destruct Hok as [db' Hok]. exists db'. split; [exact Hok|].
  split; [vm_compute; reflexivity|].
  apply (completed_words_not_selected_again (fun rows => rows)
           (fun rows => reflexivity rows) support.db_story "u" "s" None 1000 db'
           aux.story_two_words ltac:(vm_compute; reflexivity) Hok).
  left.
Defined.

(** ** More on review scheduling *)

Section ReviewOutcomes.
Import models.
Import aux.

Local Open Scope float_scope.

(** X14.  A review leaves a word MASTERED only if it passed (quality at least 3),
    the prior interval was neither 0 nor 1, the new interval is at least 21
    days and the familiarity at least 0.9.  So a failed review, and each of
    the first two steps of the schedule, leaves the word KNOWN or
    LEARNING. *)
Theorem submit_review_mastered_only_if
    (user_word : UserWord) (quality : Z) (now : Py.datetime) (user_word' : UserWord) :
  reviews.submit_review user_word quality now = Py.Ok user_word' ->
  status user_word' = WordStatus.MASTERED ->
  (3 <= quality <= 5)%Z
  /\ Py.number_eq (srs_interval_days user_word) 0 = false
  /\ Py.number_eq (srs_interval_days user_word) 1 = false
  /\ (exists n, srs_interval_days user_word' = Py.Int n /\ (21 <= n)%Z)
  /\ (0.9 <=? familiarity user_word') = true.
Proof.
  intros Hok Hmastered.
  apply submit_review_Ok in Hok
    as (Hq & n & next & Hn & _ & Hi & _ & _ & _ & _ & Hst).
  rewrite Hst in Hmastered. unfold spec.new_status in Hmastered.
  destruct (0.9 <=? familiarity user_word') eqn:Hfam;
    [|cbn in Hmastered; destruct (0.7 <=? _); discriminate].
  destruct (Z.leb_spec 21 n) as [Hn21|];
    [|cbn in Hmastered; destruct (0.7 <=? _); discriminate].
  unfold spec.new_interval in Hn.
  destruct (Z.ltb_spec quality 3); [injection Hn as <-; lia|].
  destruct (Py.number_eq (srs_interval_days user_word) 0);
    [injection Hn as <-; lia|].
  destruct (Py.number_eq (srs_interval_days user_word) 1);
    [injection Hn as <-; lia|].
  repeat split; try lia. exists n. auto.
Qed.

(** The failures of the handler from the found row on. *)
Lemma submit_review_row_failures
    (user_word : UserWord) (quality : Z) (now : Py.datetime) :
  (reviews.submit_review user_word quality now = Py.Raise Py.RequestValidationError
   <-> ~ (0 <= quality <= 5)%Z)
  /\ (forall e,
        reviews.submit_review user_word quality now = Py.Raise e ->
        e = Py.RequestValidationError \/ e = Py.OverflowError \/ e = Py.ValueError)
  /\ (forall e,
        reviews.submit_review user_word quality now = Py.Raise e ->
        (0 <= quality < 3)%Z
        \/ (3 <= quality <= 5)%Z
           /\ (Py.number_eq (srs_interval_days user_word) 0 = true
               \/ Py.number_eq (srs_interval_days user_word) 1 = true) ->
        e = Py.OverflowError
        /\ (Py.add_days now 1 = Py.Raise Py.OverflowError
            \/ Py.add_days now 6 = Py.Raise Py.OverflowError)).
Proof.
  rewrite submit_review_unfold.
  assert (Hadd : forall n e, Py.add_days now n = Py.Raise e -> e = Py.OverflowError).
  { intros n e. unfold Py.add_days, Py.timedelta_days, Py.datetime_add.
    destruct (999999999 <? Z.abs n)%Z; cbn [mbind Py.result_bind];
      [congruence|].
    destruct (_ && _); [discriminate | congruence]. }
  assert (Hinterval : forall e,
            spec.new_interval (srs_interval_days user_word)
              (spec.new_ease (srs_ease_factor user_word) quality) quality
            = Py.Raise e ->
            ((3 <= quality)%Z
             /\ Py.number_eq (srs_interval_days user_word) 0 = false
             /\ Py.number_eq (srs_interval_days user_word) 1 = false)
            /\ (e = Py.OverflowError \/ e = Py.ValueError)).
  { intros e. unfold spec.new_interval.
    destruct (Z.ltb_spec quality 3); [discriminate|].
    destruct (Py.number_eq (srs_interval_days user_word) 0); [discriminate|].
    destruct (Py.number_eq (srs_interval_days user_word) 1); [discriminate|].
    intros He. split; [auto|]. revert He.
    unfold Py.to_float. destruct (srs_interval_days user_word) as [k|f];
      [destruct (is_infinity _); [cbn; intros [= <-]; auto|]|];
      cbn [mbind Py.result_bind]; unfold Py.round;
      destruct (Prim2SF _) as [| | |]; try discriminate; intros [= <-]; auto. }
  unfold reviews.ReviewSubmitRequest.
  destruct (Z.leb_spec 0 quality), (Z.leb_spec quality 5);
    cbn [andb mbind Py.result_bind];
    try (split; [split; [intros _; lia | reflexivity]
                |split; [intros e [= <-]; auto | intros e _ Hcase; lia]]).
  destruct (spec.new_interval _ _ _) as [n|e0] eqn:Hn; cbn [mbind Py.result_bind].
  - destruct (Py.add_days now n) as [next|e1] eqn:Hnext;
      cbn [mbind Py.result_bind].
    + split; [split; [discriminate | lia]|]. split; discriminate.
    + pose proof (Hadd _ _ Hnext) as ->.
      split; [split; [discriminate | lia]|].
      split; [intros e [= <-]; auto|].
      intros e [= <-] Hcase. split; [reflexivity|].
      unfold spec.new_interval in Hn.
      destruct (Z.ltb_spec quality 3); [injection Hn as <-; auto|].
      destruct Hcase as [?|[_ Hcase]]; [lia|].
      destruct (Py.number_eq (srs_interval_days user_word) 0);
        [injection Hn as <-; auto|].
      destruct (Py.number_eq (srs_interval_days user_word) 1);
        [injection Hn as <-; auto|].
      destruct Hcase; discriminate.
  - destruct (Hinterval _ eq_refl) as ((H3 & Hz & Ho) & He).
    split; [split; [intros [= ->]; destruct He; discriminate | lia]|].
    split; [intros e [= <-]; tauto|].
    intros e _ [?|[_ [Hcase|Hcase]]]; [lia | congruence | congruence].
Qed.

(** X15.  A review request fails with a validation error exactly for a
    quality outside [[0, 5]], whatever the row; a request that passes fails
    with 404 exactly when the user has no such row; any other failure is a
    [ValueError] or an [OverflowError] of the schedule, and after a failed
    recall, or from a prior interval of 0 or 1, only an [OverflowError] for
    a due time out of range. *)
Theorem submit_review_failures
    (found : option UserWord) (quality : Z) (now : Py.datetime) :
  let outcome := review_queue.submit_review_request found quality now in
  (outcome = Py.Raise Py.RequestValidationError <-> ~ (0 <= quality <= 5)%Z)
  /\ (outcome = Py.Raise (Py.HTTPException 404)
      <-> (0 <= quality <= 5)%Z /\ found = None)
  /\ (forall e,
        outcome = Py.Raise e ->
        e = Py.RequestValidationError \/ e = Py.HTTPException 404
        \/ e = Py.OverflowError \/ e = Py.ValueError)
  /\ (forall user_word,
        found = Some user_word ->
        outcome = reviews.submit_review user_word quality now)
  /\ (forall user_word e,
        found = Some user_word ->
        outcome = Py.Raise e ->
        (0 <= quality < 3)%Z
        \/ (3 <= quality <= 5)%Z
           /\ (Py.number_eq (srs_interval_days user_word) 0 = true
               \/ Py.number_eq (srs_interval_days user_word) 1 = true) ->
        e = Py.OverflowError
        /\ (Py.add_days now 1 = Py.Raise Py.OverflowError
            \/ Py.add_days now 6 = Py.Raise Py.OverflowError)).
Proof.
  intros outcome.
  assert (Hrow : forall user_word,
            found = Some user_word ->
            outcome = reviews.submit_review user_word quality now).
  { intros user_word ->. subst outcome. unfold review_queue.submit_review_request.
    destruct (reviews.ReviewSubmitRequest quality) eqn:Hrequest;
      cbn [mbind Py.result_bind]; [reflexivity|].
    rewrite submit_review_unfold, Hrequest. reflexivity. }
  destruct found as [user_word|].
  - rewrite (Hrow user_word eq_refl).
    destruct (submit_review_row_failures user_word quality now)
      as (Hrefused & Hany & Hearly).
    split; [exact Hrefused|]. split.
    { split; [|intros [_ [=]]].
      intros H404. apply Hany in H404.
      destruct H404 as [H|[H|H]]; discriminate H. }
    split.
    { intros e He. apply Hany in He as [ -> | [ -> | -> ] ]; auto. }
    split; [intros ? [= <-]; reflexivity|].
    intros ? e [= <-]. apply Hearly.
  - subst outcome. unfold review_queue.submit_review_request.
    unfold reviews.ReviewSubmitRequest.
    destruct (Z.leb_spec 0 quality), (Z.leb_spec quality 5);
      cbn [andb mbind Py.result_bind].
    + split; [split; [discriminate | lia]|].
      split; [split; [auto | reflexivity]|].
      split; [intros e [= <-]; auto|].
      split; [discriminate|]. discriminate.
    + split; [split; [intros _; lia | reflexivity]|].
      split; [split; [discriminate | intros [? _]; lia]|].
      split; [intros e [= <-]; auto|].
      split; [discriminate|]. discriminate.
    + split; [split; [intros _; lia | reflexivity]|].
      split; [split; [discriminate | intros [? _]; lia]|].
      split; [intros e [= <-]; auto|].
      split; [discriminate|]. discriminate.
    + split; [split; [intros _; lia | reflexivity]|].
      split; [split; [discriminate | intros [? _]; lia]|].
      split; [intros e [= <-]; auto|].
      split; [discriminate|]. discriminate.
Qed.

(** One request keeps the counters in step. *)
Lemma reviewed_counters (user_word : UserWord) (request : Z * Py.datetime) :
  let user_word' := reviews.reviewed user_word request in
  (times_reviewed user_word <= times_reviewed user_word' <= times_reviewed user_word + 1)%Z
  /\ (times_correct user_word' - times_correct user_word
      <= times_reviewed user_word' - times_reviewed user_word)%Z
  /\ (times_correct user_word <= times_correct user_word')%Z
  /\ times_seen user_word' = times_seen user_word
  /\ source user_word' = source user_word
  /\ created_at user_word' = created_at user_word.
Proof.
  cbn zeta. unfold reviews.reviewed.
  rewrite submit_review_unfold.
  destruct (reviews.ReviewSubmitRequest _); cbn [mbind Py.result_bind];
    [|repeat split; lia].
  destruct (spec.new_interval _ _ _); cbn [mbind Py.result_bind];
    [|repeat split; lia].
  destruct (Py.add_days _ _); cbn [mbind Py.result_bind];
    [|repeat split; lia].
  unfold reviews.committed. reduce_row.
  destruct (3 <=? request.1)%Z; repeat split; lia.
Qed.

(** X16.  Along any history of review requests the counters stay in step: never
    more correct reviews than reviews, neither counter ever decreases, and
    the number of sightings, the source and the creation time of the row are
    never touched. *)
Theorem review_history_counters
    (user_word : UserWord) (requests : list (Z * Py.datetime)) :
  (0 <= times_correct user_word <= times_reviewed user_word)%Z ->
  Forall (fun row =>
            (0 <= times_correct row <= times_reviewed row)%Z
            /\ (times_correct user_word <= times_correct row)%Z
            /\ (times_reviewed user_word <= times_reviewed row
                <= times_reviewed user_word + Z.of_nat (length requests))%Z
            /\ times_seen row = times_seen user_word
            /\ source row = source user_word
            /\ created_at row = created_at user_word)
         (reviews.review_history user_word requests).
Proof.
  revert user_word.
  induction requests as [|request requests IH]; intros user_word Hinv;
    [constructor|].
  cbn [reviews.review_history].
  pose proof (reviewed_counters user_word request) as Hstep. cbn zeta in Hstep.
  set (user_word' := reviews.reviewed user_word request) in *.
  destruct Hstep as (Hrev & Hdiff & Hcor & Hseen & Hsource & Hcreated).
  constructor.
  - cbn [length]. repeat split; try assumption; lia.
  - assert (Hinv' : (0 <= times_correct user_word' <= times_reviewed user_word')%Z)
      by lia.
    specialize (IH user_word' Hinv').
    eapply Forall_impl; [exact IH|].
    intros row (? & ? & ? & -> & -> & ->). cbn [length].
    repeat split; try assumption; lia.
Qed.

(** X17.  After a review that goes through the row is next due exactly [n] days
    after the request, [n] the new interval: it is in no due list before
    that time, and in every one from then on unless it became MASTERED.  A
    word whose recall failed is due again one day later. *)
Theorem reviewed_word_due_again
    (user_word : UserWord) (quality : Z) (now : Py.datetime) (user_word' : UserWord) :
  reviews.submit_review user_word quality now = Py.Ok user_word' ->
  exists n,
    srs_interval_days user_word' = Py.Int n
    /\ last_seen_at user_word' = Some now
    /\ next_review_at user_word' = Some (now + n * Py.microseconds_per_day)%Z
    /\ (forall t,
          review_queue.due t (reviews.committed user_word')
          <-> (now + n * Py.microseconds_per_day <= t)%Z
              /\ status user_word' <> WordStatus.MASTERED)
    /\ ((quality < 3)%Z ->
        forall t,
          review_queue.due t (reviews.committed user_word')
          <-> (now + Py.microseconds_per_day <= t)%Z).
Proof.
  rewrite submit_review_unfold.
  destruct (reviews.ReviewSubmitRequest _); cbn [mbind Py.result_bind];
    [|discriminate].
  destruct (spec.new_interval _ _ _) as [n|] eqn:Hn; cbn [mbind Py.result_bind];
    [|discriminate].
  destruct (Py.add_days now n) as [next|] eqn:Hnext; cbn [mbind Py.result_bind];
    [|discriminate].
  intros [= <-]. exists n.
  assert (next = now + n * Py.microseconds_per_day)%Z as ->.
  { revert Hnext. unfold Py.add_days, Py.timedelta_days, Py.datetime_add.
    destruct (999999999 <? Z.abs n)%Z; cbn [mbind Py.result_bind];
      [discriminate|].
    destruct (_ && _); [congruence | discriminate]. }
  unfold review_queue.due, reviews.committed. reduce_row.
  split; [reflexivity|]. split; [reflexivity|]. split; [reflexivity|].
  split; [tauto|].
  intros Hlt. unfold spec.new_interval in Hn.
  destruct (Z.ltb_spec quality 3); [|lia]. injection Hn as <-.
  intros t. unfold spec.new_status.
  rewrite Z.mul_1_l. cbn [Z.leb Z.compare Pos.compare Pos.compare_cont andb].
  rewrite andb_false_r.
  destruct (0.7 <=? _); intuition discriminate.
Qed.

End ReviewOutcomes.

(** A word at its fourth step, reviewed well: 16 days become 43 and the word
    is MASTERED. *)
Lemma submit_review_mastered_only_if_witness :
  exists user_word',
    reviews.submit_review
      (models.set_times_correct 3
         (models.set_times_reviewed 3
            (models.set_srs_interval_days (Py.Float 16)
               (models.new_UserWord models.WordStatus.KNOWN 1 0)))) 4 0
    = Py.Ok user_word'
    /\ models.status user_word' = models.WordStatus.MASTERED
    /\ exists n, models.srs_interval_days user_word' = Py.Int n /\ 21 <= n.
Proof.
  assert (Hok : { user_word' |
            reviews.submit_review
              (models.set_times_correct 3
                 (models.set_times_reviewed 3
                    (models.set_srs_interval_days (Py.Float 16)
                       (models.new_UserWord models.WordStatus.KNOWN 1 0)))) 4 0
            = Py.Ok user_word'
            /\ models.status user_word' = models.WordStatus.MASTERED })
    by (eexists; split; vm_compute; reflexivity).
  destruct Hok as (user_word' & Hok & Hmastered). exists user_word'.
  split; [exact Hok|]. split; [exact Hmastered|].
  destruct (submit_review_mastered_only_if _ _ _ _ Hok Hmastered)
    as (_ & _ & _ & Hn & _).
  exact Hn.
Defined.

Lemma review_history_counters_witness :
  Forall (fun row => 0 <= models.times_correct row <= models.times_reviewed row
                     /\ models.times_seen row = 1)
         (reviews.review_history
            (models.new_UserWord models.WordStatus.LEARNING 1 0)
            [(3, 0); (9, 5); (1, 86400000000)]).
Proof.
  eapply Forall_impl.
  - apply (review_history_counters
             (models.new_UserWord models.WordStatus.LEARNING 1 0)).
    simpl. lia.
  - intros row (? & _ & _ & ? & _). auto.
Defined.

Lemma reviewed_word_due_again_witness :
  exists user_word',
    reviews.submit_review (models.new_UserWord models.WordStatus.LEARNING 1 0) 2 1000
    = Py.Ok user_word'
    /\ review_queue.due (1000 + 86400000000) (reviews.committed user_word')
    /\ ~ review_queue.due (999 + 86400000000) (reviews.committed user_word').
Proof.
  assert (Hok : { user_word' |
            reviews.submit_review
              (models.new_UserWord models.WordStatus.LEARNING 1 0) 2 1000
            = Py.Ok user_word' })
    by (eexists; vm_compute; reflexivity).
  destruct Hok as (user_word' & Hok). exists user_word'.
  split; [exact Hok|].
  destruct (reviewed_word_due_again _ _ _ _ Hok) as (n & _ & _ & _ & _ & Hfailed).
  specialize (Hfailed ltac:(lia)). split.
  - apply Hfailed. unfold Py.microseconds_per_day. lia.
  - intros Hdue. apply Hfailed in Hdue. unfold Py.microseconds_per_day in Hdue. lia.
Defined.

(** ** The review queue *)

Section ReviewQueue.
Import models.
Import review_queue.

Instance sooner_first_trans : Transitive sooner_first.
Proof.
  intros a b c. unfold sooner_first.
  destruct (next_review_at a.2), (next_review_at b.2), (next_review_at c.2);
    try tauto; lia.
Qed.

Instance sooner_first_total : Total sooner_first.
Proof.
  intros a b. unfold sooner_first.
  destruct (next_review_at a.2), (next_review_at b.2); try tauto; lia.
Qed.

(** The rows of a user are the entries of the table under the user's id. *)
Lemma elem_of_user_word_rows (db : Database) (user_id word_id : uuid) user_word :
  (word_id, user_word) ∈ user_word_rows db user_id
  <-> user_words db !! (user_id, word_id) = Some user_word.
Proof.
  unfold user_word_rows. rewrite list_elem_of_omap. split.
  - intros ([[u w] row] & Hin & Hrow). cbn in Hrow.
    destruct (bool_decide_reflect (u = user_id)) as [->|]; [|discriminate].
    injection Hrow as -> ->. now apply elem_of_map_to_list in Hin.
  - intros Hrow. exists (user_id, word_id, user_word). split.
    + now apply elem_of_map_to_list.
    + cbn. now rewrite bool_decide_eq_true_2.
Qed.

Lemma user_word_rows_keys (rows : list ((uuid * uuid) * UserWord)) (user_id : uuid) :
  (fun w => (user_id, w))
    <$> (omap (fun kv : (uuid * uuid) * UserWord =>
                 if bool_decide (kv.1.1 = user_id) then Some (kv.1.2, kv.2) else None)
              rows).*1
  `sublist_of` rows.*1.
Proof.
  induction rows as [|[[u w] row] rows IH]; [constructor|].
  cbn [omap list_omap fst snd].
  destruct (bool_decide_reflect (u = user_id)) as [->|].
  - cbn. now constructor.
  - cbn. now constructor.
Qed.

(** A user has at most one row for a word. *)
Lemma NoDup_user_word_rows (db : Database) (user_id : uuid) :
  NoDup (user_word_rows db user_id).*1.
Proof.
  apply (NoDup_fmap_1 (fun w => (user_id, w))).
  eapply sublist_NoDup; [apply (NoDup_fst_map_to_list (user_words db))|].
  apply user_word_rows_keys.
Qed.

Section DueReviews.

Variable limit_rows :
  Z -> list (uuid * UserWord) -> Py.result (list (uuid * UserWord)).

(** [LIMIT n] with [n >= 0] keeps the first [n] rows. *)
Hypothesis limit_rows_nonneg :
  forall n rows, 0 <= n -> limit_rows n rows = Py.Ok (take (Z.to_nat n) rows).


End DueReviews.

Instance Zle_total : Total Z.le.
Proof. intros a b. lia. Qed.

(** X19.  The next review time of the summary is the earliest due time after now
    among the user's rows that are not MASTERED; there is none exactly when
    every such row with a due time is already due. *)
Theorem next_review_time_is_earliest
    (db : Database) (user_id : uuid) (now : Py.datetime) :
  match next_review_time (get_review_summary db user_id now) with
  | Some t =>
      now < t
      /\ (exists word_id user_word,
            user_words db !! (user_id, word_id) = Some user_word
            /\ next_review_at user_word = Some t
            /\ status user_word <> WordStatus.MASTERED)
      /\ (forall word_id user_word t',
            user_words db !! (user_id, word_id) = Some user_word ->
            next_review_at user_word = Some t' ->
            status user_word <> WordStatus.MASTERED ->
            now < t' -> t <= t')
  | None =>
      forall word_id user_word t',
        user_words db !! (user_id, word_id) = Some user_word ->
        next_review_at user_word = Some t' ->
        status user_word <> WordStatus.MASTERED ->
        due now user_word
  end.
Proof.
  cbn [next_review_time get_review_summary].
  set (times := omap (fun r : uuid * UserWord => upcoming now r.2)
                     (user_word_rows db user_id)).
  assert (Htimes : forall t,
            t ∈ times
            <-> exists word_id user_word,
                  user_words db !! (user_id, word_id) = Some user_word
                  /\ next_review_at user_word = Some t
                  /\ now < t /\ status user_word <> WordStatus.MASTERED).
  { intros t. subst times. rewrite list_elem_of_omap. split.
    - intros ([w row] & Hin & Hup). apply elem_of_user_word_rows in Hin.
      unfold upcoming in Hup. cbn [snd] in Hup.
      destruct (next_review_at row) as [t0|] eqn:Hnext; [|discriminate].
      destruct (bool_decide_reflect (now < t0 /\ status row <> WordStatus.MASTERED))
        as [[? ?]|]; [|discriminate].
      injection Hup as <-. exists w, row. auto.
    - intros (w & row & Hrow & Hnext & Hlater & Hstatus).
      exists (w, row). split; [now apply elem_of_user_word_rows|].
      unfold upcoming. cbn [snd]. rewrite Hnext.
      now rewrite bool_decide_eq_true_2. }
  pose proof (merge_sort_Permutation Z.le times) as Hperm.
  pose proof (StronglySorted_merge_sort Z.le times) as Hsorted.
  destruct (merge_sort Z.le times) as [|t sorted]; cbn [head].
  - intros word_id user_word t' Hrow Hnext Hstatus.
    unfold due. rewrite Hnext. split; [|exact Hstatus].
    destruct (Z.le_gt_cases t' now) as [|Hlater]; [assumption|].
    assert (Hin : t' ∈ times) by (apply Htimes; eauto 10).
    rewrite <- Hperm in Hin. inversion Hin.
  - assert (Hin : t ∈ times) by (rewrite <- Hperm; left).
    apply Htimes in Hin as (w & row & Hrow & Hnext & Hlater & Hstatus).
    split; [exact Hlater|]. split; [eauto 10|].
    intros word_id user_word t' Hrow' Hnext' Hstatus' Hlater'.
    assert (Hin' : t' ∈ t :: sorted) by (rewrite Hperm; apply Htimes; eauto 10).
    apply elem_of_cons in Hin' as [->|Hin']; [lia|].
    apply StronglySorted_inv in Hsorted as [_ Hall].
    rewrite Forall_forall in Hall. now apply Hall.
Qed.

End ReviewQueue.


Example get_due_reviews_example :
  (exists rows,
     review_queue.get_due_reviews support.sqlite_limit support.db_queue "u" 20 500
     = Py.Ok rows
     /\ rows.*1 = ["w2"; "w1"]%string)
  /\ (exists rows,
        review_queue.get_due_reviews support.sqlite_limit support.db_queue "u" 1 500
        = Py.Ok rows
        /\ rows.*1 = ["w2"]%string)
  /\ (exists rows,
        review_queue.get_due_reviews support.sqlite_limit support.db_queue "u" (-1) 500
        = Py.Ok rows
        /\ rows.*1 = ["w2"; "w1"]%string)
  /\ review_queue.get_due_reviews support.sqlite_limit support.db_queue "u" 51 500
     = Py.Raise Py.RequestValidationError.
Proof.
  split; [|split; [|split]];
    [eexists; split; vm_compute; reflexivity..|reflexivity].
Qed.

Example get_review_summary_example :
  review_queue.words_due (review_queue.get_review_summary support.db_queue "u" 500) = 2
  /\ review_queue.next_review_time
       (review_queue.get_review_summary support.db_queue "u" 500) = Some 900
  /\ review_queue.next_review_time
       (review_queue.get_review_summary support.db_queue "u" 900) = None.
Proof. vm_compute. repeat split. Qed.

(** ** Known vocabulary *)

Section KnownWords.
Import models.

(** X26.  [_get_known_words] lists at most 300 words, none twice, each with a row
    of the user whose status is not NEW; below the cap it lists every such
    word. *)
Theorem _get_known_words_sound (db : Database) (user_id : uuid) :
  let known_words := story_generator._get_known_words db user_id in
  (length known_words <= 300)%nat
  /\ NoDup known_words
  /\ (forall word_id,
        word_id ∈ known_words ->
        exists user_word,
          user_words db !! (user_id, word_id) = Some user_word
          /\ status user_word <> WordStatus.NEW)
  /\ ((length known_words < 300)%nat ->
      forall word_id user_word,
        user_words db !! (user_id, word_id) = Some user_word ->
        status user_word <> WordStatus.NEW ->
        word_id ∈ known_words).
Proof.
  cbn zeta. unfold story_generator._get_known_words.
  set (rows := filter _ (user_word_rows db user_id)).
  assert (Hrows : forall word_id user_word,
            (word_id, user_word) ∈ rows
            <-> user_words db !! (user_id, word_id) = Some user_word
                /\ status user_word <> WordStatus.NEW).
  { intros word_id user_word. subst rows.
    rewrite list_elem_of_filter, elem_of_user_word_rows. cbn [snd].
    destruct (status user_word); intuition discriminate. }
  split; [rewrite length_take; lia|]. split; [|split].
  - eapply sublist_NoDup; [|apply sublist_take].
    eapply sublist_NoDup; [apply (NoDup_user_word_rows db user_id)|].
    apply fmap_sublist, sublist_filter.
  - intros word_id Hin. apply (subseteq_take 300) in Hin.
    apply list_elem_of_fmap in Hin as ([w row] & -> & Hin).
    apply Hrows in Hin. exists row. exact Hin.
  - intros Hshort word_id user_word Hrow Hstatus.
    rewrite length_take, length_fmap in Hshort.
    rewrite take_ge by (rewrite length_fmap; lia).
    apply list_elem_of_fmap. exists (word_id, user_word).
    split; [reflexivity|]. now apply Hrows.
Qed.

End KnownWords.

(** ** Marking a word as known *)

Section MarkKnown.
Import models.
Import support.

Local Open Scope float_scope.

(** X20.  [mark_word_known] answers 404 for a word that is not in the catalogue.
    Otherwise it leaves the user's row for the word KNOWN with familiarity
    0.8: an existing row keeps its other columns, a new row has the
    defaults (never seen, never reviewed, no due time).  No other row and no
    other table changes, and marking the word again changes nothing. *)
Theorem mark_word_known_effect
    (db : Database) (user_id word_id : uuid) (now : Py.datetime) :
  match words db !! word_id with
  | None =>
      words.mark_word_known db user_id word_id now = Py.Raise (Py.HTTPException 404)
  | Some _ =>
      exists db' user_word,
        words.mark_word_known db user_id word_id now = Py.Ok db'
        /\ user_words db' !! (user_id, word_id) = Some user_word
        /\ status user_word = WordStatus.KNOWN
        /\ familiarity user_word = 0.8
        /\ match user_words db !! (user_id, word_id) with
           | Some old =>
               times_seen user_word = times_seen old
               /\ times_reviewed user_word = times_reviewed old
               /\ times_correct user_word = times_correct old
               /\ last_seen_at user_word = last_seen_at old
               /\ next_review_at user_word = next_review_at old
               /\ srs_interval_days user_word = srs_interval_days old
               /\ srs_ease_factor user_word = srs_ease_factor old
               /\ source user_word = source old
               /\ created_at user_word = created_at old
           | None =>
               times_seen user_word = 0%Z
               /\ times_reviewed user_word = 0%Z
               /\ times_correct user_word = 0%Z
               /\ last_seen_at user_word = None
               /\ next_review_at user_word = None
               /\ srs_interval_days user_word = Py.Float 1
               /\ srs_ease_factor user_word = 2.5
               /\ source user_word = WordSource.SEEDED
               /\ created_at user_word = now
           end
        /\ (forall key, key <> (user_id, word_id) ->
              user_words db' !! key = user_words db !! key)
        /\ words db' = words db
        /\ grammar_concepts db' = grammar_concepts db
        /\ user_grammars db' = user_grammars db
        /\ stories db' = stories db
        /\ learning_sessions db' = learning_sessions db
        /\ (forall later,
              words.mark_word_known db' user_id word_id later = Py.Ok db')
  end.
Proof.
  unfold words.mark_word_known.
  destruct (words db !! word_id) as [word|] eqn:Hword; [|reflexivity].
  cbn [mret Py.result_ret].
  eexists _, _. split; [reflexivity|].
  cbn [stories.set_user_words user_words words grammar_concepts user_grammars
       stories learning_sessions].
  split; [apply lookup_insert_eq|].
  split; [destruct (user_words db !! (user_id, word_id)); reflexivity|].
  split; [destruct (user_words db !! (user_id, word_id)); reflexivity|].
  split; [destruct (user_words db !! (user_id, word_id)); repeat split|].
  split; [intros key Hkey; now apply lookup_insert_ne|].
  repeat (split; [reflexivity|]).
  intros later. rewrite Hword, lookup_insert_eq, insert_insert_eq.
  unfold stories.set_user_words.
  cbn [user_words words grammar_concepts user_grammars stories learning_sessions].
  destruct (user_words db !! (user_id, word_id)); reflexivity.
Qed.

(** X21.  Marking a word as known raises the user's number of known words by one,
    unless the row was KNOWN or MASTERED already; it lowers no user's
    count and no user's level.  A MASTERED word goes back to KNOWN, so that
    it is due for review again once its due time has passed; a word marked
    without having a row is never due. *)
Theorem mark_word_known_counts
    (db : Database) (user_id word_id : uuid) (now : Py.datetime) (db' : Database) :
  words.mark_word_known db user_id word_id now = Py.Ok db' ->
  count_words_known db' user_id
  = (count_words_known db user_id
     + match user_words db !! (user_id, word_id) with
       | Some old => if decide (known old) then 0 else 1
       | None => 1
       end)%Z
  /\ (forall reader, reader <> user_id ->
        count_words_known db' reader = count_words_known db reader)
  /\ (forall reader,
        (rank (story_generator._determine_user_level db reader)
         <= rank (story_generator._determine_user_level db' reader))%Z)
  /\ (forall t,
        (exists user_word,
           user_words db' !! (user_id, word_id) = Some user_word
           /\ review_queue.due t user_word)
        <-> exists old d,
              user_words db !! (user_id, word_id) = Some old
              /\ next_review_at old = Some d /\ (d <= t)%Z).
Proof.
  unfold words.mark_word_known.
  destruct (words db !! word_id) as [word|]; [|discriminate].
  cbn [mret Py.result_ret]. intros [= <-].
  set (row := match user_words db !! (user_id, word_id) with
              | Some old => _
              | None => _
              end).
  assert (Hknown : known row)
    by (subst row; destruct (user_words db !! (user_id, word_id)); left; reflexivity).
  assert (Hcount : forall reader,
            count_words_known
              (stories.set_user_words (<[(user_id, word_id) := row]> (user_words db)) db)
              reader
            = (count_words_known db reader
               + if decide (reader = user_id)
                 then match user_words db !! (user_id, word_id) with
                      | Some old => if decide (known old) then 0 else 1
                      | None => 1
                      end
                 else 0)%Z).
  { intros reader. rewrite !count_words_known_rows.
    cbn [stories.set_user_words user_words].
    rewrite (count_rows_insert known),
      (count_rows_lookup known (user_words db) (user_id, word_id)).
    cbn [fst].
    destruct (decide (reader = user_id)) as [->|Hreader].
    - rewrite decide_True by auto.
      destruct (user_words db !! (user_id, word_id)) as [old|]; [|lia].
      destruct (decide (known old)).
      + rewrite decide_True by auto. lia.
      + rewrite decide_False by tauto. lia.
    - rewrite decide_False by (intros [? ?]; congruence).
      destruct (user_words db !! (user_id, word_id)) as [old|]; [|lia].
      rewrite decide_False by (intros [? ?]; congruence). lia. }
  split; [|split; [|split]].
  - rewrite Hcount, decide_True by reflexivity. reflexivity.
  - intros reader Hreader. rewrite Hcount, decide_False by assumption. lia.
  - intros reader. unfold story_generator._determine_user_level.
    apply level_for_monotone. rewrite Hcount.
    destruct (decide (reader = user_id)); [|lia].
    destruct (user_words db !! (user_id, word_id)) as [old|]; [|lia].
    destruct (decide (known old)); lia.
  - intros t. cbn [stories.set_user_words user_words].
    rewrite lookup_insert_eq. subst row. unfold review_queue.due.
    destruct (user_words db !! (user_id, word_id)) as [old|].
    + split.
      * intros (user_word & [= <-] & Hdue & _).
        cbn [next_review_at set_familiarity set_status] in Hdue.
        destruct (next_review_at old) as [d|] eqn:Hnext; [|contradiction].
        exists old, d. repeat split; assumption.
      * intros (old' & d & [= <-] & Hnext & Hd).
        eexists. split; [reflexivity|]. cbn. rewrite Hnext.
        split; [exact Hd | discriminate].
    + split.
      * intros (user_word & [= <-] & Hdue & _). cbn in Hdue. contradiction.
      * intros (old' & d & ? & _). discriminate.
Qed.

End MarkKnown.

(** User ["v"] marks the word of [support.db_small] as known. *)
Lemma mark_word_known_counts_witness :
  exists db',
    words.mark_word_known support.db_small "v" "w1" 1000 = Py.Ok db'
    /\ models.count_words_known support.db_small "v" = 0
    /\ models.count_words_known db' "v" = 1
    /\ models.count_words_known db' "u" = 1.
Proof.
  assert (Hok : { db' | words.mark_word_known support.db_small "v" "w1" 1000
                        = Py.Ok db' }) by (eexists; reflexivity).
  destruct Hok as [db' Hok]. exists db'. split; [exact Hok|].
  destruct (mark_word_known_counts _ _ _ _ _ Hok) as (Hv & Hother & _).
  split; [vm_compute; reflexivity|]. split.
  - rewrite Hv. vm_compute. reflexivity.
  - rewrite (Hother "u"%string) by discriminate. vm_compute. reflexivity.
Defined.

(** ** Unlocking a grammar concept *)

Section Unlock.
Import models.
Import support.

(** The concepts of the rows that the prerequisite query selects: each of
    them once, and exactly the prerequisites the user has LEARNED. *)
Lemma learned_prereqs_ids (db : Database) (user_id : uuid) (prerequisite_ids : list uuid) :
  let ids := (fun r : (uuid * uuid) * UserGrammar => r.1.2)
               <$> grammar.learned_prereqs db user_id prerequisite_ids in
  NoDup ids
  /\ forall p, p ∈ ids <-> p ∈ prerequisite_ids /\ has_learned db user_id p.
Proof.
  cbn zeta. unfold grammar.learned_prereqs. split.
  - apply NoDup_fmap_2_strong; [|apply NoDup_filter, NoDup_map_to_list].
    intros [[u1 p1] ug1] [[u2 p2] ug2] H1 H2 Hp. cbn in Hp. subst p2.
    apply list_elem_of_filter in H1 as [(Hu1 & _ & _) H1].
    apply list_elem_of_filter in H2 as [(Hu2 & _ & _) H2].
    cbn in Hu1, Hu2. subst u1 u2.
    now rewrite (map_to_list_unique _ _ _ _ H1 H2).
  - intros p. rewrite list_elem_of_fmap. split.
    + intros ([[u p0] ug] & -> & Hin).
      apply list_elem_of_filter in Hin as [(Hu & Hp & Hst) Hin].
      cbn in Hu, Hp, Hst. subst u. apply elem_of_map_to_list in Hin.
      split; [exact Hp|]. exists ug. auto.
    + intros (Hp & ug & Hrow & Hst). exists (user_id, p, ug).
      split; [reflexivity|]. apply list_elem_of_filter.
      split; [cbn; auto|]. now apply elem_of_map_to_list.
Qed.

(** The prerequisite check passes exactly when the prerequisites are listed
    once each and the user has LEARNED them all. *)
Lemma prerequisites_met (db : Database) (user_id : uuid) (prerequisite_ids : list uuid) :
  bool_decide (prerequisite_ids <> [])
  && (length (grammar.learned_prereqs db user_id prerequisite_ids)
      <? length prerequisite_ids)%nat = false
  <-> NoDup prerequisite_ids
      /\ forall p, p ∈ prerequisite_ids -> has_learned db user_id p.
Proof.
  destruct (learned_prereqs_ids db user_id prerequisite_ids) as [Hnodup Hids].
  set (rows := grammar.learned_prereqs db user_id prerequisite_ids) in *.
  set (ids := (fun r : (uuid * uuid) * UserGrammar => r.1.2) <$> rows) in *.
  assert (Hlen : length ids = length rows) by apply length_fmap.
  assert (Hsub : ids ⊆+ prerequisite_ids).
  { apply NoDup_submseteq; [exact Hnodup|]. intros p Hp. now apply Hids in Hp. }
  rewrite andb_false_iff, bool_decide_eq_false, Nat.ltb_ge. split.
  - intros Hcheck.
    assert (Hall : (length prerequisite_ids <= length ids)%nat).
    { destruct Hcheck as [Hempty|]; [|lia].
      destruct prerequisite_ids; [simpl; lia|]. exfalso. apply Hempty. discriminate. }
    pose proof (submseteq_length_Permutation _ _ Hsub Hall) as Hperm.
    split; [now rewrite <- Hperm|].
    intros p Hp. rewrite <- Hperm in Hp. now apply Hids in Hp.
  - intros [Hnodup' Hall]. right. rewrite <- Hlen.
    apply submseteq_length, NoDup_submseteq; [exact Hnodup'|].
    intros p Hp. apply Hids. auto.
Qed.

(** X22.  [unlock_grammar_concept] answers 404 for a concept that does not exist,
    and 400 unless the user has LEARNED every prerequisite of the concept;
    a prerequisite list that names a concept twice is never met. *)
Theorem unlock_requires_prerequisites
    (db : Database) (user_id concept_id : uuid) (prerequisite_ids : list uuid) :
  (grammar_concepts db !! concept_id = None ->
   grammar.unlock_grammar_concept db user_id concept_id prerequisite_ids
   = Py.Raise (Py.HTTPException 404))
  /\ (is_Some (grammar_concepts db !! concept_id) ->
      ((exists db',
          grammar.unlock_grammar_concept db user_id concept_id prerequisite_ids
          = Py.Ok db')
       <-> NoDup prerequisite_ids
           /\ forall p, p ∈ prerequisite_ids -> has_learned db user_id p)
      /\ (~ (NoDup prerequisite_ids
             /\ forall p, p ∈ prerequisite_ids -> has_learned db user_id p) ->
          grammar.unlock_grammar_concept db user_id concept_id prerequisite_ids
          = Py.Raise (Py.HTTPException 400))).
Proof.
  unfold grammar.unlock_grammar_concept. split.
  - intros ->. reflexivity.
  - intros [concept ->].
    pose proof (prerequisites_met db user_id prerequisite_ids) as Hmet.
    destruct (bool_decide _ && _).
    + split; [|reflexivity]. split.
      * intros [db' ?]. discriminate.
      * intros Hall. apply Hmet in Hall. discriminate.
    + split; [|intros Hnot; exfalso; apply Hnot, Hmet; reflexivity].
      split; [intros _; now apply Hmet | intros _; eexists; reflexivity].
Qed.

(** X23.  An unlock that goes through leaves the user's row for the concept
    AVAILABLE when there was none or it was LOCKED, and as it was otherwise
    (LEARNING and LEARNED are kept); no other row and no other table
    changes; the concept is then practised in stories unless it is LEARNED;
    and unlocking again changes nothing. *)
Theorem unlock_grammar_concept_effect
    (db : Database) (user_id concept_id : uuid) (prerequisite_ids : list uuid)
    (db' : Database) :
  grammar.unlock_grammar_concept db user_id concept_id prerequisite_ids = Py.Ok db' ->
  (exists user_grammar,
     user_grammars db' !! (user_id, concept_id) = Some user_grammar
     /\ grammar_status user_grammar <> GrammarStatus.LOCKED
     /\ match user_grammars db !! (user_id, concept_id) with
        | Some old =>
            grammar_status user_grammar
            = (if bool_decide (grammar_status old = GrammarStatus.LOCKED)
               then GrammarStatus.AVAILABLE else grammar_status old)
            /\ comfort_score user_grammar = comfort_score old
        | None =>
            grammar_status user_grammar = GrammarStatus.AVAILABLE
            /\ comfort_score user_grammar = 0%float
        end
     /\ (grammar_status user_grammar <> GrammarStatus.LEARNED ->
         story_generator.in_practice (user_grammars db' !! (user_id, concept_id))
         /\ story_generator._get_available_grammar db' user_id None <> []))
  /\ (forall key, key <> (user_id, concept_id) ->
        user_grammars db' !! key = user_grammars db !! key)
  /\ words db' = words db
  /\ grammar_concepts db' = grammar_concepts db
  /\ user_words db' = user_words db
  /\ stories db' = stories db
  /\ learning_sessions db' = learning_sessions db
  /\ grammar.unlock_grammar_concept db' user_id concept_id prerequisite_ids = Py.Ok db'.
Proof.
  intros Hok.
  assert (Hmet : NoDup prerequisite_ids
                 /\ forall p, p ∈ prerequisite_ids -> has_learned db user_id p).
  { unfold grammar.unlock_grammar_concept in Hok.
    destruct (grammar_concepts db !! concept_id); [|discriminate].
    apply prerequisites_met. destruct (bool_decide _ && _); [discriminate | reflexivity]. }
  unfold grammar.unlock_grammar_concept in Hok.
  destruct (grammar_concepts db !! concept_id) as [concept|] eqn:Hconcept;
    [|discriminate].
  destruct (bool_decide _ && _); [discriminate|].
  cbn [mret Py.result_ret] in Hok. injection Hok as <-.
  set (row := match user_grammars db !! (user_id, concept_id) with
              | Some old => _
              | None => _
              end).
  cbn [grammar.set_user_grammars user_grammars words grammar_concepts user_words
       stories learning_sessions].
  assert (Hrow : grammar_status row <> GrammarStatus.LOCKED
                 /\ match user_grammars db !! (user_id, concept_id) with
                    | Some old =>
                        grammar_status row
                        = (if bool_decide (grammar_status old = GrammarStatus.LOCKED)
                           then GrammarStatus.AVAILABLE else grammar_status old)
                        /\ comfort_score row = comfort_score old
                    | None =>
                        grammar_status row = GrammarStatus.AVAILABLE
                        /\ comfort_score row = 0%float
                    end).
  { subst row. destruct (user_grammars db !! (user_id, concept_id)) as [old|].
    - destruct (bool_decide_reflect (grammar_status old = GrammarStatus.LOCKED));
        cbn; (split; [assumption || discriminate | auto]).
    - cbn. split; [discriminate | auto]. }
  destruct Hrow as [Hunlocked Hrow].
  split; [|split; [intros key Hkey; now apply lookup_insert_ne|]].
  - exists row. rewrite lookup_insert_eq.
    split; [reflexivity|]. split; [exact Hunlocked|]. split; [exact Hrow|].
    intros Hlearning.
    assert (Hpractice : story_generator.in_practice (Some row)).
    { cbn. destruct (grammar_status row); try contradiction; auto. }
    split; [exact Hpractice|].
    unfold story_generator._get_available_grammar.
    cbn [grammar.set_user_grammars user_grammars grammar_concepts].
    set (candidates := filter _ (map_to_list (grammar_concepts db))).
    assert (Hin : (concept_id, concept) ∈ candidates).
    { subst candidates. apply list_elem_of_filter. split.
      - cbn [fst]. rewrite lookup_insert_eq. exact Hpractice.
      - now apply elem_of_map_to_list. }
    pose proof (merge_sort_Permutation story_generator.by_sort_order candidates) as Hperm.
    destruct (merge_sort story_generator.by_sort_order candidates) as [|first rest];
      [|discriminate].
    rewrite <- Hperm in Hin. inversion Hin.
  - repeat (split; [reflexivity|]).
    unfold grammar.unlock_grammar_concept.
    cbn [grammar.set_user_grammars user_grammars words grammar_concepts user_words
         stories learning_sessions].
    rewrite Hconcept.
    assert (Hmet' : bool_decide (prerequisite_ids <> [])
              && (length (grammar.learned_prereqs
                            (grammar.set_user_grammars
                               (<[(user_id, concept_id) := row]> (user_grammars db)) db)
                            user_id prerequisite_ids)
                  <? length prerequisite_ids)%nat = false).
    { apply prerequisites_met. split; [apply Hmet|].
      intros p Hp. destruct Hmet as [_ Hall].
      destruct (Hall p Hp) as (ug & Hug & Hst). unfold has_learned.
      cbn [grammar.set_user_grammars user_grammars].
      destruct (decide (p = concept_id)) as [->|Hne].
      - exists row. rewrite lookup_insert_eq. split; [reflexivity|].
        rewrite Hug in Hrow. destruct Hrow as [-> _].
        rewrite Hst. reflexivity.
      - exists ug. rewrite lookup_insert_ne by congruence. auto. }
    unfold grammar.set_user_grammars in Hmet'.
    cbn [user_grammars] in Hmet'. unfold grammar.set_user_grammars.
    cbn [user_grammars words grammar_concepts user_words stories learning_sessions].
    rewrite Hmet'. cbn [mret Py.result_ret].
    rewrite lookup_insert_eq, insert_insert_eq.
    assert (Hsame : (if bool_decide (grammar_status row = GrammarStatus.LOCKED)
                     then {| grammar_status := GrammarStatus.AVAILABLE;
                             comfort_score := comfort_score row |}
                     else row) = row)
      by now rewrite bool_decide_eq_false_2.
    rewrite Hsame. reflexivity.
Qed.

End Unlock.

(** User ["u"] of [support.db_small], who has LEARNED ["g1"], unlocks ["g2"],
    which requires ["g1"]; user ["v"] may not. *)
Lemma unlock_grammar_concept_effect_witness :
  exists db',
    grammar.unlock_grammar_concept support.db_small "u" "g2" ["g1"%string] = Py.Ok db'
    /\ (exists user_grammar,
          models.user_grammars db' !! ("u", "g2")%string = Some user_grammar
          /\ models.grammar_status user_grammar = models.GrammarStatus.AVAILABLE)
    /\ grammar.unlock_grammar_concept support.db_small "v" "g2" ["g1"%string]
       = Py.Raise (Py.HTTPException 400).
Proof.
  assert (Hok : { db' | grammar.unlock_grammar_concept support.db_small "u" "g2"
                          ["g1"%string] = Py.Ok db' })
    by (eexists; vm_compute; reflexivity).
  destruct Hok as [db' Hok]. exists db'. split; [exact Hok|].
  destruct (unlock_grammar_concept_effect _ _ _ _ _ Hok)
    as ((user_grammar & Hrow & _ & Hstatus & _) & _).
  split; [|vm_compute; reflexivity].
  exists user_grammar. split; [exact Hrow|].
  match type of Hstatus with
  | match ?found with _ => _ end =>
      assert (Hnone : found = None) by (vm_compute; reflexivity);
      rewrite Hnone in Hstatus
  end.
  apply Hstatus.
Defined.

(** ** Fenced responses *)

Section Unfence.

Local Open Scope string_scope.

Lemma append_cons (c : ascii) (s t : string) : String c s +:+ t = String c (s +:+ t).
Proof. reflexivity. Qed.

Lemma append_assoc (s1 s2 s3 : string) : (s1 +:+ s2) +:+ s3 = s1 +:+ (s2 +:+ s3).
Proof. induction s1 as [|c s1 IH]; [reflexivity|]. rewrite !append_cons. now f_equal. Qed.

Lemma append_nil_r (s : string) : s +:+ EmptyString = s.
Proof. induction s as [|c s IH]; [reflexivity|]. rewrite append_cons. now f_equal. Qed.

Lemma contains_backtick_cons (c : ascii) (s : string) :
  Py.contains "`" (String c s) = false -> c <> "`"%char /\ Py.contains "`" s = false.
Proof.
  cbn [Py.contains String.prefix]. intros H. apply orb_false_iff in H as [Hc Hs].
  split; [|exact Hs]. intros ->. destruct s; discriminate.
Qed.

Lemma prefix_app_same (sep rest : string) : String.prefix sep (sep +:+ rest) = true.
Proof.
  induction sep as [|a sep IH]; simpl; [now destruct rest|].
  destruct (ascii_dec a a); [exact IH | contradiction].
Qed.

(** Skipping the rest of a separator that was found. *)
Lemma split_from_skip (sep x cur rest : string) :
  Py.split_from sep (String.length x) cur (x +:+ rest) = Py.split_from sep 0 cur rest.
Proof. induction x as [|c x IH]; cbn; [now destruct rest | exact IH]. Qed.

(** A separator at the head closes the current part. *)
Lemma split_from_found (a : ascii) (sep' cur rest : string) :
  Py.split_from (String a sep') 0 cur (String a sep' +:+ rest)
  = cur :: Py.split_from (String a sep') 0 EmptyString rest.
Proof.
  change (String a sep' +:+ rest) with (String a (sep' +:+ rest)).
  cbn [Py.split_from].
  change (String a (sep' +:+ rest)) with (String a sep' +:+ rest).
  rewrite prefix_app_same. f_equal.
  replace (String.length (String a sep') - 1)%nat with (String.length sep')
    by (cbn [String.length]; lia).
  apply split_from_skip.
Qed.

(** A text without a backtick holds no separator that starts with one. *)
Lemma split_from_plain (sep' body cur rest : string) :
  Py.contains "`" body = false ->
  Py.split_from (String "`"%char sep') 0 cur (body +:+ rest)
  = Py.split_from (String "`"%char sep') 0 (cur +:+ body) rest.
Proof.
  revert cur. induction body as [|c body IH]; intros cur Hplain.
  - now rewrite append_nil_r.
  - apply contains_backtick_cons in Hplain as [Hc Hplain].
    change (String c body +:+ rest) with (String c (body +:+ rest)).
    cbn [Py.split_from String.prefix].
    destruct (ascii_dec "`"%char c) as [Heq|_]; [congruence|].
    rewrite IH by assumption. now rewrite append_assoc.
Qed.

Lemma split_plain (sep' body : string) :
  Py.contains "`" body = false ->
  Py.split (String "`"%char sep') body = [body].
Proof.
  intros Hplain. unfold Py.split.
  rewrite <- (append_nil_r body) at 1. now rewrite split_from_plain.
Qed.

(** The first part ends where the separator is first found. *)
Lemma split_plain_then_sep (sep' body rest : string) :
  Py.contains "`" body = false ->
  Py.split (String "`"%char sep') (body +:+ String "`"%char sep' +:+ rest)
  = body :: Py.split (String "`"%char sep') rest.
Proof.
  intros Hplain. unfold Py.split.
  rewrite split_from_plain by assumption. apply split_from_found.
Qed.

Lemma contains_prefix (sub s : string) :
  String.prefix sub s = true -> Py.contains sub s = true.
Proof. intros H. destruct s; cbn [Py.contains]; now rewrite H. Qed.

Lemma contains_app_sep (sep pre rest : string) :
  Py.contains sep (pre +:+ sep +:+ rest) = true.
Proof.
  induction pre as [|c pre IH].
  - change (EmptyString +:+ sep +:+ rest) with (sep +:+ rest).
    apply contains_prefix, prefix_app_same.
  - rewrite append_cons. cbn [Py.contains]. rewrite IH. apply orb_true_r.
Qed.

Lemma prefix_append (sub s : string) :
  String.prefix sub s = true -> exists rest, s = sub +:+ rest.
Proof.
  revert s. induction sub as [|a sub IH]; intros s H; [now exists s|].
  destruct s as [|c s]; [discriminate|]. simpl in H.
  destruct (ascii_dec a c) as [->|]; [|discriminate].
  destruct (IH s H) as [rest ->]. now exists rest.
Qed.

Lemma split_from_miss (sep cur : string) (c : ascii) (s : string) :
  String.prefix sep (String c s) = false ->
  Py.split_from sep 0 cur (String c s)
  = Py.split_from sep 0 (cur +:+ String c EmptyString) s.
Proof. intros H. cbn [Py.split_from]. now rewrite H. Qed.

(** What follows the opening fence, up to the next ["```json"]: the body,
    alone or with the closing fence and the text after it. *)
Lemma split_json_tail (body post : string) :
  Py.contains "`" body = false -> Py.contains "`" post = false ->
  exists tail parts,
    Py.split "```json" (body +:+ "```" +:+ post) = (body +:+ tail) :: parts
    /\ (tail = EmptyString \/ tail = "```" +:+ post).
Proof.
  intros Hbody Hpost. unfold Py.split.
  rewrite split_from_plain by assumption.
  change (EmptyString +:+ body) with body.
  destruct (String.prefix "json" post) eqn:Hjson.
  - apply prefix_append in Hjson as [post' ->].
    exists EmptyString. eexists. split; [|now left].
    change ("```" +:+ "json" +:+ post') with ("```json" +:+ post').
    rewrite split_from_found, append_nil_r. reflexivity.
  - exists ("```" +:+ post), []. split; [|now right].
    assert (Hnext : forall sep', String.prefix (String "`"%char sep') post = false).
    { intros sep'. destruct post as [|c post']; [reflexivity|].
      apply contains_backtick_cons in Hpost as [Hc _]. cbn [String.prefix].
      destruct (ascii_dec "`"%char c); [congruence | reflexivity]. }
    change ("```" +:+ post) with (String "`" (String "`" (String "`" post))) at 1.
    rewrite split_from_miss by exact Hjson.
    rewrite split_from_miss by exact (Hnext "json").
    rewrite split_from_miss by exact (Hnext "`json").
    rewrite <- (append_nil_r post) at 1.
    rewrite split_from_plain by assumption.
    cbn [Py.split_from]. rewrite !append_assoc. reflexivity.
Qed.

Variable json_loads : string -> Py.result Py.json.

(** X24.  A response that carries its body in a ["```json"] fence is read as the
    body alone, whatever stands before the fence and after it, when the
    fences are the only backticks of the response; a fence that is not
    closed is read to the end.  So the story parser and the grader see the
    body as if it had come without a fence. *)
Theorem unfence_fenced_body (pre body post : string) :
  Py.contains "`" pre = false ->
  Py.contains "`" body = false ->
  Py.contains "`" post = false ->
  story_generator.unfence (pre +:+ "```json" +:+ body +:+ "```" +:+ post) = Py.Ok body
  /\ story_generator.unfence (pre +:+ "```json" +:+ body) = Py.Ok body
  /\ story_generator.unfence body = Py.Ok body
  /\ story_generator._parse_response json_loads
       (pre +:+ "```json" +:+ body +:+ "```" +:+ post)
     = story_generator._parse_response json_loads body
  /\ (forall exercise user_answer rest,
        exercise_evaluator.evaluate_with_llm json_loads
          (exercise_evaluator.LlmMessage
             ((pre +:+ "```json" +:+ body +:+ "```" +:+ post) :: rest))
          exercise user_answer
        = exercise_evaluator.evaluate_with_llm json_loads
            (exercise_evaluator.LlmMessage (body :: rest)) exercise user_answer).
Proof.
  intros Hpre Hbody Hpost.
  assert (Hfenced : story_generator.unfence
                      (pre +:+ "```json" +:+ body +:+ "```" +:+ post) = Py.Ok body).
  { unfold story_generator.unfence.
    rewrite (contains_app_sep "```json").
    rewrite (split_plain_then_sep "``json") by assumption.
    destruct (split_json_tail body post Hbody Hpost) as (tail & parts & -> & Htail).
    cbn [Py.getitem lookup list_lookup mbind Py.result_bind].
    destruct Htail as [-> | ->].
    - rewrite append_nil_r, (split_plain "``") by assumption. reflexivity.
    - rewrite (split_plain_then_sep "``") by assumption. reflexivity. }
  assert (Hopen : story_generator.unfence (pre +:+ "```json" +:+ body) = Py.Ok body).
  { unfold story_generator.unfence.
    rewrite (contains_app_sep "```json").
    rewrite (split_plain_then_sep "``json") by assumption.
    rewrite (split_plain "``json") by assumption.
    cbn [Py.getitem lookup list_lookup mbind Py.result_bind].
    rewrite (split_plain "``") by assumption. reflexivity. }
  assert (Hbare : story_generator.unfence body = Py.Ok body).
  { unfold story_generator.unfence.
    assert (Hnone : forall sep', Py.contains (String "`"%char sep') body = false).
    { intros sep'. clear Hfenced Hopen. induction body as [|c b IH]; [reflexivity|].
      apply contains_backtick_cons in Hbody as [Hc Hb].
      cbn [Py.contains String.prefix].
      destruct (ascii_dec "`"%char c); [congruence|]. now apply IH. }
    now rewrite !Hnone. }
  split; [exact Hfenced|]. split; [exact Hopen|]. split; [exact Hbare|]. split.
  - unfold story_generator._parse_response. now rewrite Hfenced, Hbare.
  - intros exercise user_answer rest.
    unfold exercise_evaluator.evaluate_with_llm, exercise_evaluator.llm_verdict.
    cbn [Py.getitem lookup list_lookup mbind Py.result_bind].
    now rewrite Hfenced, Hbare.
Qed.

End Unfence.

(** A verdict in a fence, with a sentence before it and a line break after. *)
Lemma unfence_fenced_body_witness :
  story_generator.unfence "Here it is: ```json{}```"
  = Py.Ok "{}"%string.
Proof.
  destruct (unfence_fenced_body (fun _ => Py.Raise Py.JSONDecodeError) "Here it is: " "{}" ""
              eq_refl eq_refl eq_refl) as (Hfenced & _).
  exact Hfenced.
Defined.
